(** * companion-tui: the terminal client, the NDJSON server and the SDK bridge

    A shallow embedding of the message handling of
    - [src/tui.ts] (the terminal client of the Companion server),
    - [companion-client.ts] (the WebSocket client the terminal client uses),
    - [ndjson-server.ts] (the stand-alone NDJSON server), and
    - [src/sdk-bridge.ts] (event bus and user-message queue),
    together with the properties of the event relay they implement.

    Conventions.
    - Every JavaScript object that is created with [new] gets a fresh
      identifier from an allocation counter; mutable text of a component
      ([Markdown.setText], [Loader.setMessage]) lives in a heap indexed by
      that identifier, so that two variables holding the same component see
      the same text.
    - Built-ins of the runtime that the source calls ([JSON.parse],
      [JSON.stringify], [String.prototype.trim], [Number.prototype.toFixed])
      are parameters, bundled in the record [Runtime].
    - [chalk] is taken at colour level 0, where each style is the identity:
      the text of a component is recorded unstyled.
    - [tui.requestRender], [loader.start] and [loader.stop] only drive the
      renderer and are not part of the state. *)

From Stdlib Require Import ZArith Ascii String List Bool Lia.
From Stdlib Require Import QArith Qcanon.
From stdpp Require Import base option list gmap strings numbers pretty.

Set Warnings "-register-all".

Open Scope string_scope.

(** ** JavaScript values and objects *)

(** A [number] is only stored and copied by the code below. *)
Abbreviation number := Qc (only parsing).

Inductive JsValue :=
  | JsUndefined
  | JsNull
  | JsBool (b : bool)
  | JsNum (n : number)
  | JsStr (s : string)
  | JsArr (items : list JsValue)
  | JsObj (fields : list (string * JsValue)).

(** An object used as a record of named properties. *)
Abbreviation JsObject := (gmap string JsValue) (only parsing).

(** [Object.assign(target, source)]: every own property of [source] is
    written to [target]; the other properties of [target] stay. *)
Definition Object_assign (target source : JsObject) : JsObject :=
  source ∪ target.

(** ** Protocol types ([types.ts]) *)

Inductive ContentBlock :=
  | text_block (text : string)
  | tool_use (id name : string) (input : JsObject)
  | tool_result (tool_use_id : string) (content : string + list ContentBlock)
                (is_error : option bool)
  | thinking_block (thinking : string).

(** [SessionState] and [Partial<SessionState>] are objects whose properties
    ([model], [cwd], [total_cost_usd], [num_turns], ...) are read by name. *)
Abbreviation SessionState := JsObject (only parsing).

Record PermissionRequest := {
  request_id : string;
  tool_name : string;
  input : JsObject;
  description : option string;
  tool_use_id : string;
  agent_id : option string;
  timestamp : number;
}.

Record ResultData := {
  subtype : string;
  is_error : bool;
  result_text : option string;
  errors : option (list string);
  duration_ms : number;
  duration_api_ms : number;
  num_turns : number;
  total_cost_usd : number;
  result_session_id : string;
}.

Inductive McpStatus := mcp_connected | mcp_failed | mcp_disabled | mcp_connecting.

Record McpServerDetail := {
  mcp_name : string;
  mcp_status_of : McpStatus;
  mcp_error : option string;
  mcp_config_type : string;
  mcp_scope : string;
  mcp_tools : option (list string);
}.

Inductive Delta :=
  | text_delta (text : string)
  | thinking_delta (thinking : string)
  | input_json_delta (partial_json : string).

Inductive StreamEvent :=
  | content_block_start (index : nat) (content_block : ContentBlock)
  | content_block_delta (index : nat) (delta : Delta)
  | content_block_stop (index : nat)
  | message_start (id model role : string)
  | message_delta (stop_reason : string)
  | message_stop.

Inductive Status := compacting | idle | running.

(** Messages from the Companion server.  Every variant carries the optional
    [seq] of [types.ts]; [Some n] stands for a property [seq] that is a
    number. *)
Inductive ServerMessage :=
  | session_init (session : SessionState) (seq : option Z)
  | session_update (session : SessionState) (seq : option Z)
  | assistant (content : list ContentBlock) (seq : option Z)
  | stream_event (event : StreamEvent) (seq : option Z)
  | result (data : ResultData) (seq : option Z)
  | permission_request (request : PermissionRequest) (seq : option Z)
  | permission_cancelled (request_id : string) (seq : option Z)
  | tool_progress (tool_use_id tool_name : string)
                  (elapsed_time_seconds : number) (seq : option Z)
  | tool_use_summary (summary : string) (tool_use_ids : list string)
                     (seq : option Z)
  | status_change (status : option Status) (seq : option Z)
  | error (message : string) (seq : option Z)
  | cli_disconnected (seq : option Z)
  | cli_connected (seq : option Z)
  | user_message (content : string) (sender_client_id : option string)
                 (seq : option Z)
  | message_history (messages : list ServerMessage) (seq : option Z)
  | event_replay (events : list (ServerMessage * Z)) (seq : option Z)
  | session_name_update (name : string) (seq : option Z)
  | mcp_status (servers : list McpServerDetail) (seq : option Z).

(** The top-level [seq] of a message, as read by
    ["seq" in msg && typeof msg.seq === "number"]. *)
Definition seq_of (msg : ServerMessage) : option Z :=
  match msg with
  | session_init _ s | session_update _ s | assistant _ s | stream_event _ s
  | result _ s | permission_request _ s | permission_cancelled _ s
  | tool_progress _ _ _ s | tool_use_summary _ _ s | status_change _ s
  | error _ s | cli_disconnected s | cli_connected s | user_message _ _ s
  | message_history _ s | event_replay _ s | session_name_update _ s
  | mcp_status _ s => s
  end.

Inductive Behavior := allow | deny.

(** Messages to the Companion server.  [client_msg_id] is the value drawn
    from [crypto.randomUUID()]. *)
Inductive ClientMessage :=
  | c_user_message (content : string) (client_msg_id : nat)
  | c_permission_response (request_id : string) (behavior : Behavior)
                          (client_msg_id : nat)
  | c_session_subscribe (last_seq : Z) (client_id : string)
  | c_session_ack (last_seq : Z)
  | c_interrupt (client_msg_id : nat)
  | c_set_model (model : string) (client_msg_id : nat)
  | c_set_permission_mode (mode : string) (client_msg_id : nat)
  | c_mcp_get_status (client_msg_id : nat)
  | c_mcp_toggle (serverName : string) (enabled : bool) (client_msg_id : nat)
  | c_mcp_reconnect (serverName : string) (client_msg_id : nat).

(** ** Runtime built-ins *)

Record Runtime := {
  (** [JSON.parse(data) as ServerMessage]; [None] when it throws. *)
  JSON_parse : string -> option ServerMessage;
  (** [JSON.stringify(input, null, 2)]. *)
  JSON_stringify : JsObject -> string;
  (** [s.trim()]. *)
  trim : string -> string;
  (** [n.toFixed(digits)]. *)
  toFixed : number -> nat -> string;
  (** Conversion of a value to a string in a template literal. *)
  String_ : JsValue -> string;
  (** [s.toLowerCase()]. *)
  toLowerCase : string -> string;
  (** [s.split(/\s+/)]. *)
  split_whitespace : string -> list string;
  (** [s.match(/^(\d+)([tr])$/i)]: the two groups of a match. *)
  match_mcp_action : string -> option (string * string);
  (** [parseInt(s, 10)]. *)
  parseInt : string -> Z;
}.

(** [o.k]: the value of a property, [undefined] when the object has none. *)
Definition prop (o : JsObject) (k : string) : JsValue :=
  default JsUndefined (o !! k).

(** [parts.join(sep)]. *)
Definition join (sep : string) (parts : list string) : string :=
  String.concat sep parts.

(** ** Computations that may throw *)

Inductive Completion (A : Type) :=
  | Normal (a : A)
  | Throw (exn : JsValue).

Arguments Normal {A} a.
Arguments Throw {A} exn.

(** A computation on a state [S] that returns or throws; what it did to the
    state before it threw stays done. *)
Definition Js (S A : Type) : Type := S -> S * Completion A.

Definition ret {S A} (a : A) : Js S A :=
  fun s => (s, Normal a).

Definition throw {S A} (exn : JsValue) : Js S A :=
  fun s => (s, Throw exn).

Definition bind {S A B} (m : Js S A) (k : A -> Js S B) : Js S B :=
  fun s =>
    match m s with
    | (s', Normal a) => k a s'
    | (s', Throw exn) => (s', Throw exn)
    end.

(** [try { m } catch (exn) { handler(exn) }]. *)
Definition try_catch {S A} (m : Js S A) (handler : JsValue -> Js S A)
    : Js S A :=
  fun s =>
    match m s with
    | (s', Normal a) => (s', Normal a)
    | (s', Throw exn) => handler exn s'
    end.

(** [for (const x of l) { body(x) }]. *)
Fixpoint for_of {S A} (l : list A) (body : A -> Js S unit) : Js S unit :=
  match l with
  | [] => ret tt
  | x :: l' => bind (body x) (fun _ => for_of l' body)
  end.

(** [s.split("\n")]. *)
Fixpoint split_lines (s : string) : list string :=
  match s with
  | EmptyString => [""]
  | String c s' =>
      if Ascii.eqb c "010"%char then "" :: split_lines s'
      else
        match split_lines s' with
        | line :: lines => String c line :: lines
        | [] => [String c ""]
        end
  end.

(** A string is truthy when it is not empty. *)
Definition truthy (s : string) : bool :=
  negb (String.eqb s "").

(** * The terminal client ([src/tui.ts] with [companion-client.ts]) *)

Module Tui.

(** ** Components *)

Inductive Picker := ModelPicker | ModePicker.

(** The components that [main] puts into the container.  [statusBar],
    [header] and [editor] are created once; every other component carries the
    identifier it got when it was created. *)
Inductive Component :=
  | StatusBarC
  | HeaderC
  | EditorC
  | Spacer (id : nat)
  | Text (id : nat)
  | Markdown (id : nat)
  | Loader (id : nat)
  | PermissionBanner (id : nat) (request : PermissionRequest)
  | SelectList (id : nat) (picker : Picker).

(** Object identity ([===] on components). *)
Definition same (a b : Component) : bool :=
  match a, b with
  | StatusBarC, StatusBarC | HeaderC, HeaderC | EditorC, EditorC => true
  | Spacer i, Spacer j | Text i, Text j | Markdown i, Markdown j
  | Loader i, Loader j | PermissionBanner i _, PermissionBanner j _
  | SelectList i _, SelectList j _ => Nat.eqb i j
  | _, _ => false
  end.

Inductive ReadyState := CONNECTING | OPEN | CLOSING | CLOSED.

Inductive ConnectionStatus := connecting | connected | disconnected.

(** ** State *)

(** CompanionClient: the private fields of the class, the frames
    written with [ws.send] (oldest first) and the source of
    [crypto.randomUUID()]. *)
Record Client := {
  ws : option ReadyState;
  lastSeq : Z;
  reconnectTimer : bool;
  disposed : bool;
  clientId : string;
  sent : list ClientMessage;
  uuid : nat;
}.

(** The [TUI] container of pi-tui: its children, the focused component,
    the text of the components and the allocation counter. *)
Record Tui := {
  children : list Component;
  focus : option Component;
  texts : gmap nat string;
  nextId : nat;
}.

(** The fields of [StatusBar] that the handlers write. *)
Record StatusBar := {
  connectionStatus : ConnectionStatus;
  session : option SessionState;
  isRunning : bool;
  gitBranch : option string;
}.

(** The variables of [main] that its closures share, [editor.disableSubmit],
    the text of [header], the pending [setTimeout] calls of the MCP refresh and
    whether [process.exit] was called. *)
Record Main := {
  streamingText : string;
  streamingMd : option nat;
  loader : option nat;
  permissionBanner : option Component;
  locallyTriggered : bool;
  lastMcpServers : list McpServerDetail;
  lastCtrlC : Z;
  headerText : string;
  disableSubmit : bool;
  mcpTimers : nat;
  exited : bool;
}.

Record State := {
  client : Client;
  tui : Tui;
  statusBar : StatusBar;
  vars : Main;
}.

(** Field updates. *)
Definition upd_client (f : Client -> Client) (st : State) : State :=
  {| client := f (client st); tui := tui st; statusBar := statusBar st; vars := vars st |}.
Definition upd_tui (f : Tui -> Tui) (st : State) : State :=
  {| client := client st; tui := f (tui st); statusBar := statusBar st; vars := vars st |}.
Definition upd_statusBar (f : StatusBar -> StatusBar) (st : State) : State :=
  {| client := client st; tui := tui st; statusBar := f (statusBar st); vars := vars st |}.
Definition upd_vars (f : Main -> Main) (st : State) : State :=
  {| client := client st; tui := tui st; statusBar := statusBar st; vars := f (vars st) |}.
Definition set_ws (v : option ReadyState) : State -> State :=
  upd_client (fun x =>
    {| ws := v; lastSeq := lastSeq x; reconnectTimer := reconnectTimer x;
       disposed := disposed x; clientId := clientId x; sent := sent x;
       uuid := uuid x |}).
Definition set_lastSeq (v : Z) : State -> State :=
  upd_client (fun x =>
    {| ws := ws x; lastSeq := v; reconnectTimer := reconnectTimer x;
       disposed := disposed x; clientId := clientId x; sent := sent x;
       uuid := uuid x |}).
Definition set_reconnectTimer (v : bool) : State -> State :=
  upd_client (fun x =>
    {| ws := ws x; lastSeq := lastSeq x; reconnectTimer := v;
       disposed := disposed x; clientId := clientId x; sent := sent x;
       uuid := uuid x |}).
Definition set_disposed (v : bool) : State -> State :=
  upd_client (fun x =>
    {| ws := ws x; lastSeq := lastSeq x; reconnectTimer := reconnectTimer x;
       disposed := v; clientId := clientId x; sent := sent x;
       uuid := uuid x |}).
Definition set_clientId (v : string) : State -> State :=
  upd_client (fun x =>
    {| ws := ws x; lastSeq := lastSeq x; reconnectTimer := reconnectTimer x;
       disposed := disposed x; clientId := v; sent := sent x;
       uuid := uuid x |}).
Definition set_sent (v : list ClientMessage) : State -> State :=
  upd_client (fun x =>
    {| ws := ws x; lastSeq := lastSeq x; reconnectTimer := reconnectTimer x;
       disposed := disposed x; clientId := clientId x; sent := v;
       uuid := uuid x |}).
Definition set_uuid (v : nat) : State -> State :=
  upd_client (fun x =>
    {| ws := ws x; lastSeq := lastSeq x; reconnectTimer := reconnectTimer x;
       disposed := disposed x; clientId := clientId x; sent := sent x;
       uuid := v |}).
Definition set_children (v : list Component) : State -> State :=
  upd_tui (fun x =>
    {| children := v; focus := focus x; texts := texts x;
       nextId := nextId x |}).
Definition set_focus (v : option Component) : State -> State :=
  upd_tui (fun x =>
    {| children := children x; focus := v; texts := texts x;
       nextId := nextId x |}).
Definition set_texts (v : gmap nat string) : State -> State :=
  upd_tui (fun x =>
    {| children := children x; focus := focus x; texts := v;
       nextId := nextId x |}).
Definition set_nextId (v : nat) : State -> State :=
  upd_tui (fun x =>
    {| children := children x; focus := focus x; texts := texts x;
       nextId := v |}).
Definition set_connectionStatus (v : ConnectionStatus) : State -> State :=
  upd_statusBar (fun x =>
    {| connectionStatus := v; session := session x; isRunning := isRunning x;
       gitBranch := gitBranch x |}).
Definition set_session (v : option SessionState) : State -> State :=
  upd_statusBar (fun x =>
    {| connectionStatus := connectionStatus x; session := v;
       isRunning := isRunning x; gitBranch := gitBranch x |}).
Definition set_isRunning (v : bool) : State -> State :=
  upd_statusBar (fun x =>
    {| connectionStatus := connectionStatus x; session := session x;
       isRunning := v; gitBranch := gitBranch x |}).
Definition set_gitBranch (v : option string) : State -> State :=
  upd_statusBar (fun x =>
    {| connectionStatus := connectionStatus x; session := session x;
       isRunning := isRunning x; gitBranch := v |}).
Definition set_streamingText (v : string) : State -> State :=
  upd_vars (fun x =>
    {| streamingText := v; streamingMd := streamingMd x; loader := loader x;
       permissionBanner := permissionBanner x;
       locallyTriggered := locallyTriggered x;
       lastMcpServers := lastMcpServers x; lastCtrlC := lastCtrlC x;
       headerText := headerText x; disableSubmit := disableSubmit x;
       mcpTimers := mcpTimers x; exited := exited x |}).
Definition set_streamingMd (v : option nat) : State -> State :=
  upd_vars (fun x =>
    {| streamingText := streamingText x; streamingMd := v;
       loader := loader x; permissionBanner := permissionBanner x;
       locallyTriggered := locallyTriggered x;
       lastMcpServers := lastMcpServers x; lastCtrlC := lastCtrlC x;
       headerText := headerText x; disableSubmit := disableSubmit x;
       mcpTimers := mcpTimers x; exited := exited x |}).
Definition set_loader (v : option nat) : State -> State :=
  upd_vars (fun x =>
    {| streamingText := streamingText x; streamingMd := streamingMd x;
       loader := v; permissionBanner := permissionBanner x;
       locallyTriggered := locallyTriggered x;
       lastMcpServers := lastMcpServers x; lastCtrlC := lastCtrlC x;
       headerText := headerText x; disableSubmit := disableSubmit x;
       mcpTimers := mcpTimers x; exited := exited x |}).
Definition set_permissionBanner (v : option Component) : State -> State :=
  upd_vars (fun x =>
    {| streamingText := streamingText x; streamingMd := streamingMd x;
       loader := loader x; permissionBanner := v;
       locallyTriggered := locallyTriggered x;
       lastMcpServers := lastMcpServers x; lastCtrlC := lastCtrlC x;
       headerText := headerText x; disableSubmit := disableSubmit x;
       mcpTimers := mcpTimers x; exited := exited x |}).
Definition set_locallyTriggered (v : bool) : State -> State :=
  upd_vars (fun x =>
    {| streamingText := streamingText x; streamingMd := streamingMd x;
       loader := loader x; permissionBanner := permissionBanner x;
       locallyTriggered := v; lastMcpServers := lastMcpServers x;
       lastCtrlC := lastCtrlC x; headerText := headerText x;
       disableSubmit := disableSubmit x; mcpTimers := mcpTimers x;
       exited := exited x |}).
Definition set_lastMcpServers (v : list McpServerDetail) : State -> State :=
  upd_vars (fun x =>
    {| streamingText := streamingText x; streamingMd := streamingMd x;
       loader := loader x; permissionBanner := permissionBanner x;
       locallyTriggered := locallyTriggered x; lastMcpServers := v;
       lastCtrlC := lastCtrlC x; headerText := headerText x;
       disableSubmit := disableSubmit x; mcpTimers := mcpTimers x;
       exited := exited x |}).
Definition set_lastCtrlC (v : Z) : State -> State :=
  upd_vars (fun x =>
    {| streamingText := streamingText x; streamingMd := streamingMd x;
       loader := loader x; permissionBanner := permissionBanner x;
       locallyTriggered := locallyTriggered x;
       lastMcpServers := lastMcpServers x; lastCtrlC := v;
       headerText := headerText x; disableSubmit := disableSubmit x;
       mcpTimers := mcpTimers x; exited := exited x |}).
Definition set_headerText (v : string) : State -> State :=
  upd_vars (fun x =>
    {| streamingText := streamingText x; streamingMd := streamingMd x;
       loader := loader x; permissionBanner := permissionBanner x;
       locallyTriggered := locallyTriggered x;
       lastMcpServers := lastMcpServers x; lastCtrlC := lastCtrlC x;
       headerText := v; disableSubmit := disableSubmit x;
       mcpTimers := mcpTimers x; exited := exited x |}).
Definition set_disableSubmit (v : bool) : State -> State :=
  upd_vars (fun x =>
    {| streamingText := streamingText x; streamingMd := streamingMd x;
       loader := loader x; permissionBanner := permissionBanner x;
       locallyTriggered := locallyTriggered x;
       lastMcpServers := lastMcpServers x; lastCtrlC := lastCtrlC x;
       headerText := headerText x; disableSubmit := v;
       mcpTimers := mcpTimers x; exited := exited x |}).
Definition set_mcpTimers (v : nat) : State -> State :=
  upd_vars (fun x =>
    {| streamingText := streamingText x; streamingMd := streamingMd x;
       loader := loader x; permissionBanner := permissionBanner x;
       locallyTriggered := locallyTriggered x;
       lastMcpServers := lastMcpServers x; lastCtrlC := lastCtrlC x;
       headerText := headerText x; disableSubmit := disableSubmit x;
       mcpTimers := v; exited := exited x |}).
Definition set_exited (v : bool) : State -> State :=
  upd_vars (fun x =>
    {| streamingText := streamingText x; streamingMd := streamingMd x;
       loader := loader x; permissionBanner := permissionBanner x;
       locallyTriggered := locallyTriggered x;
       lastMcpServers := lastMcpServers x; lastCtrlC := lastCtrlC x;
       headerText := headerText x; disableSubmit := disableSubmit x;
       mcpTimers := mcpTimers x; exited := v |}).

(** ** [CompanionClient] *)

(** [send(msg)]: the frame is written only when the socket is open. *)
Definition send (msg : ClientMessage) (st : State) : State :=
  match ws (client st) with
  | Some OPEN => set_sent (sent (client st) ++ [msg]) st
  | _ => st
  end.

(** [crypto.randomUUID()]. *)
Definition randomUUID (st : State) : nat * State :=
  (uuid (client st), set_uuid (S (uuid (client st))) st).

Definition sendUserMessage (content : string) (st : State) : State :=
  let '(id, st) := randomUUID st in send (c_user_message content id) st.

Definition sendPermissionResponse (requestId : string) (behavior : Behavior)
    (st : State) : State :=
  let '(id, st) := randomUUID st in
  send (c_permission_response requestId behavior id) st.

Definition interrupt (st : State) : State :=
  let '(id, st) := randomUUID st in send (c_interrupt id) st.

Definition setModel (model : string) (st : State) : State :=
  let '(id, st) := randomUUID st in send (c_set_model model id) st.

Definition setPermissionMode (mode : string) (st : State) : State :=
  let '(id, st) := randomUUID st in send (c_set_permission_mode mode id) st.

Definition mcpGetStatus (st : State) : State :=
  let '(id, st) := randomUUID st in send (c_mcp_get_status id) st.

Definition mcpToggle (serverName : string) (enabled : bool) (st : State)
    : State :=
  let '(id, st) := randomUUID st in send (c_mcp_toggle serverName enabled id) st.

Definition mcpReconnect (serverName : string) (st : State) : State :=
  let '(id, st) := randomUUID st in send (c_mcp_reconnect serverName id) st.

(** [opts.onStatusChange], as [main] passes it. *)
Definition onStatusChange (status : ConnectionStatus) (st : State) : State :=
  set_connectionStatus status st.

(** [connect()]: a new socket, in state CONNECTING, becomes [this.ws]. *)
Definition connect (st : State) : State :=
  if disposed (client st) then st
  else
    let st := onStatusChange connecting st in
    set_ws (Some CONNECTING) st.

Definition scheduleReconnect (st : State) : State :=
  if disposed (client st) then st else set_reconnectTimer true st.

Definition dispose (st : State) : State :=
  let st := set_disposed true st in
  let st := set_reconnectTimer false st in
  set_ws None st.

(** The handler of the socket's [open] event. *)
Definition ws_on_open (st : State) : State :=
  let st := onStatusChange connected st in
  send (c_session_subscribe (lastSeq (client st)) (clientId (client st))) st.

(** The handler of the socket's [close] event. *)
Definition ws_on_close (st : State) : State :=
  let st := set_ws None st in
  let st := onStatusChange disconnected st in
  scheduleReconnect st.

(** ** The container of pi-tui *)

Fixpoint indexOf (l : list Component) (c : Component) : option nat :=
  match l with
  | [] => None
  | x :: l' => if same x c then Some 0 else S <$> indexOf l' c
  end.

(** [l.splice(idx, 0, c)] and [l.splice(idx, 1)]. *)
Definition splice_insert (idx : nat) (c : Component) (l : list Component)
    : list Component :=
  take idx l ++ c :: drop idx l.

Definition splice_remove (idx : nat) (l : list Component) : list Component :=
  take idx l ++ drop (S idx) l.

Definition addChild (c : Component) (st : State) : State :=
  set_children (children (tui st) ++ [c]) st.

Definition removeChild (c : Component) (st : State) : State :=
  match indexOf (children (tui st)) c with
  | Some idx => set_children (splice_remove idx (children (tui st))) st
  | None => st
  end.

Definition setFocus (c : Component) (st : State) : State :=
  set_focus (Some c) st.

(** Allocation of a component, and the text of a component. *)
Definition alloc (st : State) : nat * State :=
  (nextId (tui st), set_nextId (S (nextId (tui st))) st).

Definition setText (id : nat) (text : string) (st : State) : State :=
  set_texts (<[id := text]> (texts (tui st))) st.

Definition new_Spacer (st : State) : Component * State :=
  let '(id, st) := alloc st in (Spacer id, st).

Definition new_Text (text : string) (st : State) : Component * State :=
  let '(id, st) := alloc st in (Text id, setText id text st).

Definition new_Markdown (text : string) (st : State) : nat * State :=
  let '(id, st) := alloc st in (id, setText id text st).

Definition new_Loader (message : string) (st : State) : nat * State :=
  let '(id, st) := alloc st in (id, setText id message st).

Definition new_PermissionBanner (request : PermissionRequest) (st : State)
    : Component * State :=
  let '(id, st) := alloc st in (PermissionBanner id request, st).

Definition new_SelectList (picker : Picker) (st : State) : Component * State :=
  let '(id, st) := alloc st in (SelectList id picker, st).

(** ** The closures of [main] *)

Definition insertBeforeEditor (component : Component) (st : State) : State :=
  match indexOf (children (tui st)) EditorC with
  | Some idx =>
      set_children (splice_insert idx component (children (tui st))) st
  | None => addChild component st
  end.

Definition removeLoader (st : State) : State :=
  match loader (vars st) with
  | Some id =>
      let st := removeChild (Loader id) st in
      set_loader None st
  | None => st
  end.

Definition finalizeStream (st : State) : State :=
  let st := set_streamingText "" st in
  set_streamingMd None st.

Definition ensureStreamingMd (st : State) : nat * State :=
  match streamingMd (vars st) with
  | Some md => (md, st)
  | None =>
      let st := removeLoader st in
      let '(md, st) := new_Markdown "" st in
      let st := set_streamingMd (Some md) st in
      let st := insertBeforeEditor (Markdown md) st in
      (md, st)
  end.

(** [insertBeforeEditor(new Text(text))] and
    [insertBeforeEditor(new Spacer(1))]. *)
Definition insertText (text : string) (st : State) : State :=
  let '(c, st) := new_Text text st in insertBeforeEditor c st.

Definition insertSpacer (st : State) : State :=
  let '(c, st) := new_Spacer st in insertBeforeEditor c st.

Definition insertMarkdown (text : string) (st : State) : State :=
  let '(md, st) := new_Markdown text st in insertBeforeEditor (Markdown md) st.

(** [loader = new Loader(...); insertBeforeEditor(loader)]. *)
Definition showLoader (message : string) (st : State) : State :=
  let '(id, st) := new_Loader message st in
  let st := set_loader (Some id) st in
  insertBeforeEditor (Loader id) st.

(** The callback given to a [PermissionBanner] for [request]. *)
Definition onRespond (request : PermissionRequest) (behavior : Behavior)
    (st : State) : State :=
  let st := sendPermissionResponse (request_id request) behavior st in
  let st :=
    match permissionBanner (vars st) with
    | Some banner =>
        let st := removeChild banner st in
        set_permissionBanner None st
    | None => st
    end in
  let st := showLoader ("Running " +:+ tool_name request +:+ "...") st in
  setFocus EditorC st.

(** [if (permissionBanner) { removeChild; permissionBanner = null;
    setFocus(editor) }]. *)
Definition dismissBanner (st : State) : State :=
  match permissionBanner (vars st) with
  | Some banner =>
      let st := removeChild banner st in
      let st := set_permissionBanner None st in
      setFocus EditorC st
  | None => st
  end.

Section WithRuntime.

Context (rt : Runtime).

(** [typeof v === "string"], and the string of such a value. *)
Definition typeof_string (v : JsValue) : bool :=
  match v with JsStr _ => true | _ => false end.

Definition string_of (v : JsValue) : string :=
  match v with JsStr s => s | _ => "" end.

Definition formatToolInput (toolName : string) (input : JsObject) : string :=
  if String.eqb toolName "Bash" && typeof_string (prop input "command")
  then "$ " +:+ string_of (prop input "command")
  else if (String.eqb toolName "Read" || String.eqb toolName "Write"
           || String.eqb toolName "Edit")
          && typeof_string (prop input "file_path")
  then string_of (prop input "file_path")
  else if String.eqb toolName "Grep" && typeof_string (prop input "pattern")
  then "grep " +:+ string_of (prop input "pattern")
  else if String.eqb toolName "Glob" && typeof_string (prop input "pattern")
  then "glob " +:+ string_of (prop input "pattern")
  else JSON_stringify rt input.

Definition extractText (blocks : list ContentBlock) : string :=
  join ""
    (flat_map
       (fun block =>
          match block with
          | text_block text => [text]
          | tool_use _ name input =>
              ["
" +:+ "⚡ " +:+ name +:+ " " +:+ formatToolInput name input +:+ "
"]
          | thinking_block thinking => ["💭 " +:+ thinking]
          | tool_result _ _ _ => []
          end)
       blocks).

Definition mcp_line (i : nat) (s : McpServerDetail) : list string :=
  let dot :=
    match mcp_status_of s with
    | mcp_connected => "●"
    | mcp_connecting => "●"
    | mcp_disabled => "○"
    | mcp_failed => "●"
    end in
  let toolCount := match mcp_tools s with Some l => length l | None => 0 end in
  let toolsLabel :=
    if (0 <? toolCount)%nat then " (" +:+ pretty toolCount +:+ " tools)"
    else "" in
  ("  " +:+ pretty (i + 1)%nat +:+ ". " +:+ dot +:+ " " +:+ mcp_name s +:+ " "
    +:+ mcp_config_type s +:+ toolsLabel)
  :: match mcp_error s with
     | Some e => if truthy e then ["     " +:+ e] else []
     | None => []
     end.

Definition renderMcpStatus (servers : list McpServerDetail) (st : State)
    : State :=
  let st := set_lastMcpServers servers st in
  if (length servers =? 0)%nat then
    let st := insertText "No MCP servers configured." st in
    insertSpacer st
  else
    let lines :=
      (["MCP Servers:"]
       ++ concat (imap mcp_line servers)
       ++ [""; "  Type number + t to toggle, number + r to reconnect (e.g. 1t, 2r)"])%list in
    let st := insertText (join "
" lines) st in
    insertSpacer st.

(** [handleMessage(msg)]. *)
Fixpoint handleMessage (msg : ServerMessage) (st : State) : State :=
  match msg with
  | session_init session _ =>
      set_session (Some session) st
  | session_update session _ =>
      match Tui.session (statusBar st) with
      | Some target => set_session (Some (Object_assign target session)) st
      | None => st
      end
  | user_message content sender_client_id _ =>
      if bool_decide (sender_client_id = Some (clientId (client st))) then st
      else
        let st := insertMarkdown ("Web: " +:+ content) st in
        insertSpacer st
  | assistant content _ =>
      let st := finalizeStream st in
      let st := removeLoader st in
      let text := extractText content in
      if truthy (trim rt text) then
        let st := insertMarkdown text st in
        insertSpacer st
      else st
  | stream_event event _ =>
      match event with
      | content_block_delta _ (text_delta text) =>
          let '(md, st) := ensureStreamingMd st in
          let st := set_streamingText (streamingText (vars st) +:+ text) st in
          setText md (streamingText (vars st)) st
      | content_block_delta _ (thinking_delta _) => st
      | content_block_delta _ (input_json_delta _) => st
      | content_block_stop _ => st
      | message_stop | message_delta _ => finalizeStream st
      | content_block_start _ _ | message_start _ _ _ => st
      end
  | result data _ =>
      let st := finalizeStream st in
      let st := removeLoader st in
      let st := set_isRunning false st in
      let st := set_disableSubmit false st in
      let st := set_locallyTriggered false st in
      let st := dismissBanner st in
      let st :=
        match Tui.session (statusBar st) with
        | Some s =>
            set_session
              (Some (<["num_turns" := JsNum (num_turns data)]>
                       (<["total_cost_usd" := JsNum (total_cost_usd data)]> s)))
              st
        | None => st
        end in
      let st :=
        match errors data with
        | Some errs =>
            if is_error data && negb (length errs =? 0)%nat
            then insertText ("Error: " +:+ join ", " errs) st
            else st
        | None => st
        end in
      insertSpacer st
  | permission_request request _ =>
      let st := removeLoader st in
      let '(banner, st) := new_PermissionBanner request st in
      let st := set_permissionBanner (Some banner) st in
      let st := insertBeforeEditor banner st in
      setFocus banner st
  | permission_cancelled _ _ =>
      dismissBanner st
  | tool_progress _ tool_name elapsed_time_seconds _ =>
      match loader (vars st) with
      | Some l =>
          setText l
            ("Running " +:+ tool_name +:+ "... ("
              +:+ toFixed rt elapsed_time_seconds 0 +:+ "s)") st
      | None => st
      end
  | tool_use_summary _ _ _ => st
  | status_change status _ =>
      let nowRunning :=
        match status with Some running => true | _ => false end in
      let st := set_isRunning nowRunning st in
      let st :=
        if nowRunning && negb (locallyTriggered (vars st)) then
          let st := set_disableSubmit true st in
          let st := insertText "  [input from web UI]" st in
          showLoader "Thinking..." st
        else st in
      match status, loader (vars st) with
      | Some compacting, Some l => setText l "Compacting context..." st
      | _, _ => st
      end
  | cli_disconnected _ => insertText "CLI disconnected" st
  | cli_connected _ => insertText "CLI connected" st
  | message_history messages _ =>
      (fix each (l : list ServerMessage) (st : State) : State :=
         match l with
         | [] => st
         | histMsg :: l' => each l' (handleMessage histMsg st)
         end) messages st
  | event_replay events _ =>
      (fix each (l : list (ServerMessage * Z)) (st : State) : State :=
         match l with
         | [] => st
         | (replayMsg, _) :: l' => each l' (handleMessage replayMsg st)
         end) events st
  | session_name_update name _ =>
      set_headerText ("companion-tui" +:+ " — " +:+ name) st
  | mcp_status servers _ => renderMcpStatus servers st
  | error message _ => insertText ("Error: " +:+ message) st
  end.

(** The handler of the socket's [message] event. *)
Definition ws_on_message (data : string) (st : State) : State :=
  match JSON_parse rt data with
  | Some msg =>
      let st :=
        match seq_of msg with
        | Some n => set_lastSeq n st
        | None => st
        end in
      handleMessage msg st
  | None => st
  end.

End WithRuntime.

(** ** Keyboard input *)

(** The input that pi-tui hands to [matchesKey], decoded. *)
Inductive Key := Y | Enter | N | Escape | A | CtrlC | Other (data : string).

Definition matchesKey (data : Key) (keyId : string) : bool :=
  match data with
  | Y => String.eqb keyId "y"
  | Enter => String.eqb keyId "enter"
  | N => String.eqb keyId "n"
  | Escape => String.eqb keyId "escape"
  | A => String.eqb keyId "a"
  | CtrlC => String.eqb keyId "ctrl+c"
  | Other _ => false
  end.

(** [PermissionBanner.handleInput(data)] of the banner for [request]. *)
Definition PermissionBanner_handleInput (request : PermissionRequest)
    (data : Key) (st : State) : State :=
  if matchesKey data "y" || matchesKey data "enter" then
    onRespond request allow st
  else if matchesKey data "n" || matchesKey data "escape" then
    onRespond request deny st
  else if matchesKey data "a" then
    onRespond request allow st
  else st.

(** [cleanup()]: [process.exit] does not return. *)
Definition cleanup (st : State) : State :=
  let st := dispose st in
  set_exited true st.

(** The listener of [tui.addInputListener]; [now] is [Date.now()].  The
    boolean is [consume]. *)
Definition inputListener (data : Key) (now : Z) (st : State) : bool * State :=
  if matchesKey data "escape" then
    if isRunning (statusBar st) then (true, interrupt st)
    else (false, st)
  else if matchesKey data "ctrl+c" then
    if isRunning (statusBar st) then
      if (now - lastCtrlC (vars st) <? 500)%Z then (true, cleanup st)
      else
        let st := set_lastCtrlC now st in
        (true, interrupt st)
    else (true, cleanup st)
  else (false, st).

(** [TUI.handleInput] of pi-tui: the listeners first, then the focused
    component.  The [Editor] and the [SelectList] are widgets of the library;
    what they do with a key is visible to [main] through their callbacks
    ([onSubmit], [onSelect], [onCancel]) only. *)
Definition handleInput (data : Key) (now : Z) (st : State) : State :=
  let '(consume, st) := inputListener data now st in
  if consume then st
  else
    match focus (tui st) with
    | Some (PermissionBanner _ request) =>
        PermissionBanner_handleInput request data st
    | _ => st
    end.

(** ** Slash commands and the editor *)

Definition clearConversation (st : State) : State :=
  let keep c := same c StatusBarC || same c HeaderC || same c EditorC in
  let toRemove := List.filter (fun c => negb (keep c)) (children (tui st)) in
  let st := fold_left (fun st c => removeChild c st) toRemove st in
  insertSpacer st.

Definition showHelp (st : State) : State :=
  let helpText :=
    join "
"
      [ "Commands:";
        "  /help          Show this help";
        "  /clear         Clear conversation display";
        "  /quit          Exit companion-tui";
        "  /compact       Compact conversation context";
        "  /mcp           Show MCP server status";
        "  /model [name]  Switch model (picker if no arg)";
        "  /mode [name]   Switch permission mode (picker if no arg)";
        "  /status        Show session info";
        "";
        "Keys:";
        "  Esc            Interrupt current operation";
        "  Ctrl+C         Interrupt, or exit if idle (2x to force)";
        "  Enter          Send message";
        "";
        "Other slash commands are forwarded to the Claude Code CLI." ] in
  let st := insertText helpText st in
  insertSpacer st.

Definition showMcp (st : State) : State :=
  let st := mcpGetStatus st in
  insertText "Fetching MCP server status..." st.

(** [directArg] is [arg || null]: [None] for the empty string. *)
Definition showModelPicker (directArg : option string) (st : State) : State :=
  match directArg with
  | Some model =>
      let st := setModel model st in
      let st := insertText ("Switching model to " +:+ model +:+ "...") st in
      insertSpacer st
  | None =>
      let '(list, st) := new_SelectList ModelPicker st in
      let st := insertBeforeEditor list st in
      setFocus list st
  end.

Definition showModePicker (directArg : option string) (st : State) : State :=
  match directArg with
  | Some mode =>
      let st := setPermissionMode mode st in
      let st :=
        insertText ("Switching permission mode to " +:+ mode +:+ "...") st in
      insertSpacer st
  | None =>
      let '(list, st) := new_SelectList ModePicker st in
      let st := insertBeforeEditor list st in
      setFocus list st
  end.

(** [list.onSelect(item)] and [list.onCancel()] of the two pickers. *)
Definition onSelect (list : Component) (picker : Picker) (value : string)
    (st : State) : State :=
  let st := removeChild list st in
  let st := setFocus EditorC st in
  match picker with
  | ModelPicker =>
      let st := setModel value st in
      let st := insertText ("Switching model to " +:+ value +:+ "...") st in
      insertSpacer st
  | ModePicker =>
      let st := setPermissionMode value st in
      let st := insertText ("Switching mode to " +:+ value +:+ "...") st in
      insertSpacer st
  end.

Definition onCancel (list : Component) (st : State) : State :=
  let st := removeChild list st in
  setFocus EditorC st.

Section WithRuntime.

Context (rt : Runtime).

(** [v.toFixed(digits)] of a property that [SessionState] types as a number. *)
Definition prop_toFixed (v : JsValue) (digits : nat) : string :=
  match v with JsNum n => toFixed rt n digits | _ => "" end.

(** [v.length] of a property that [SessionState] types as an array. *)
Definition prop_length (v : JsValue) : nat :=
  match v with JsArr items => length items | _ => 0 end.

Definition showStatus (st : State) : State :=
  match session (statusBar st) with
  | None =>
      let st := insertText "No session info available yet." st in
      insertSpacer st
  | Some s =>
      let lines :=
        ([ "Session Status:";
           "  Model:       " +:+ String_ rt (prop s "model");
           "  Mode:        " +:+ String_ rt (prop s "permissionMode");
           "  Cost:        " +:+ "$" +:+ prop_toFixed (prop s "total_cost_usd") 4;
           "  Context:     " +:+ String_ rt (prop s "context_used_percent") +:+ "%";
           "  Turns:       " +:+ String_ rt (prop s "num_turns");
           "  CWD:         " +:+ String_ rt (prop s "cwd") ]
         ++ match gitBranch (statusBar st) with
            | Some b => if truthy b then ["  Git branch:  " +:+ b] else []
            | None => []
            end
         ++ (if (0 <? prop_length (prop s "mcp_servers"))%nat
             then ["  MCP servers: "
                     +:+ pretty (prop_length (prop s "mcp_servers"))]
             else [])
         ++ ["  Version:     " +:+ String_ rt (prop s "claude_code_version")])%list
      in
      let st := insertText (join "
" lines) st in
      insertSpacer st
  end.

(** [handleSlashCommand(cmd)]; the boolean is the value it returns. *)
Definition handleSlashCommand (cmd : string) (st : State) : bool * State :=
  let parts := split_whitespace rt cmd in
  let name := toLowerCase rt (hd "" parts) in
  let arg := trim rt (join " " (tl parts)) in
  let directArg := if truthy arg then Some arg else None in
  if String.eqb name "/quit" || String.eqb name "/exit" then (true, cleanup st)
  else if String.eqb name "/clear" then (true, clearConversation st)
  else if String.eqb name "/help" then (true, showHelp st)
  else if String.eqb name "/mcp" then (true, showMcp st)
  else if String.eqb name "/model" then (true, showModelPicker directArg st)
  else if String.eqb name "/mode" then (true, showModePicker directArg st)
  else if String.eqb name "/status" then (true, showStatus st)
  else (false, st).

(** The MCP toggle and reconnect of [editor.onSubmit] ("1t", "2r"): the state
    after it when the text is such an action on a known server. *)
Definition mcpAction (trimmed : string) (st : State) : option State :=
  match match_mcp_action rt trimmed with
  | Some (digits, letter) =>
      if (0 <? length (lastMcpServers (vars st)))%nat then
        let idx := (parseInt rt digits - 1)%Z in
        let action := toLowerCase rt letter in
        let server :=
          if (0 <=? idx)%Z then lastMcpServers (vars st) !! Z.to_nat idx
          else None in
        match server with
        | Some server =>
            if String.eqb action "t" then
              let nowEnabled :=
                match mcp_status_of server with
                | mcp_disabled => false
                | _ => true
                end in
              let st := mcpToggle (mcp_name server) (negb nowEnabled) st in
              let verb := if nowEnabled then "Disabling" else "Enabling" in
              let st :=
                insertText (verb +:+ " " +:+ mcp_name server +:+ "...") st in
              Some (set_mcpTimers (S (mcpTimers (vars st))) st)
            else
              let st := mcpReconnect (mcp_name server) st in
              let st :=
                insertText ("Reconnecting " +:+ mcp_name server +:+ "...") st in
              Some (set_mcpTimers (S (mcpTimers (vars st))) st)
        | None => None
        end
      else None
  | None => None
  end.

(** [editor.onSubmit(text)]. *)
Definition onSubmit (text : string) (st : State) : State :=
  let trimmed := trim rt text in
  if negb (truthy trimmed) then st
  else
    let '(handled, st) :=
      if String.prefix "/" trimmed then handleSlashCommand trimmed st
      else (false, st) in
    if handled then st
    else
      match mcpAction trimmed st with
      | Some st => st
      | None =>
          if isRunning (statusBar st) then st
          else
            let st := set_locallyTriggered true st in
            let st := sendUserMessage trimmed st in
            let st := insertMarkdown ("You: " +:+ trimmed) st in
            let st := set_isRunning true st in
            let st := set_disableSubmit true st in
            showLoader "Thinking..." st
      end.

(** ** Events

    What the runtime delivers to the client: the events of the current
    socket, the two kinds of timer, keyboard input, and the callbacks of the
    library's widgets.  An event that cannot occur in a state (the [open]
    event of a socket that is not connecting, the callback of a widget that
    does not have the focus, anything after [process.exit]) leaves the state
    as it is.  The editor belongs to the library; whether it calls [onSubmit]
    while [disableSubmit] is set is not assumed, so [EditorSubmit] is handled
    whenever the editor has the focus. *)
Inductive Event :=
  | WsOpen
  | WsMessage (data : string)
  | WsClose
  | ReconnectTimer
  | McpTimer
  | Input (data : Key) (now : Z)
  | EditorSubmit (text : string)
  | ListSelect (value : string)
  | ListCancel.

Definition dispatch (ev : Event) (st : State) : State :=
  if exited (vars st) then st
  else
    match ev with
    | WsOpen =>
        match ws (client st) with
        | Some CONNECTING => ws_on_open (set_ws (Some OPEN) st)
        | _ => st
        end
    | WsMessage data =>
        match ws (client st) with
        | Some OPEN => ws_on_message rt data st
        | _ => st
        end
    | WsClose =>
        match ws (client st) with
        | Some _ => ws_on_close st
        | None => st
        end
    | ReconnectTimer =>
        if reconnectTimer (client st)
        then connect (set_reconnectTimer false st)
        else st
    | McpTimer =>
        match mcpTimers (vars st) with
        | S n => mcpGetStatus (set_mcpTimers n st)
        | O => st
        end
    | Input data now => handleInput data now st
    | EditorSubmit text =>
        match focus (tui st) with
        | Some EditorC => onSubmit text st
        | _ => st
        end
    | ListSelect value =>
        match focus (tui st) with
        | Some (SelectList id picker) =>
            onSelect (SelectList id picker) picker value st
        | _ => st
        end
    | ListCancel =>
        match focus (tui st) with
        | Some (SelectList id picker) => onCancel (SelectList id picker) st
        | _ => st
        end
    end.

Definition run (evs : list Event) (st : State) : State :=
  fold_left (fun st ev => dispatch ev st) evs st.

End WithRuntime.

(** The state in which [main] calls [client.connect()]: the container holds
    the status bar, the header, a spacer and the editor, which has the
    focus. *)
Definition initial (clientId : string) (sessionId8 : string)
    (gitBranch : option string) : State :=
  {| client :=
       {| ws := None; lastSeq := 0; reconnectTimer := false; disposed := false;
          Tui.clientId := clientId; sent := []; uuid := 0 |};
     tui :=
       {| children := [StatusBarC; HeaderC; Spacer 0; EditorC];
          focus := Some EditorC; texts := ∅; nextId := 1 |};
     statusBar :=
       {| connectionStatus := disconnected; session := None;
          isRunning := false; Tui.gitBranch := gitBranch |};
     vars :=
       {| streamingText := ""; streamingMd := None; loader := None;
          permissionBanner := None; locallyTriggered := false;
          lastMcpServers := []; lastCtrlC := 0;
          headerText := "companion-tui" +:+ " — session " +:+ sessionId8;
          disableSubmit := false; mcpTimers := 0; exited := false |} |}.

(** [client.connect(); tui.start()] at the end of [main]. *)
Definition start (clientId sessionId8 : string) (gitBranch : option string)
    : State :=
  connect (initial clientId sessionId8 gitBranch).

End Tui.

(** * The stand-alone NDJSON server ([ndjson-server.ts]) *)

Module NdjsonServer.

Section HandleCliMessage.

(** The type of the messages of the CLI, the state of the server, and what
    the server does with one parsed message: [sendToBrowser] and the [switch]
    on [msg.type], which are outside the [try] and may throw. *)
Context {CLIMessage S : Type}.
Context (JSON_parse : string -> option CLIMessage).
Context (trim : string -> string).
Context (handleParsed : CLIMessage -> Js S unit).

(** The body of the loop of [handleCliMessage] for one line. *)
Definition handleLine (line : string) : Js S unit :=
  let trimmed := trim line in
  if negb (truthy trimmed) then ret tt
  else
    match JSON_parse trimmed with
    | None => ret tt
    | Some msg => handleParsed msg
    end.

(** [handleCliMessage(raw)]. *)
Definition handleCliMessage (raw : string) : Js S unit :=
  for_of (split_lines raw) handleLine.

End HandleCliMessage.

End NdjsonServer.

(** * The SDK bridge ([src/sdk-bridge.ts]) *)

Module SdkBridge.

Record SDKMessage := {
  type : string;
  properties : JsObject;
}.

(** ** [EventBus] *)

Section EventBus.

(** [World] is everything a handler can reach.  The set of handlers is not
    part of it: [handlers] is private, and the function that [subscribe]
    returns is dropped at both places where [main] subscribes. *)
Context {World : Type}.

Definition EventHandler : Type := SDKMessage -> Js World unit.

(** [handlers] is a [Set]: insertion order, and a function is in it at most
    once.  A function is identified by a number. *)
Record EventBus := {
  handlers : list (nat * EventHandler);
}.

(** The state in which [emit] runs: the world, and the list of the handlers
    that were called, oldest first. *)
Record Run := {
  world : World;
  called : list nat;
}.

Definition subscribe (id : nat) (handler : EventHandler) (bus : EventBus)
    : EventBus :=
  if bool_decide (id ∈ (handlers bus).*1) then bus
  else {| handlers := handlers bus ++ [(id, handler)] |}.

(** The function that [subscribe] returns. *)
Definition unsubscribe (id : nat) (bus : EventBus) : EventBus :=
  {| handlers := List.filter (fun h => negb (Nat.eqb (fst h) id)) (handlers bus) |}.

(** [handler(event)]. *)
Definition call (h : nat * EventHandler) (event : SDKMessage) : Js Run unit :=
  fun r =>
    let '(w, c) := snd h event (world r) in
    ({| world := w; called := called r ++ [fst h] |}, c).

(** [emit(event)]. *)
Definition emit (bus : EventBus) (event : SDKMessage) : Js Run unit :=
  for_of (handlers bus)
    (fun handler => try_catch (call handler event) (fun _ => ret tt)).

End EventBus.

Arguments EventBus World : clear implicits.
Arguments Run World : clear implicits.

(** ** The queue of user messages *)

(** Where [sdkLoop] is: about to create the promise of [await new
    Promise(...)], awaiting the promise [p], holding the [content] it got
    (the body of the loop: [client.send], [client.receive] until a result). *)
Inductive LoopState :=
  | AtTop
  | Awaiting (p : nat)
  | Sending (content : string).

Record Bridge := {
  messageQueue : list string;
  (** [pendingSend]: the [resolve] of the promise [p]. *)
  pendingSend : option nat;
  loop : LoopState;
  (** The next promise. *)
  nextPromise : nat;
  (** The values of [content] that the loop got, oldest first. *)
  consumed : list string;
}.

(** [resolve(content)] of the promise [p]: the loop, if it awaits [p], goes
    on with [content]. *)
Definition resolve (p : nat) (content : string) (b : Bridge) : Bridge :=
  match loop b with
  | Awaiting q =>
      if Nat.eqb p q then
        {| messageQueue := messageQueue b; pendingSend := pendingSend b;
           loop := Sending content; nextPromise := nextPromise b;
           consumed := consumed b ++ [content] |}
      else b
  | _ => b
  end.

(** [sendToSdk(content)]. *)
Definition sendToSdk (content : string) (b : Bridge) : Bridge :=
  match pendingSend b with
  | Some p =>
      let b := resolve p content b in
      {| messageQueue := messageQueue b; pendingSend := None;
         loop := loop b; nextPromise := nextPromise b;
         consumed := consumed b |}
  | None =>
      {| messageQueue := messageQueue b ++ [content];
         pendingSend := pendingSend b; loop := loop b;
         nextPromise := nextPromise b; consumed := consumed b |}
  end.

(** One step of [sdkLoop]: at the top, the promise is created and its
    executor runs; with a content, the body of the loop finishes and the loop
    is at the top again.  A loop that awaits does not step. *)
Definition sdkLoop_step (b : Bridge) : Bridge :=
  match loop b with
  | AtTop =>
      let p := nextPromise b in
      match messageQueue b with
      | content :: rest =>
          (* resolve(messageQueue.shift()!) *)
          {| messageQueue := rest; pendingSend := pendingSend b;
             loop := Sending content; nextPromise := S p;
             consumed := consumed b ++ [content] |}
      | [] =>
          (* pendingSend = resolve *)
          {| messageQueue := []; pendingSend := Some p; loop := Awaiting p;
             nextPromise := S p; consumed := consumed b |}
      end
  | Awaiting _ => b
  | Sending _ =>
      {| messageQueue := messageQueue b; pendingSend := pendingSend b;
         loop := AtTop; nextPromise := nextPromise b;
         consumed := consumed b |}
  end.

(** What happens to the bridge: a call of [sendToSdk] (from the editor or
    from a browser), or a step of the loop. *)
Inductive Action :=
  | Send (content : string)
  | Step.

Definition act (a : Action) (b : Bridge) : Bridge :=
  match a with
  | Send content => sendToSdk content b
  | Step => sdkLoop_step b
  end.

Definition run (acts : list Action) (b : Bridge) : Bridge :=
  fold_left (fun b a => act a b) acts b.

(** The contents that a list of actions submits, in order. *)
Definition submitted (acts : list Action) : list string :=
  flat_map (fun a => match a with Send c => [c] | Step => [] end) acts.

(** [main] creates the queue empty and then calls [sdkLoop()]. *)
Definition initial : Bridge :=
  {| messageQueue := []; pendingSend := None; loop := AtTop;
     nextPromise := 0; consumed := [] |}.

End SdkBridge.
(** * Start-up of the terminal client ([src/tui.ts], before the container) *)

Module Startup.

(** ** Console and exit *)

(** What a function did before it returned or ended the process: the texts
    written with [console.error] and [console.log], and the requests sent to
    the Companion server. *)
Inductive Effect :=
  | console_error (text : string)
  | console_log (text : string)
  | relaunch (sessionId : string)
  | sleep (ms : Z)
  | create (cwd : string).

(** How a function ends: it returns a value, it throws, or it calls
    [process.exit(code)], which does not return. *)
Inductive Ended (A : Type) :=
  | Returned (a : A)
  | Thrown
  | Exited (code : Z).

Arguments Returned {A} a.
Arguments Thrown {A}.
Arguments Exited {A} code.

Definition Proc (A : Type) : Type := list Effect * Ended A.

Definition pure {A} (a : A) : Proc A := ([], Returned a).

Definition effect (e : Effect) : Proc unit := ([e], Returned tt).

Definition process_exit {A} (code : Z) : Proc A := ([], Exited code).

Definition raise {A} : Proc A := ([], Thrown).

Definition and_then {A B} (m : Proc A) (k : A -> Proc B) : Proc B :=
  match m with
  | (out, Returned a) => let '(out', e) := k a in ((out ++ out')%list, e)
  | (out, Thrown) => (out, Thrown)
  | (out, Exited code) => (out, Exited code)
  end.

(** [try { m } catch (e) { handler }]: an exit is not caught. *)
Definition catch {A} (m : Proc A) (handler : Proc A) : Proc A :=
  match m with
  | (out, Thrown) => let '(out', e) := handler in ((out ++ out')%list, e)
  | _ => m
  end.

#[export] Instance Proc_ret : MRet Proc := @pure.
#[export] Instance Proc_bind : MBind Proc := fun A B k m => and_then m k.

(** [for (const x of l) { body(x) }]. *)
Fixpoint for_each {A} (l : list A) (body : A -> Proc unit) : Proc unit :=
  match l with
  | [] => pure tt
  | x :: l' => body x;; for_each l' body
  end.

(** ** Command line *)

Record CliArgs := {
  continue : bool;
  resume : bool;
  resumeId : option string;
  help : bool;
  host : string;
}.

Definition usage : string :=
  String.concat "
"
    [ "companion-tui — TUI client for Claude Code via Companion";
      "";
      "Usage:";
      "  companion-tui                Connect to a running session, or create one";
      "  companion-tui -c             Resume the most recent session (relaunch if exited)";
      "  companion-tui -r             Pick a session to resume interactively";
      "  companion-tui -r <id>        Resume a specific session by ID (prefix match)";
      "";
      "Options:";
      "  -c, --continue               Resume the most recent session";
      "  -r, --resume [id]            Resume a session (interactive picker if no ID)";
      "  -h, --help                   Show this help";
      "  --host <host:port>           Companion server (default: localhost:3456)";
      "" ].

Definition printUsage : Proc unit := effect (console_log usage).

(** The loop of [parseCliArgs] from the argument at [i] on: [argv] is what
    is left of [process.argv.slice(2)] from [i]. *)
Fixpoint parseCliArgs_loop (argv : list string) (args : CliArgs)
    : Proc CliArgs :=
  match argv with
  | [] => pure args
  | arg :: rest =>
      if String.eqb arg "-h" || String.eqb arg "--help" then
        parseCliArgs_loop rest
          {| continue := continue args; resume := resume args;
             resumeId := resumeId args; help := true; host := host args |}
      else if String.eqb arg "-c" || String.eqb arg "--continue" then
        parseCliArgs_loop rest
          {| continue := true; resume := resume args;
             resumeId := resumeId args; help := help args;
             host := host args |}
      else if String.eqb arg "-r" || String.eqb arg "--resume" then
        let args :=
          {| continue := continue args; resume := true;
             resumeId := resumeId args; help := help args;
             host := host args |} in
        match rest with
        | next :: rest' =>
            if truthy next && negb (String.prefix "-" next) then
              parseCliArgs_loop rest'
                {| continue := continue args; resume := resume args;
                   resumeId := Some next; help := help args;
                   host := host args |}
            else parseCliArgs_loop rest args
        | [] => parseCliArgs_loop rest args
        end
      else if String.eqb arg "--host" then
        match rest with
        | next :: rest' =>
            if truthy next then
              parseCliArgs_loop rest'
                {| continue := continue args; resume := resume args;
                   resumeId := resumeId args; help := help args;
                   host := next |}
            else
              effect (console_error "--host requires a value");;
              process_exit 1
        | [] =>
            effect (console_error "--host requires a value");;
            process_exit 1
        end
      else
        effect (console_error ("Unknown argument: " +:+ arg));;
        printUsage;;
        process_exit 1
  end.

(** [parseCliArgs()]: [COMPANION_HOST] is the variable of the environment,
    [argv] is [process.argv.slice(2)]. *)
Definition parseCliArgs (COMPANION_HOST : option string) (argv : list string)
    : Proc CliArgs :=
  parseCliArgs_loop argv
    {| continue := false; resume := false; resumeId := None; help := false;
       host := default "localhost:3456" COMPANION_HOST |}.

(** ** Sessions ([SessionInfo] of [companion-client.ts]) *)

(** [createdAt] is a time in milliseconds as [Date.now()] counts them, an
    integer; the code allows for a session without one. *)
Record SessionInfo := {
  sessionId : string;
  state : string;
  cwd : string;
  createdAt : option Z;
  name : option string;
  backendType : option string;
  cliSessionId : option string;
  pid : option Z;
}.

(** [Array.prototype.sort(compare)] is stable: elements that compare equal
    keep their order.  For a [compare] that orders the elements by a key,
    this fixes the result; it is computed here by insertion from the right. *)
Fixpoint sort_insert {A} (compare : A -> A -> Z) (x : A) (l : list A)
    : list A :=
  match l with
  | [] => [x]
  | y :: l' =>
      if (0 <? compare x y)%Z then y :: sort_insert compare x l'
      else x :: y :: l'
  end.

Definition Array_sort {A} (compare : A -> A -> Z) (l : list A) : list A :=
  foldr (sort_insert compare) [] l.

(** Built-ins on strings that count UTF-16 code units. *)
Record Strings := {
  (** [s.slice(0, 8)]. *)
  slice_0_8 : string -> string;
  (** [s.padEnd(n)]. *)
  padEnd : string -> nat -> string;
}.

Definition isAlive (s : SessionInfo) : bool :=
  String.eqb (state s) "connected" || String.eqb (state s) "running"
  || String.eqb (state s) "idle".

(** [timeAgo(ts)]; [now] is [Date.now()]. *)
Definition timeAgo (now ts : Z) : string :=
  let seconds := ((now - ts) / 1000)%Z in
  if (seconds <? 60)%Z then pretty seconds +:+ "s ago"
  else
    let minutes := (seconds / 60)%Z in
    if (minutes <? 60)%Z then pretty minutes +:+ "m ago"
    else
      let hours := (minutes / 60)%Z in
      if (hours <? 24)%Z then pretty hours +:+ "h ago"
      else
        let days := (hours / 24)%Z in
        pretty days +:+ "d ago".

(** The string up to the first [/], and the string behind it. *)
Fixpoint upto_slash (s : string) : option (string * string) :=
  match s with
  | EmptyString => None
  | String c s' =>
      if Ascii.eqb c "/"%char then Some ("", s')
      else
        match upto_slash s' with
        | Some (seg, rest) => Some (String c seg, rest)
        | None => None
        end
  end.

(** [cwd.replace(/^\/Users\/[^/]+\//, "~/")]. *)
Definition replace_home (cwd : string) : string :=
  if String.prefix "/Users/" cwd then
    match upto_slash (String.substring 7 (String.length cwd - 7) cwd) with
    | Some (user, rest) => if truthy user then "~/" +:+ rest else cwd
    | None => cwd
    end
  else cwd.

Definition sessionLabel (s : SessionInfo) : string :=
  let stateIcon := if isAlive s then "●" else "○" in
  let title := default (replace_home (cwd s)) (name s) in
  stateIcon +:+ " " +:+ title.

Section Sessions.

Context (js : Strings).

Definition sessionDescription (now : Z) (s : SessionInfo) : string :=
  let id := slice_0_8 js (sessionId s) in
  let age :=
    match createdAt s with
    | Some ts => if (ts =? 0)%Z then "" else timeAgo now ts
    | None => ""
    end in
  id +:+ " " +:+ age.

(** The double quote. *)
Definition dq : string := String (ascii_of_nat 34) "".

(** [findByPrefix(sessions, prefix)]. *)
Definition findByPrefix (sessions : list SessionInfo) (prefix : string)
    : Proc (option SessionInfo) :=
  match List.find (fun s => String.eqb (sessionId s) prefix) sessions with
  | Some exact => pure (Some exact)
  | None =>
      let matches :=
        List.filter (fun s => String.prefix prefix (sessionId s)) sessions in
      if (length matches =? 1)%nat then pure (head matches)
      else if (1 <? length matches)%nat then
        effect
          (console_error
             ("Ambiguous session prefix " +:+ dq +:+ prefix +:+ dq
              +:+ ", matches:"));;
        for_each matches
          (fun m =>
             effect
               (console_error
                  ("  " +:+ slice_0_8 js (sessionId m) +:+ "  "
                   +:+ state m +:+ "  " +:+ cwd m)));;
        process_exit 1
      else pure None
  end.

(** ** The session picker *)

Record SelectItem := {
  label : string;
  value : string;
  description : string;
}.

(** The comparison of [pickSession] and of [--continue]: most recent
    first. *)
Definition by_createdAt (a b : SessionInfo) : Z :=
  (default 0 (createdAt b) - default 0 (createdAt a))%Z.

(** A list of sessions in which no session is more recent than one before
    it. *)
Fixpoint most_recent_first (l : list SessionInfo) : Prop :=
  match l with
  | [] => True
  | s :: l' =>
      Forall (fun s' => (default 0 (createdAt s') <= default 0 (createdAt s))%Z) l'
      /\ most_recent_first l'
  end.

(** The items of the list that [pickSession] shows. *)
Definition pickSession_items (now : Z) (sessions : list SessionInfo)
    : list SelectItem :=
  let sorted := Array_sort by_createdAt sessions in
  map (fun s =>
         {| label := sessionLabel s; value := sessionId s;
            description := sessionDescription now s |})
      sorted.

(** What the user does with the list: [onSelect(item)] or [onCancel()]. *)
Inductive Choice :=
  | select (item : SelectItem)
  | cancel.

(** The value that the promise of [pickSession] resolves with. *)
Definition pickSession (sessions : list SessionInfo) (choice : Choice)
    : option SessionInfo :=
  match choice with
  | select item =>
      List.find (fun s => String.eqb (sessionId s) (value item)) sessions
  | cancel => None
  end.

(** ** The session that [main] connects to *)

(** The answers of the Companion server, [None] where the request fails
    and the helper of [companion-client.ts] throws, and what the user does
    with the picker. *)
Record World := {
  listSessions : option (list SessionInfo);
  relaunchSession : string -> option unit;
  createSession : option string;
  choice : Choice;
}.

Definition await {A} (answer : option A) : Proc A :=
  match answer with
  | Some a => pure a
  | None => raise
  end.

Definition ensureAlive (w : World) (session : SessionInfo) : Proc unit :=
  if isAlive session then pure tt
  else
    effect
      (console_log
         ("Session " +:+ slice_0_8 js (sessionId session) +:+ " is "
          +:+ state session +:+ ", relaunching..."));;
    effect (relaunch (sessionId session));;
    await (relaunchSession w (sessionId session));;
    effect (sleep 2000).

(** The first part of [main]: from the arguments to [sessionId].  [cwd'] is
    [process.cwd()]. *)
Definition resolveSession (w : World) (args : CliArgs) (cwd' : string)
    : Proc string :=
  catch
    (allSessions ← await (listSessions w);
     let localSessions :=
       List.filter (fun s => String.eqb (cwd s) cwd') allSessions in
     if resume args then
       if match resumeId args with Some id => truthy id | None => false end
       then
         let id := default "" (resumeId args) in
         session ← findByPrefix allSessions id;
         match session with
         | None =>
             effect
               (console_error
                  ("No session found matching " +:+ dq +:+ id +:+ dq));;
             let recent :=
               let l :=
                 List.filter (fun s => String.eqb (cwd s) cwd') allSessions in
               drop (length l - 10) l in
             (if (0 <? length recent)%nat then
                effect (console_error "Sessions in this directory:");;
                for_each recent
                  (fun s =>
                     effect
                       (console_error
                          ("  " +:+ slice_0_8 js (sessionId s) +:+ "  "
                           +:+ padEnd js (state s) 10 +:+ "  "
                           +:+ default (cwd s) (name s))))
              else pure tt);;
             process_exit 1
         | Some session =>
             ensureAlive w session;;
             effect
               (console_log
                  ("Resuming session " +:+ slice_0_8 js (sessionId session)
                   +:+ "..."));;
             pure (sessionId session)
         end
       else
         if (length localSessions =? 0)%nat then
           effect (console_error ("No sessions in " +:+ cwd'));;
           process_exit 1
         else
           match pickSession localSessions (choice w) with
           | None => process_exit 0
           | Some picked =>
               ensureAlive w picked;;
               pure (sessionId picked)
           end
     else if continue args then
       if (length localSessions =? 0)%nat then
         effect (console_error ("No sessions to continue in " +:+ cwd'));;
         process_exit 1
       else
         match Array_sort by_createdAt localSessions with
         | session :: _ =>
             ensureAlive w session;;
             effect
               (console_log
                  ("Continuing session " +:+ slice_0_8 js (sessionId session)
                   +:+ match name session with
                       | Some n =>
                           if truthy n then " (" +:+ n +:+ ")" else ""
                       | None => ""
                       end
                   +:+ "..."));;
             pure (sessionId session)
         | [] => raise
         end
     else
       match List.filter isAlive localSessions with
       | session :: _ =>
           effect
             (console_log
                ("Connecting to session "
                 +:+ slice_0_8 js (sessionId session) +:+ "..."));;
           pure (sessionId session)
       | [] =>
           effect (console_log "Creating new session...");;
           effect (create cwd');;
           sessionId ← await (createSession w);
           effect
             (console_log
                ("Created session " +:+ slice_0_8 js sessionId));;
           pure sessionId
       end)
    (effect
       (console_error
          ("Cannot connect to Companion at " +:+ host args
           +:+ ". Is it running?"));;
     effect (console_error "Start it with: bunx the-companion");;
     process_exit 1).

(** [main] up to the container: the arguments, the help, the session. *)
Definition main_start (COMPANION_HOST : option string) (argv : list string)
    (w : World) (cwd' : string) : Proc string :=
  args ← parseCliArgs COMPANION_HOST argv;
  (if help args then printUsage;; process_exit 0 else pure tt);;
  resolveSession w args cwd'.

End Sessions.

(** The arguments that are flags without a value. *)
Definition plain_flags : list string :=
  ["-h"; "--help"; "-c"; "--continue"; "-r"; "--resume"].

End Startup.

(** Sessions and a server for the examples. *)
Module StartupSample.

Import Startup.

(** The built-ins on strings of ASCII characters. *)
Definition strings : Strings :=
  {| slice_0_8 := String.substring 0 8;
     padEnd := fun s n =>
       s +:+ String.concat "" (repeat " " (n - String.length s)) |}.

Definition session (id state' cwd' : string) (created : Z) : SessionInfo :=
  {| sessionId := id; state := state'; cwd := cwd'; createdAt := Some created;
     name := None; backendType := None; cliSessionId := None; pid := None |}.

Definition sessions : list SessionInfo :=
  [ session "3f2a9c10-aaaa" "exited" "/work/app" 1000;
    session "77b0e1d2-bbbb" "idle" "/work/other" 5000;
    session "3f2a9c55-cccc" "exited" "/work/app" 3000;
    session "a0c4e2f6-dddd" "idle" "/work/app" 3000 ].

Definition world : World :=
  {| listSessions := Some sessions;
     relaunchSession := fun _ => Some tt;
     createSession := Some "e5d6c7b8-eeee";
     choice := cancel |}.

End StartupSample.
(** * The stand-alone NDJSON server: the application ([ndjson-server.ts]) *)

Module NdjsonApp.

(** ** Messages *)

(** [event.delta] of a stream event. *)
Record EventDelta := {
  delta_type : string;
  delta_text : option string;
  delta_thinking : option string;
  delta_partial_json : option string;
}.

(** [event] of a [CLIStreamEvent]. *)
Record CliEvent := {
  event_type : string;
  event_index : option nat;
  event_content_block : option ContentBlock;
  event_delta : option EventDelta;
}.

(** [request] of a [CLIControlRequest]. *)
Record CanUseTool := {
  subtype : string;
  tool_name : string;
  input : JsObject;
  description : option string;
  tool_use_id : string;
}.

(** [CLIMessage], with the properties that the server reads or forwards. *)
Inductive CLIMessage :=
  | system (subtype : string) (session_id : string) (model : option string)
  | assistant (content : list ContentBlock)
  | user (content : string + list ContentBlock)
  | result (is_error : bool) (errors : option (list string))
           (duration_ms total_cost_usd num_turns : number)
  | control_request (request_id : string) (request : CanUseTool)
  | stream_event (event : CliEvent)
  | keep_alive
  | tool_progress (tool_use_id tool_name : string)
                  (elapsed_time_seconds : number).

(** The objects that [sendToCli] is called with. *)
Inductive ToCli :=
  | control_response (request_id : string) (behavior : Behavior)
  | user_input (content : JsValue) (session_id : option string)
  | interrupt_request (request_id : nat).

(** What is written to a socket: [JSON.stringify(msg) + "\n"] for the CLI,
    [JSON.stringify({ type: "cli_message", data: msg })] for a browser. *)
Inductive Frame :=
  | to_cli (msg : ToCli)
  | to_browser (data : CLIMessage).

(** A message of a browser, parsed: [msg.type] and [msg.content]. *)
Record BrowserMessage := {
  browser_type : JsValue;
  browser_content : JsValue;
}.

(** [ws.data.role], as [server.upgrade] sets it. *)
Inductive Role := cli | browser.

Record Runtime := {
  (** [JSON.parse(trimmed)] of a line of the CLI; [None] when it throws. *)
  JSON_parse : string -> option CLIMessage;
  (** [JSON.parse(data.toString())] of a message of a browser and the
      reading of its properties; [None] when either throws. *)
  JSON_parse_browser : string -> option BrowserMessage;
  (** [JSON.stringify(input).slice(0, 100)]. *)
  JSON_stringify_100 : JsObject -> string;
  trim : string -> string;
  toFixed : number -> nat -> string;
  (** A number in a template literal. *)
  Number_toString : number -> string;
  (** [s.slice(0, 8)]. *)
  slice_0_8 : string -> string;
}.

(** ** Components and state *)

Inductive Component :=
  | HeaderC
  | EditorC
  | Spacer (id : nat)
  | Text (id : nat)
  | Markdown (id : nat)
  | Loader (id : nat)
  | PermissionBanner (id : nat) (request_id : string) (request : CanUseTool).

(** Object identity. *)
Definition same (a b : Component) : bool :=
  match a, b with
  | HeaderC, HeaderC | EditorC, EditorC => true
  | Spacer i, Spacer j | Text i, Text j | Markdown i, Markdown j
  | Loader i, Loader j | PermissionBanner i _ _, PermissionBanner j _ _ =>
      Nat.eqb i j
  | _, _ => false
  end.

(** The variables of [main], the container of pi-tui with the text of its
    components and the allocation counter, [editor.disableSubmit], the
    [readyState] of each socket, what was written to the sockets (oldest
    first, with the socket), the source of [crypto.randomUUID()] and whether
    [process.exit] was called. *)
Record State := {
  cliWs : option nat;
  browserWs : option nat;
  sessionId : option string;
  isRunning : bool;
  readyState : nat -> Z;
  sent : list (nat * Frame);
  children : list Component;
  focus : option Component;
  texts : gmap nat string;
  nextId : nat;
  disableSubmit : bool;
  streamingText : string;
  streamingMd : option nat;
  loader : option nat;
  permissionBanner : option Component;
  uuid : nat;
  exited : bool;
}.

(** Field updates. *)
Definition set_cliWs (v : option nat) (st : State) : State :=
  {| cliWs := v; browserWs := browserWs st; sessionId := sessionId st;
     isRunning := isRunning st; readyState := readyState st; sent := sent st;
     children := children st; focus := focus st; texts := texts st;
     nextId := nextId st; disableSubmit := disableSubmit st;
     streamingText := streamingText st; streamingMd := streamingMd st;
     loader := loader st; permissionBanner := permissionBanner st;
     uuid := uuid st; exited := exited st |}.
Definition set_browserWs (v : option nat) (st : State) : State :=
  {| cliWs := cliWs st; browserWs := v; sessionId := sessionId st;
     isRunning := isRunning st; readyState := readyState st; sent := sent st;
     children := children st; focus := focus st; texts := texts st;
     nextId := nextId st; disableSubmit := disableSubmit st;
     streamingText := streamingText st; streamingMd := streamingMd st;
     loader := loader st; permissionBanner := permissionBanner st;
     uuid := uuid st; exited := exited st |}.
Definition set_sessionId (v : option string) (st : State) : State :=
  {| cliWs := cliWs st; browserWs := browserWs st; sessionId := v;
     isRunning := isRunning st; readyState := readyState st; sent := sent st;
     children := children st; focus := focus st; texts := texts st;
     nextId := nextId st; disableSubmit := disableSubmit st;
     streamingText := streamingText st; streamingMd := streamingMd st;
     loader := loader st; permissionBanner := permissionBanner st;
     uuid := uuid st; exited := exited st |}.
Definition set_isRunning (v : bool) (st : State) : State :=
  {| cliWs := cliWs st; browserWs := browserWs st; sessionId := sessionId st;
     isRunning := v; readyState := readyState st; sent := sent st;
     children := children st; focus := focus st; texts := texts st;
     nextId := nextId st; disableSubmit := disableSubmit st;
     streamingText := streamingText st; streamingMd := streamingMd st;
     loader := loader st; permissionBanner := permissionBanner st;
     uuid := uuid st; exited := exited st |}.
Definition set_readyState (v : nat -> Z) (st : State) : State :=
  {| cliWs := cliWs st; browserWs := browserWs st; sessionId := sessionId st;
     isRunning := isRunning st; readyState := v; sent := sent st;
     children := children st; focus := focus st; texts := texts st;
     nextId := nextId st; disableSubmit := disableSubmit st;
     streamingText := streamingText st; streamingMd := streamingMd st;
     loader := loader st; permissionBanner := permissionBanner st;
     uuid := uuid st; exited := exited st |}.
Definition set_sent (v : list (nat * Frame)) (st : State) : State :=
  {| cliWs := cliWs st; browserWs := browserWs st; sessionId := sessionId st;
     isRunning := isRunning st; readyState := readyState st; sent := v;
     children := children st; focus := focus st; texts := texts st;
     nextId := nextId st; disableSubmit := disableSubmit st;
     streamingText := streamingText st; streamingMd := streamingMd st;
     loader := loader st; permissionBanner := permissionBanner st;
     uuid := uuid st; exited := exited st |}.
Definition set_children (v : list Component) (st : State) : State :=
  {| cliWs := cliWs st; browserWs := browserWs st; sessionId := sessionId st;
     isRunning := isRunning st; readyState := readyState st; sent := sent st;
     children := v; focus := focus st; texts := texts st;
     nextId := nextId st; disableSubmit := disableSubmit st;
     streamingText := streamingText st; streamingMd := streamingMd st;
     loader := loader st; permissionBanner := permissionBanner st;
     uuid := uuid st; exited := exited st |}.
Definition set_focus (v : option Component) (st : State) : State :=
  {| cliWs := cliWs st; browserWs := browserWs st; sessionId := sessionId st;
     isRunning := isRunning st; readyState := readyState st; sent := sent st;
     children := children st; focus := v; texts := texts st;
     nextId := nextId st; disableSubmit := disableSubmit st;
     streamingText := streamingText st; streamingMd := streamingMd st;
     loader := loader st; permissionBanner := permissionBanner st;
     uuid := uuid st; exited := exited st |}.
Definition set_texts (v : gmap nat string) (st : State) : State :=
  {| cliWs := cliWs st; browserWs := browserWs st; sessionId := sessionId st;
     isRunning := isRunning st; readyState := readyState st; sent := sent st;
     children := children st; focus := focus st; texts := v;
     nextId := nextId st; disableSubmit := disableSubmit st;
     streamingText := streamingText st; streamingMd := streamingMd st;
     loader := loader st; permissionBanner := permissionBanner st;
     uuid := uuid st; exited := exited st |}.
Definition set_nextId (v : nat) (st : State) : State :=
  {| cliWs := cliWs st; browserWs := browserWs st; sessionId := sessionId st;
     isRunning := isRunning st; readyState := readyState st; sent := sent st;
     children := children st; focus := focus st; texts := texts st;
     nextId := v; disableSubmit := disableSubmit st;
     streamingText := streamingText st; streamingMd := streamingMd st;
     loader := loader st; permissionBanner := permissionBanner st;
     uuid := uuid st; exited := exited st |}.
Definition set_disableSubmit (v : bool) (st : State) : State :=
  {| cliWs := cliWs st; browserWs := browserWs st; sessionId := sessionId st;
     isRunning := isRunning st; readyState := readyState st; sent := sent st;
     children := children st; focus := focus st; texts := texts st;
     nextId := nextId st; disableSubmit := v;
     streamingText := streamingText st; streamingMd := streamingMd st;
     loader := loader st; permissionBanner := permissionBanner st;
     uuid := uuid st; exited := exited st |}.
Definition set_streamingText (v : string) (st : State) : State :=
  {| cliWs := cliWs st; browserWs := browserWs st; sessionId := sessionId st;
     isRunning := isRunning st; readyState := readyState st; sent := sent st;
     children := children st; focus := focus st; texts := texts st;
     nextId := nextId st; disableSubmit := disableSubmit st;
     streamingText := v; streamingMd := streamingMd st; loader := loader st;
     permissionBanner := permissionBanner st; uuid := uuid st;
     exited := exited st |}.
Definition set_streamingMd (v : option nat) (st : State) : State :=
  {| cliWs := cliWs st; browserWs := browserWs st; sessionId := sessionId st;
     isRunning := isRunning st; readyState := readyState st; sent := sent st;
     children := children st; focus := focus st; texts := texts st;
     nextId := nextId st; disableSubmit := disableSubmit st;
     streamingText := streamingText st; streamingMd := v;
     loader := loader st; permissionBanner := permissionBanner st;
     uuid := uuid st; exited := exited st |}.
Definition set_loader (v : option nat) (st : State) : State :=
  {| cliWs := cliWs st; browserWs := browserWs st; sessionId := sessionId st;
     isRunning := isRunning st; readyState := readyState st; sent := sent st;
     children := children st; focus := focus st; texts := texts st;
     nextId := nextId st; disableSubmit := disableSubmit st;
     streamingText := streamingText st; streamingMd := streamingMd st;
     loader := v; permissionBanner := permissionBanner st; uuid := uuid st;
     exited := exited st |}.
Definition set_permissionBanner (v : option Component) (st : State) : State :=
  {| cliWs := cliWs st; browserWs := browserWs st; sessionId := sessionId st;
     isRunning := isRunning st; readyState := readyState st; sent := sent st;
     children := children st; focus := focus st; texts := texts st;
     nextId := nextId st; disableSubmit := disableSubmit st;
     streamingText := streamingText st; streamingMd := streamingMd st;
     loader := loader st; permissionBanner := v; uuid := uuid st;
     exited := exited st |}.
Definition set_uuid (v : nat) (st : State) : State :=
  {| cliWs := cliWs st; browserWs := browserWs st; sessionId := sessionId st;
     isRunning := isRunning st; readyState := readyState st; sent := sent st;
     children := children st; focus := focus st; texts := texts st;
     nextId := nextId st; disableSubmit := disableSubmit st;
     streamingText := streamingText st; streamingMd := streamingMd st;
     loader := loader st; permissionBanner := permissionBanner st; uuid := v;
     exited := exited st |}.
Definition set_exited (v : bool) (st : State) : State :=
  {| cliWs := cliWs st; browserWs := browserWs st; sessionId := sessionId st;
     isRunning := isRunning st; readyState := readyState st; sent := sent st;
     children := children st; focus := focus st; texts := texts st;
     nextId := nextId st; disableSubmit := disableSubmit st;
     streamingText := streamingText st; streamingMd := streamingMd st;
     loader := loader st; permissionBanner := permissionBanner st;
     uuid := uuid st; exited := v |}.

(** ** The container *)

Fixpoint indexOf (l : list Component) (c : Component) : option nat :=
  match l with
  | [] => None
  | x :: l' => if same x c then Some 0 else S <$> indexOf l' c
  end.

Definition addChild (c : Component) (st : State) : State :=
  set_children (children st ++ [c]) st.

Definition removeChild (c : Component) (st : State) : State :=
  match indexOf (children st) c with
  | Some idx => set_children (take idx (children st) ++ drop (S idx) (children st)) st
  | None => st
  end.

Definition setFocus (c : Component) (st : State) : State :=
  set_focus (Some c) st.

Definition alloc (st : State) : nat * State :=
  (nextId st, set_nextId (S (nextId st)) st).

Definition setText (id : nat) (text : string) (st : State) : State :=
  set_texts (<[id := text]> (texts st)) st.

(** ** The closures of [main] *)

Definition insertBeforeEditor (component : Component) (st : State) : State :=
  match indexOf (children st) EditorC with
  | Some idx =>
      set_children
        (take idx (children st) ++ component :: drop idx (children st)) st
  | None => addChild component st
  end.

Definition removeLoader (st : State) : State :=
  match loader st with
  | Some id =>
      let st := removeChild (Loader id) st in
      set_loader None st
  | None => st
  end.

Definition ensureStreamingMd (st : State) : nat * State :=
  match streamingMd st with
  | Some md => (md, st)
  | None =>
      let st := removeLoader st in
      let '(md, st) := alloc st in
      let st := setText md "" st in
      let st := set_streamingMd (Some md) st in
      let st := insertBeforeEditor (Markdown md) st in
      (md, st)
  end.

Definition finalizeStream (st : State) : State :=
  let st := set_streamingText "" st in
  set_streamingMd None st.

(** [insertBeforeEditor(new Text(text))], [insertBeforeEditor(new
    Spacer(1))], [insertBeforeEditor(new Markdown(text))], and a new loader
    kept in [loader]. *)
Definition insertText (text : string) (st : State) : State :=
  let '(id, st) := alloc st in
  let st := setText id text st in
  insertBeforeEditor (Text id) st.

Definition insertSpacer (st : State) : State :=
  let '(id, st) := alloc st in insertBeforeEditor (Spacer id) st.

Definition insertMarkdown (text : string) (st : State) : State :=
  let '(id, st) := alloc st in
  let st := setText id text st in
  insertBeforeEditor (Markdown id) st.

Definition showLoader (message : string) (st : State) : State :=
  let '(id, st) := alloc st in
  let st := setText id message st in
  let st := set_loader (Some id) st in
  insertBeforeEditor (Loader id) st.

(** [sendToCli(msg)] and [sendToBrowser(msg)]: the socket must be there and
    open ([readyState === 1]). *)
Definition sendToCli (msg : ToCli) (st : State) : State :=
  match cliWs st with
  | Some ws =>
      if (readyState st ws =? 1)%Z
      then set_sent (sent st ++ [(ws, to_cli msg)]) st
      else st
  | None => st
  end.

Definition sendToBrowser (data : CLIMessage) (st : State) : State :=
  match browserWs st with
  | Some ws =>
      if (readyState st ws =? 1)%Z
      then set_sent (sent st ++ [(ws, to_browser data)]) st
      else st
  | None => st
  end.

(** The callback given to the banner of the request [request_id]. *)
Definition onRespond (request_id : string) (request : CanUseTool)
    (behavior : Behavior) (st : State) : State :=
  let st := sendToCli (control_response request_id behavior) st in
  let st :=
    match permissionBanner st with
    | Some banner =>
        let st := removeChild banner st in
        set_permissionBanner None st
    | None => st
    end in
  let st := showLoader ("Running " +:+ tool_name request +:+ "...") st in
  setFocus EditorC st.

Section WithRuntime.

Context (rt : Runtime).

Definition extractText (blocks : list ContentBlock) : string :=
  join ""
    (flat_map
       (fun block =>
          match block with
          | text_block text => [text]
          | tool_use _ name input =>
              let inputStr :=
                match String.eqb name "Bash", prop input "command" with
                | true, JsStr command => "$ " +:+ command
                | _, _ => JSON_stringify_100 rt input
                end in
              ["
" +:+ "⚡ " +:+ name +:+ " " +:+ inputStr +:+ "
"]
          | thinking_block thinking => ["💭 " +:+ thinking]
          | tool_result _ _ _ => []
          end)
       blocks).

(** The body of the loop of [handleCliMessage] behind the [try]: the message
    is forwarded to the browser, then handled by its type. *)
Definition handleParsed (msg : CLIMessage) (st : State) : State :=
  let st := sendToBrowser msg st in
  match msg with
  | system subtype session_id model =>
      if String.eqb subtype "init" then
        let st := set_sessionId (Some session_id) st in
        let st :=
          insertText
            ("Session: " +:+ slice_0_8 rt session_id +:+ " | Model: "
             +:+ default "unknown" model) st in
        insertSpacer st
      else st
  | assistant content =>
      let st := finalizeStream st in
      let st := removeLoader st in
      let text := extractText content in
      if truthy (trim rt text) then
        let st := insertMarkdown text st in
        insertSpacer st
      else st
  | stream_event event =>
      let text_delta :=
        if String.eqb (event_type event) "content_block_delta" then
          match event_delta event with
          | Some delta =>
              if String.eqb (delta_type delta) "text_delta" then
                match delta_text delta with
                | Some text => if truthy text then Some text else None
                | None => None
                end
              else None
          | None => None
          end
        else None in
      match text_delta with
      | Some text =>
          let '(md, st) := ensureStreamingMd st in
          let st := set_streamingText (streamingText st +:+ text) st in
          setText md (streamingText st) st
      | None =>
          if String.eqb (event_type event) "message_stop"
             || String.eqb (event_type event) "message_delta"
          then finalizeStream st
          else st
      end
  | result is_error errors duration_ms total_cost_usd num_turns =>
      let st := finalizeStream st in
      let st := removeLoader st in
      let st := set_isRunning false st in
      let st := set_disableSubmit false st in
      let st :=
        match errors with
        | Some errs =>
            if is_error && negb (length errs =? 0)%nat
            then insertText ("Error: " +:+ join ", " errs) st
            else st
        | None => st
        end in
      let st := insertSpacer st in
      insertText
        ("Cost: $" +:+ toFixed rt total_cost_usd 4 +:+ " | Turns: "
         +:+ Number_toString rt num_turns +:+ " | Duration: "
         +:+ toFixed rt (duration_ms / Q2Qc (inject_Z 1000))%Qc 1 +:+ "s") st
  | control_request request_id request =>
      if negb (String.eqb (subtype request) "can_use_tool") then st
      else
        let st := removeLoader st in
        let '(id, st) := alloc st in
        let banner := PermissionBanner id request_id request in
        let st := set_permissionBanner (Some banner) st in
        let st := insertBeforeEditor banner st in
        setFocus banner st
  | tool_progress _ tool_name elapsed_time_seconds =>
      match loader st with
      | Some l =>
          setText l
            ("Running " +:+ tool_name +:+ "... ("
             +:+ toFixed rt elapsed_time_seconds 0 +:+ "s)") st
      | None => st
      end
  | keep_alive => st
  | user _ => st
  end.

(** [handleCliMessage(raw)], with the loop over the lines of
    [NdjsonServer]. *)
Definition handleCliMessage (raw : string) (st : State) : State :=
  fst (NdjsonServer.handleCliMessage (JSON_parse rt) (trim rt)
         (fun msg st => (handleParsed msg st, Normal tt)) raw st).

(** ** The sockets *)

Definition ws_open (ws : nat) (role : Role) (st : State) : State :=
  match role with
  | cli =>
      let st := set_cliWs (Some ws) st in
      insertText "Claude Code connected" st
  | browser => set_browserWs (Some ws) st
  end.

Definition ws_message (ws : nat) (role : Role) (data : string) (st : State)
    : State :=
  match role with
  | cli => handleCliMessage data st
  | browser =>
      match JSON_parse_browser rt data with
      | Some msg =>
          match browser_type msg with
          | JsStr type =>
              if String.eqb type "user_message" then
                sendToCli (user_input (browser_content msg) (sessionId st)) st
              else st
          | _ => st
          end
      | None => st
      end
  end.

Definition ws_close (ws : nat) (role : Role) (st : State) : State :=
  match role with
  | cli =>
      let st := set_cliWs None st in
      insertText "Claude Code disconnected" st
  | browser => set_browserWs None st
  end.

(** ** The editor and the keyboard *)

Definition onSubmit (text : string) (st : State) : State :=
  let trimmed := trim rt text in
  if negb (truthy trimmed) || isRunning st then st
  else
    let st := sendToCli (user_input (JsStr trimmed) (sessionId st)) st in
    let st := insertMarkdown ("You: " +:+ trimmed) st in
    let st := set_isRunning true st in
    let st := set_disableSubmit true st in
    showLoader "Thinking..." st.

(** [PermissionBanner.handleInput(data)]. *)
Definition PermissionBanner_handleInput (request_id : string)
    (request : CanUseTool) (data : Tui.Key) (st : State) : State :=
  if Tui.matchesKey data "y" || Tui.matchesKey data "enter" then
    onRespond request_id request allow st
  else if Tui.matchesKey data "n" || Tui.matchesKey data "escape" then
    onRespond request_id request deny st
  else st.

(** The listener of [tui.addInputListener]; the boolean is [consume]. *)
Definition inputListener (data : Tui.Key) (st : State) : bool * State :=
  if Tui.matchesKey data "ctrl+c" then
    if isRunning st then
      let id := uuid st in
      let st := set_uuid (S id) st in
      (true, sendToCli (interrupt_request id) st)
    else (true, set_exited true st)
  else (false, st).

Definition handleInput (data : Tui.Key) (st : State) : State :=
  let '(consume, st) := inputListener data st in
  if consume then st
  else
    match focus st with
    | Some (PermissionBanner _ request_id request) =>
        PermissionBanner_handleInput request_id request data st
    | _ => st
    end.

(** The reader of the standard error of the CLI. *)
Definition on_stderr (text : string) (st : State) : State :=
  if truthy (trim rt text) then insertText (trim rt text) st else st.

(** ** Events *)

(** What the runtime delivers: the events of the sockets, a change of the
    [readyState] of a socket, keyboard input, the callback of the editor and
    output of the CLI on its standard error.  An event that cannot occur in
    a state leaves the state as it is. *)
Inductive Event :=
  | WsOpen (ws : nat) (role : Role)
  | WsMessage (ws : nat) (role : Role) (data : string)
  | WsClose (ws : nat) (role : Role)
  | WsReadyState (ws : nat) (n : Z)
  | Input (data : Tui.Key)
  | EditorSubmit (text : string)
  | Stderr (text : string).

Definition dispatch (ev : Event) (st : State) : State :=
  if exited st then st
  else
    match ev with
    | WsOpen ws role =>
        ws_open ws role
          (set_readyState (fun x => if Nat.eqb x ws then 1%Z else readyState st x) st)
    | WsMessage ws role data => ws_message ws role data st
    | WsClose ws role =>
        ws_close ws role
          (set_readyState (fun x => if Nat.eqb x ws then 3%Z else readyState st x) st)
    | WsReadyState ws n =>
        set_readyState (fun x => if Nat.eqb x ws then n else readyState st x) st
    | Input data => handleInput data st
    | EditorSubmit text =>
        match focus st with
        | Some EditorC => onSubmit text st
        | _ => st
        end
    | Stderr text => on_stderr text st
    end.

Definition run (evs : list Event) (st : State) : State :=
  fold_left (fun st ev => dispatch ev st) evs st.

End WithRuntime.

(** The state in which [main] starts the container. *)
Definition initial : State :=
  {| cliWs := None; browserWs := None; sessionId := None; isRunning := false;
     readyState := fun _ => 0%Z; sent := [];
     children := [HeaderC; Spacer 0; EditorC]; focus := Some EditorC;
     texts := ∅; nextId := 1; disableSubmit := false; streamingText := "";
     streamingMd := None; loader := None; permissionBanner := None;
     uuid := 0; exited := false |}.

End NdjsonApp.
(** * The SDK bridge: the body of [sdkLoop] ([src/sdk-bridge.ts]) *)

Module SdkLoop.

Import SdkBridge.

(** What the SDK client does in one turn: [client.send] returns or throws;
    [client.receive()] yields the messages of [stream] and then ends, or
    throws behind them. *)
Record Turn := {
  send_error : option JsValue;
  stream : list SDKMessage;
  stream_error : option JsValue;
}.

Section Body.

Context {World : Type}.

(** [String(err)]. *)
Context (String_ : JsValue -> string).

Context (bus : EventBus World).

(** [for await (const msg of client.receive()) { bus.emit(msg); if
    (msg.type === "result") break; }]. *)
Fixpoint receive_loop (stream : list SDKMessage)
    (stream_error : option JsValue) : Js (Run World) unit :=
  match stream with
  | [] =>
      match stream_error with
      | Some err => throw err
      | None => ret tt
      end
  | msg :: rest =>
      bind (emit bus msg)
        (fun _ =>
           if String.eqb (type msg) "result" then ret tt
           else receive_loop rest stream_error)
  end.

(** [{ type: "error", message: String(err) }]. *)
Definition error_event (err : JsValue) : SDKMessage :=
  {| type := "error";
     properties := {[ "message" := JsStr (String_ err) ]} |}.

(** The body of the loop of [sdkLoop] behind the [await] of the content:
    the [try] with its [catch].  What other callbacks do to the world
    between two messages of the stream is not part of it. *)
Definition sdkLoop_body (t : Turn) : Js (Run World) unit :=
  try_catch
    (bind
       (match send_error t with
        | Some err => throw err
        | None => ret tt
        end)
       (fun _ => receive_loop (stream t) (stream_error t)))
    (fun err => emit bus (error_event err)).

End Body.

End SdkLoop.

(** * Vocabulary of the properties *)

Import Tui.

(** ** Streaming *)

(** The identifiers of the [Markdown] components of a container, in order. *)
Definition markdowns (l : list Component) : list nat :=
  flat_map (fun c => match c with Markdown id => [id] | _ => [] end) l.

(** The streaming state in which a message starts: no component, no text. *)
Definition fresh (st : State) : Prop :=
  streamingMd (vars st) = None /\ streamingText (vars st) = "".

Definition handleMessages (rt : Runtime) (msgs : list ServerMessage)
    (st : State) : State :=
  fold_left (fun st msg => handleMessage rt msg st) msgs st.

(** A text delta of the block [index]. *)
Definition delta_event (index : nat) (d : string * option Z) : ServerMessage :=
  stream_event (content_block_delta index (text_delta (fst d))) (snd d).

(** block-start, the text deltas (payload and [seq] of each), block-stop,
    message-stop. *)
Definition streamed_message (index : nat) (block : ContentBlock)
    (deltas : list (string * option Z)) (s1 s2 s3 : option Z)
    : list ServerMessage :=
  (stream_event (content_block_start index block) s1
   :: map (delta_event index) deltas
   ++ [stream_event (content_block_stop index) s2;
       stream_event message_stop s3])%list.

(** The payloads of the deltas, concatenated in order. *)
Definition payload (deltas : list (string * option Z)) : string :=
  join "" (map fst deltas).

(** ** Permission requests and responses *)

(** Whether a frame is a response to the request [r], and how many responses
    to [r] a list of frames holds. *)
Definition is_response (r : string) (m : ClientMessage) : bool :=
  match m with
  | c_permission_response r' _ _ => String.eqb r' r
  | _ => false
  end.

Definition responses (r : string) (frames : list ClientMessage) : nat :=
  length (List.filter (is_response r) frames).

Arguments responses : simpl never.

(** How many times handling [msg] shows a prompt for the request [r]: the
    permission requests for [r] in [msg], also inside a history or a replay. *)
Fixpoint shown_in (r : string) (msg : ServerMessage) : nat :=
  match msg with
  | permission_request request _ =>
      if String.eqb (request_id request) r then 1 else 0
  | message_history messages _ =>
      (fix sum (l : list ServerMessage) : nat :=
         match l with
         | [] => 0
         | m :: l' => shown_in r m + sum l'
         end) messages
  | event_replay events _ =>
      (fix sum (l : list (ServerMessage * Z)) : nat :=
         match l with
         | [] => 0
         | (m, _) :: l' => shown_in r m + sum l'
         end) events
  | _ => 0
  end.

(** The same for the frame of an event, and for a list of events. *)
Definition shown_by (rt : Runtime) (r : string) (ev : Event) : nat :=
  match ev with
  | WsMessage data =>
      match JSON_parse rt data with
      | Some msg => shown_in r msg
      | None => 0
      end
  | _ => 0
  end.

Definition shown (rt : Runtime) (r : string) (evs : list Event) : nat :=
  list_sum (map (shown_by rt r) evs).

(** The request whose banner has the focus. *)
Definition prompting (r : string) (st : State) : nat :=
  match focus (tui st) with
  | Some (PermissionBanner _ request) =>
      if String.eqb (request_id request) r then 1 else 0
  | _ => 0
  end.

(** The responses sent and the prompt on the screen, counted together. *)
Definition answered_or_prompting (r : string) (st : State) : nat :=
  responses r (sent (client st)) + prompting r st.

(** A step from [st] to [st'] that sends no response to [r] and shows no
    new prompt for [r]. *)
Definition calm (r : string) (st st' : State) : Prop :=
  responses r (sent (client st')) = responses r (sent (client st))
  /\ prompting r st' <= prompting r st.

(** ** Induction on messages *)

(** Whether a message holds other messages. *)
Definition nested (msg : ServerMessage) : bool :=
  match msg with
  | message_history _ _ | event_replay _ _ => true
  | _ => false
  end.

Section ServerMessage_nested_ind.

Context (P : ServerMessage -> Prop).
Context (Hflat : forall msg, nested msg = false -> P msg).
Context (Hhistory : forall messages seq,
           Forall P messages -> P (message_history messages seq)).
Context (Hreplay : forall events seq,
           Forall (fun e => P (fst e)) events -> P (event_replay events seq)).

Fixpoint ServerMessage_nested_ind (msg : ServerMessage) : P msg :=
  match msg as m return P m with
  | message_history messages seq =>
      Hhistory messages seq
        ((fix all (l : list ServerMessage) : Forall P l :=
            match l with
            | [] => @List.Forall_nil _ P
            | m :: l' =>
                @List.Forall_cons _ P m l' (ServerMessage_nested_ind m) (all l')
            end) messages)
  | event_replay events seq =>
      Hreplay events seq
        ((fix all (l : list (ServerMessage * Z))
            : Forall (fun e => P (fst e)) l :=
            match l with
            | [] => @List.Forall_nil _ (fun e => P (fst e))
            | e :: l' =>
                @List.Forall_cons _ (fun e => P (fst e)) e l'
                  (ServerMessage_nested_ind (fst e)) (all l')
            end) events)
  | m => Hflat m eq_refl
  end.

End ServerMessage_nested_ind.

(** ** Notices *)

(** The [Text] components of the container, which is where the client shows
    its diagnostics (["Error: ..."], ["CLI disconnected"], ...). *)
Definition notices (st : State) : list nat :=
  flat_map (fun c => match c with Text id => [id] | _ => [] end)
    (children (tui st)).

(** ** A runtime for the examples *)

Module Sample.

(** The double quote, and a quoted string of a JSON text. *)
Definition dq : string := String (ascii_of_nat 34) "".

Definition quoted (s : string) : string := dq +:+ s +:+ dq.

(** [{"type":"cli_connected","seq":3}] *)
Definition frame_connected_3 : string :=
  "{" +:+ quoted "type" +:+ ":" +:+ quoted "cli_connected" +:+ ","
  +:+ quoted "seq" +:+ ":3}".

(** [{"type":"event_replay","events":[
      {"msg":{"type":"cli_disconnected","seq":4},"seq":4},
      {"msg":{"type":"cli_connected","seq":5},"seq":5}]}] *)
Definition frame_replay_4_5 : string :=
  "{" +:+ quoted "type" +:+ ":" +:+ quoted "event_replay" +:+ ","
  +:+ quoted "events" +:+ ":[{" +:+ quoted "msg" +:+ ":{" +:+ quoted "type"
  +:+ ":" +:+ quoted "cli_disconnected" +:+ "," +:+ quoted "seq" +:+ ":4},"
  +:+ quoted "seq" +:+ ":4},{" +:+ quoted "msg" +:+ ":{" +:+ quoted "type"
  +:+ ":" +:+ quoted "cli_connected" +:+ "," +:+ quoted "seq" +:+ ":5},"
  +:+ quoted "seq" +:+ ":5}]}".

(** [{"type":"error","message":"boom"}] *)
Definition frame_error : string :=
  "{" +:+ quoted "type" +:+ ":" +:+ quoted "error" +:+ ","
  +:+ quoted "message" +:+ ":" +:+ quoted "boom" +:+ "}".

(** [{"type":"permission_request","request":{"request_id":"req-1",
      "tool_name":"Bash","input":{"command":"ls"},"tool_use_id":"toolu_1",
      "timestamp":0}}] *)
Definition frame_permission : string :=
  "{" +:+ quoted "type" +:+ ":" +:+ quoted "permission_request" +:+ ","
  +:+ quoted "request" +:+ ":{" +:+ quoted "request_id" +:+ ":"
  +:+ quoted "req-1" +:+ "," +:+ quoted "tool_name" +:+ ":" +:+ quoted "Bash"
  +:+ "," +:+ quoted "input" +:+ ":{" +:+ quoted "command" +:+ ":"
  +:+ quoted "ls" +:+ "}," +:+ quoted "tool_use_id" +:+ ":"
  +:+ quoted "toolu_1" +:+ "," +:+ quoted "timestamp" +:+ ":0}}".

Definition request_1 : PermissionRequest :=
  {| request_id := "req-1"; tool_name := "Bash";
     input := {["command" := JsStr "ls"]}; description := None;
     tool_use_id := "toolu_1"; agent_id := None; timestamp := 0%Qc |}.

(** Not a JSON text. *)
Definition frame_malformed : string := "{oops".

(** [JSON.parse] on the frames of the examples; any other text is taken as
    one that [JSON.parse] rejects. *)
Definition parse (data : string) : option ServerMessage :=
  if String.eqb data frame_connected_3 then Some (cli_connected (Some 3%Z))
  else if String.eqb data frame_replay_4_5 then
    Some (event_replay
            [(cli_disconnected (Some 4%Z), 4%Z); (cli_connected (Some 5%Z), 5%Z)]
            None)
  else if String.eqb data frame_error then Some (error "boom" None)
  else if String.eqb data frame_permission then
    Some (permission_request request_1 None)
  else None.

Fixpoint trim_start (s : string) : string :=
  match s with
  | String c s' => if Ascii.is_space c then trim_start s' else s
  | EmptyString => EmptyString
  end.

Definition ascii_trim (s : string) : string :=
  String.rev (trim_start (String.rev (trim_start s))).

Definition lower (c : ascii) : ascii :=
  let n := nat_of_ascii c in
  if (65 <=? n)%nat && (n <=? 90)%nat then ascii_of_nat (n + 32) else c.

Fixpoint ascii_lower (s : string) : string :=
  match s with
  | String c s' => String (lower c) (ascii_lower s')
  | EmptyString => EmptyString
  end.

Fixpoint digits (s : string) : option (list nat) :=
  match s with
  | EmptyString => Some []
  | String c s' =>
      match Ascii.is_nat c, digits s' with
      | Some d, Some ds => Some (d :: ds)
      | _, _ => None
      end
  end.

Definition decimal (s : string) : Z :=
  match digits s with
  | Some ds => fold_left (fun acc d => (10 * acc + Z.of_nat d)%Z) ds 0%Z
  | None => 0%Z
  end.

Definition digits_and_letter (s : string) : option (string * string) :=
  match String.rev s with
  | String c ds =>
      let l := lower c in
      if (Ascii.eqb l "t" || Ascii.eqb l "r")
         && negb (String.eqb ds "")
         && bool_decide (is_Some (digits ds))
      then Some (String.rev ds, String c "")
      else None
  | EmptyString => None
  end.

(** The built-ins that only format text are given on strings alone. *)
Definition runtime : Runtime :=
  {| JSON_parse := parse;
     JSON_stringify := fun _ => "{}";
     trim := ascii_trim;
     toFixed := fun _ _ => "0";
     String_ := fun v => match v with JsStr s => s | _ => "" end;
     toLowerCase := ascii_lower;
     split_whitespace := String.words;
     match_mcp_action := digits_and_letter;
     parseInt := decimal |}.

End Sample.

(** ** The SDK bridge *)

(** The world after the handlers ran one after the other, each on the world
    the one before it left, whether it returned or threw. *)
Definition after_handlers {World : Type}
    (hs : list (nat * SdkBridge.EventHandler)) (event : SdkBridge.SDKMessage)
    (w : World) : World :=
  fold_left (fun w h => fst (snd h event w)) hs w.

(** [pendingSend] holds the [resolve] of the promise that the loop awaits,
    and only then; and while the loop awaits the queue is empty. *)
Definition consistent (b : SdkBridge.Bridge) : Prop :=
  match SdkBridge.loop b with
  | SdkBridge.Awaiting p =>
      SdkBridge.pendingSend b = Some p /\ SdkBridge.messageQueue b = []
  | _ => SdkBridge.pendingSend b = None
  end.

(** ** Tactics *)

(** Unfolding of the helpers of the terminal client, and case analysis on
    what they branch on. *)
Ltac unfold_tui :=
  unfold onRespond, dismissBanner, showLoader, insertMarkdown, insertSpacer,
    insertText, ensureStreamingMd, finalizeStream, removeLoader,
    insertBeforeEditor, new_SelectList, new_PermissionBanner, new_Loader,
    new_Markdown, new_Text, new_Spacer, setText, alloc, setFocus, removeChild,
    addChild, ws_on_close, ws_on_open, dispose, scheduleReconnect, connect,
    onStatusChange, mcpReconnect, mcpToggle, mcpGetStatus, setPermissionMode,
    setModel, interrupt, sendPermissionResponse, sendUserMessage, randomUUID,
    send in *.

Ltac break_match :=
  repeat
    (cbn in *;
     match goal with
     | |- context [match ?x with _ => _ end] =>
         lazymatch x with
         | context [match _ with _ => _ end] => fail
         | _ => destruct x eqn:?
         end
     end);
  cbn in *.
(** ** The container *)

(** The three components that [main] creates once and never removes. *)
Definition fixed (c : Component) : bool :=
  match c with
  | StatusBarC | HeaderC | EditorC => true
  | _ => false
  end.

(** The identifier of a component that was created with [new]. *)
Definition id_of (c : Component) : nat :=
  match c with
  | StatusBarC | HeaderC | EditorC => 0
  | Spacer id | Text id | Markdown id | Loader id | PermissionBanner id _
  | SelectList id _ => id
  end.

(** The class of a component. *)
Definition class_of (c : Component) : nat :=
  match c with
  | StatusBarC => 0
  | HeaderC => 1
  | EditorC => 2
  | Spacer _ => 3
  | Text _ => 4
  | Markdown _ => 5
  | Loader _ => 6
  | PermissionBanner _ _ => 7
  | SelectList _ _ => 8
  end.

(** The container [children] has the status bar first, the header second and
    the editor last, with [middle] between them; the components of [middle]
    were created with [new] before the allocation counter reached [next],
    and none of them is there twice. *)
Definition laid_out (children middle : list Component) (next : nat) : Prop :=
  children = StatusBarC :: HeaderC :: (middle ++ [EditorC])%list
  /\ Forall (fun c => fixed c = false /\ id_of c < next) middle
  /\ NoDup (map (fun c => (class_of c, id_of c)) middle).

(** The container is laid out, and the variable [permissionBanner] holds a
    banner if anything. *)
Definition neat (st : State) : Prop :=
  (exists middle, laid_out (children (tui st)) middle (nextId (tui st)))
  /\ (forall b, permissionBanner (vars st) = Some b ->
        class_of b = 7 /\ id_of b < nextId (tui st)).

(** Moreover a banner that has the focus is the one that [permissionBanner]
    holds. *)
Definition tidy (st : State) : Prop :=
  neat st
  /\ (forall id request,
        focus (tui st) = Some (PermissionBanner id request) ->
        permissionBanner (vars st) = Some (PermissionBanner id request)).

(** [l] without its first element that is the component [c]. *)
Fixpoint without (c : Component) (l : list Component) : list Component :=
  match l with
  | [] => []
  | x :: l' => if same x c then l' else x :: without c l'
  end.

(** A step from [st] to [st'] that keeps the container neat and leaves the
    focus and [permissionBanner]; a step that keeps the container tidy. *)
Definition steady (st st' : State) : Prop :=
  (neat st -> neat st')
  /\ focus (tui st') = focus (tui st)
  /\ permissionBanner (vars st') = permissionBanner (vars st).

Definition keeps (st st' : State) : Prop := tidy st -> tidy st'.

(** ** The NDJSON server *)

(** The messages of a chunk from the CLI: the lines that are not blank and
    that parse, in order. *)
Definition parsed_lines (rt : NdjsonApp.Runtime) (raw : string)
    : list NdjsonApp.CLIMessage :=
  omap (fun line =>
          let trimmed := NdjsonApp.trim rt line in
          if truthy trimmed then NdjsonApp.JSON_parse rt trimmed else None)
       (split_lines raw).

(** The socket that [sendToBrowser] writes to, if it writes. *)
Definition browser_socket (st : NdjsonApp.State) : option nat :=
  match NdjsonApp.browserWs st with
  | Some ws => if (NdjsonApp.readyState st ws =? 1)%Z then Some ws else None
  | None => None
  end.

(** A step of the server that writes nothing and leaves the sockets. *)
Definition silent (st st' : NdjsonApp.State) : Prop :=
  NdjsonApp.sent st' = NdjsonApp.sent st
  /\ NdjsonApp.browserWs st' = NdjsonApp.browserWs st
  /\ NdjsonApp.cliWs st' = NdjsonApp.cliWs st
  /\ NdjsonApp.readyState st' = NdjsonApp.readyState st
  /\ NdjsonApp.exited st' = NdjsonApp.exited st.

(** A runtime for the examples of the NDJSON server: two lines that parse. *)
Module NdjsonSample.

Definition line_keep_alive : string :=
  "{" +:+ Sample.quoted "type" +:+ ":" +:+ Sample.quoted "keep_alive" +:+ "}".

Definition line_init : string :=
  "{" +:+ Sample.quoted "type" +:+ ":" +:+ Sample.quoted "system" +:+ ","
  +:+ Sample.quoted "subtype" +:+ ":" +:+ Sample.quoted "init" +:+ ","
  +:+ Sample.quoted "session_id" +:+ ":" +:+ Sample.quoted "5e550001-aaaa"
  +:+ "}".

Definition parse (line : string) : option NdjsonApp.CLIMessage :=
  if String.eqb line line_keep_alive then Some NdjsonApp.keep_alive
  else if String.eqb line line_init
  then Some (NdjsonApp.system "init" "5e550001-aaaa" None)
  else None.

Definition runtime : NdjsonApp.Runtime :=
  {| NdjsonApp.JSON_parse := parse;
     NdjsonApp.JSON_parse_browser := fun _ => None;
     NdjsonApp.JSON_stringify_100 := fun _ => "{}";
     NdjsonApp.trim := Sample.ascii_trim;
     NdjsonApp.toFixed := fun _ _ => "0";
     NdjsonApp.Number_toString := fun _ => "0";
     NdjsonApp.slice_0_8 := String.substring 0 8 |}.

End NdjsonSample.

(** ** Frames and events *)

(** The frames that the handler of an event can write. *)
Definition may_send (ev : Event) (m : ClientMessage) : bool :=
  match ev, m with
  | WsOpen, c_session_subscribe _ _ => true
  | McpTimer, c_mcp_get_status _ => true
  | Input _ _, (c_interrupt _ | c_permission_response _ _ _) => true
  | EditorSubmit _,
    (c_user_message _ _ | c_set_model _ _ | c_set_permission_mode _ _
    | c_mcp_get_status _ | c_mcp_toggle _ _ _ | c_mcp_reconnect _ _) => true
  | ListSelect _, (c_set_model _ _ | c_set_permission_mode _ _) => true
  | _, _ => false
  end.

(** A step that writes no frame, and a step that writes at most one frame,
    which satisfies [P]. *)
Definition quiet (st st' : State) : Prop :=
  sent (client st') = sent (client st).

Definition emits (P : ClientMessage -> bool) (st st' : State) : Prop :=
  exists more,
    sent (client st') = (sent (client st) ++ more)%list
    /\ length more <= 1
    /\ Forall (fun m => P m = true) more.

(** ** The permission banner on the screen *)

(** The styles of [chalk] that the banner uses. *)
Record Chalk := {
  bgYellow_black : string -> string;
  yellow : string -> string;
  dim : string -> string;
  green : string -> string;
  red : string -> string;
  blue : string -> string;
}.

(** The line of the banner that names the keys. *)
Definition keys_line (chalk : Chalk) : string :=
  "  " +:+ green chalk "[y] Allow" +:+ "  " +:+ red chalk "[n] Deny" +:+ "  "
  +:+ blue chalk "[a] Always allow".

(** [PermissionBanner.render(width)] of the banner for [r]. *)
Definition PermissionBanner_render (rt : Runtime) (chalk : Chalk)
    (r : PermissionRequest) (width : nat) : list string :=
  let inputStr := formatToolInput rt (tool_name r) (input r) in
  let lines :=
    [ ""; bgYellow_black chalk " PERMISSION REQUEST ";
      yellow chalk ("Tool: " +:+ tool_name r) ] in
  let lines :=
    if truthy inputStr then
      let lines :=
        fold_left
          (fun lines line => (lines ++ [dim chalk ("  " +:+ line)])%list)
          (take 10 (split_lines inputStr)) lines in
      if (10 <? length (split_lines inputStr))%nat
      then (lines ++ [dim chalk "  ... (truncated)"])%list
      else lines
    else lines in
  let lines := (lines ++ [""])%list in
  let lines := (lines ++ [keys_line chalk])%list in
  (lines ++ [""])%list.

(** * Properties *)

(** ** The session snapshot *)

Lemma Object_assign_lookup (target source : JsObject) (k : string) :
  Object_assign target source !! k
  = match source !! k with Some v => Some v | None => target !! k end.
Proof.
  unfold Object_assign. rewrite lookup_union.
  destruct (source !! k), (target !! k); reflexivity.
Qed.

(** C7.  A [session_init] replaces the snapshot by the session of the
    message.  A [session_update] applied to a snapshot is
    [Object.assign(snapshot, patch)]: a property that the patch names has the
    value of the patch, every other property keeps its value.  Neither
    message changes anything else in the state; without a snapshot the
    update changes nothing. *)
Theorem session_update_is_shallow_merge
    (rt : Runtime) (st : State) (init patch : SessionState) (s1 s2 : option Z) :
  let replaced := handleMessage rt (session_init init s1) st in
  let merged := handleMessage rt (session_update patch s2) st in
  session (statusBar replaced) = Some init
  /\ session (statusBar merged)
     = (fun snapshot => Object_assign snapshot patch) <$> session (statusBar st)
  /\ (forall (snapshot : SessionState) (k : string),
        Object_assign snapshot patch !! k
        = match patch !! k with
          | Some v => Some v
          | None => snapshot !! k
          end)
  /\ (client replaced, tui replaced, vars replaced) = (client st, tui st, vars st)
  /\ (client merged, tui merged, vars merged) = (client st, tui st, vars st).
Proof.
  cbn -[Object_assign].
  split; [reflexivity |].
  split.
  { destruct (session (statusBar st)) eqn:E; cbn; [reflexivity | exact E]. }
  split; [intros snapshot k; apply Object_assign_lookup |].
  split; [reflexivity |].
  destruct (session (statusBar st)); reflexivity.
Qed.

(** The [result] message writes the cost and the number of turns into the
    snapshot and leaves its other properties. *)
Lemma result_updates_cost_and_turns
    (rt : Runtime) (st : State) (data : ResultData) (s : option Z)
    (snapshot : SessionState) (k : string) :
  session (statusBar st) = Some snapshot ->
  exists snapshot',
    session (statusBar (handleMessage rt (result data s) st)) = Some snapshot'
    /\ snapshot' !! k
       = if String.eqb k "num_turns" then Some (JsNum (num_turns data))
         else if String.eqb k "total_cost_usd"
         then Some (JsNum (total_cost_usd data))
         else snapshot !! k.
Proof.
  intros Hs.
  assert (Hk : forall st0, session (statusBar st0) = Some snapshot ->
            exists snapshot',
              session (statusBar
                (match session (statusBar st0) with
                 | Some s0 =>
                     set_session
                       (Some (<["num_turns" := JsNum (num_turns data)]>
                                (<["total_cost_usd" := JsNum (total_cost_usd data)]> s0)))
                       st0
                 | None => st0
                 end)) = Some snapshot'
              /\ snapshot' !! k
                 = if String.eqb k "num_turns" then Some (JsNum (num_turns data))
                   else if String.eqb k "total_cost_usd"
                   then Some (JsNum (total_cost_usd data))
                   else snapshot !! k).
  { intros st0 H0. rewrite H0. eexists. split; [reflexivity |].
    destruct (String.eqb_spec k "num_turns") as [-> | Hn].
    - apply lookup_insert_eq.
    - rewrite lookup_insert_ne by congruence.
      destruct (String.eqb_spec k "total_cost_usd") as [-> | Hc].
      + apply lookup_insert_eq.
      + rewrite lookup_insert_ne by congruence. reflexivity. }
  cbn [handleMessage].
  set (st1 := dismissBanner _).
  assert (H1 : session (statusBar st1) = Some snapshot).
  { subst st1. unfold_tui. break_match; exact Hs. }
  destruct (Hk st1 H1) as (snapshot' & Ha & Hb).
  exists snapshot'. split; [| exact Hb].
  rewrite <- Ha. clear. 
  unfold_tui. break_match; reflexivity.
Qed.

(** ** Strings and containers *)

Lemma append_nil_r (s : string) : s +:+ "" = s.
Proof.
  induction s as [| c s IH]; [reflexivity |].
  change (String c (s +:+ "") = String c s). now rewrite IH.
Qed.

Lemma append_assoc (a b c : string) : (a +:+ b) +:+ c = a +:+ (b +:+ c).
Proof.
  induction a as [| x a IH]; [reflexivity |].
  change (String x ((a +:+ b) +:+ c) = String x (a +:+ (b +:+ c))).
  now rewrite IH.
Qed.

Lemma join_empty_cons (x : string) (l : list string) :
  join "" (x :: l) = x +:+ join "" l.
Proof.
  unfold join. destruct l as [| y l]; cbn; [now rewrite append_nil_r | reflexivity].
Qed.

Lemma indexOf_lookup (l : list Component) (c : Component) (i : nat) :
  indexOf l c = Some i -> exists x, l !! i = Some x /\ same x c = true.
Proof.
  revert i. induction l as [| y l IH]; intros i H; cbn in H; [discriminate |].
  destruct (same y c) eqn:E.
  - injection H as <-. exists y. split; [reflexivity | exact E].
  - destruct (indexOf l c) as [j |]; [| discriminate].
    injection H as <-. destruct (IH j eq_refl) as (x & Hx & Hs).
    exists x. split; [exact Hx | exact Hs].
Qed.

Lemma flat_map_splice_insert {A} (f : Component -> list A) (idx : nat)
    (c : Component) (l : list Component) :
  f c = [] -> flat_map f (splice_insert idx c l) = flat_map f l.
Proof.
  intros Hc. unfold splice_insert.
  rewrite flat_map_app. cbn. rewrite Hc. cbn.
  rewrite <- flat_map_app, take_drop. reflexivity.
Qed.

Lemma flat_map_splice_remove {A} (f : Component -> list A) (i : nat)
    (x : Component) (l : list Component) :
  l !! i = Some x -> f x = [] -> flat_map f (splice_remove i l) = flat_map f l.
Proof.
  intros Hx Hf. unfold splice_remove.
  rewrite <- (take_drop_middle l i x Hx) at 3.
  rewrite !flat_map_app. cbn. rewrite Hf. reflexivity.
Qed.

Lemma flat_map_insertBeforeEditor {A} (f : Component -> list A)
    (c : Component) (st : State) :
  f c = [] ->
  flat_map f (children (tui (insertBeforeEditor c st)))
  = flat_map f (children (tui st)).
Proof.
  intros Hc. unfold insertBeforeEditor.
  destruct (indexOf (children (tui st)) EditorC) as [idx |]; cbn.
  - apply flat_map_splice_insert, Hc.
  - rewrite flat_map_app. cbn. rewrite Hc. cbn. apply app_nil_r.
Qed.

Lemma flat_map_removeChild {A} (f : Component -> list A)
    (c : Component) (st : State) :
  (forall x, same x c = true -> f x = []) ->
  flat_map f (children (tui (removeChild c st)))
  = flat_map f (children (tui st)).
Proof.
  intros Hf. unfold removeChild.
  destruct (indexOf (children (tui st)) c) as [i |] eqn:E; [| reflexivity].
  cbn. destruct (indexOf_lookup _ _ _ E) as (x & Hx & Hs).
  apply (flat_map_splice_remove f i x); [exact Hx | exact (Hf x Hs)].
Qed.

Lemma flat_map_removeLoader {A} (f : Component -> list A) (st : State) :
  (forall id, f (Loader id) = []) ->
  flat_map f (children (tui (removeLoader st)))
  = flat_map f (children (tui st)).
Proof.
  intros Hf. unfold removeLoader.
  destruct (loader (vars st)) as [id |]; [| reflexivity].
  change (children (tui (set_loader None (removeChild (Loader id) st))))
    with (children (tui (removeChild (Loader id) st))).
  apply flat_map_removeChild.
  intros x Hs. destruct x; cbn in Hs; try discriminate. apply Hf.
Qed.

Lemma elem_of_insertBeforeEditor (c : Component) (st : State) :
  c ∈ children (tui (insertBeforeEditor c st)).
Proof.
  unfold insertBeforeEditor.
  destruct (indexOf (children (tui st)) EditorC) as [idx |]; cbn.
  - unfold splice_insert. apply elem_of_app. right. apply list_elem_of_here.
  - apply elem_of_app. right. apply list_elem_of_here.
Qed.

Lemma markdowns_app (l1 l2 : list Component) :
  markdowns (l1 ++ l2) = (markdowns l1 ++ markdowns l2)%list.
Proof. unfold markdowns. apply flat_map_app. Qed.

Lemma markdowns_splice_insert (idx md : nat) (l : list Component) :
  markdowns (splice_insert idx (Markdown md) l) ≡ₚ md :: markdowns l.
Proof.
  unfold splice_insert. rewrite markdowns_app. cbn.
  rewrite <- Permutation_middle. constructor.
  rewrite <- markdowns_app, take_drop. reflexivity.
Qed.

Lemma markdowns_splice_remove (i : nat) (x : Component) (l : list Component) :
  l !! i = Some x -> markdowns [x] = [] ->
  markdowns (splice_remove i l) = markdowns l.
Proof.
  intros Hx Hm. unfold splice_remove.
  rewrite <- (take_drop_middle l i x Hx) at 3.
  rewrite !markdowns_app.
  change (x :: drop (S i) l) with ([x] ++ drop (S i) l)%list.
  rewrite markdowns_app, Hm. reflexivity.
Qed.

Lemma markdowns_insertBeforeEditor (md : nat) (st : State) :
  markdowns (children (tui (insertBeforeEditor (Markdown md) st)))
  ≡ₚ md :: markdowns (children (tui st)).
Proof.
  unfold insertBeforeEditor.
  destruct (indexOf (children (tui st)) EditorC) as [idx |]; cbn.
  - apply markdowns_splice_insert.
  - rewrite markdowns_app. cbn. symmetry. apply Permutation_cons_append.
Qed.

Lemma markdowns_removeLoader (st : State) :
  markdowns (children (tui (removeLoader st))) = markdowns (children (tui st)).
Proof.
  unfold removeLoader. destruct (loader (vars st)) as [id |]; [| reflexivity].
  unfold removeChild.
  destruct (indexOf (children (tui st)) (Loader id)) as [i |] eqn:E;
    [| reflexivity].
  cbn. destruct (indexOf_lookup _ _ _ E) as (x & Hx & Hs).
  apply (markdowns_splice_remove i x); [exact Hx |].
  destruct x; cbn in Hs; try discriminate; reflexivity.
Qed.

(** ** Reassembly of a streamed message *)

Section Streaming.

Context (rt : Runtime).

Lemma handleMessages_cons (msg : ServerMessage) (msgs : list ServerMessage)
    (st : State) :
  handleMessages rt (msg :: msgs) st
  = handleMessages rt msgs (handleMessage rt msg st).
Proof. reflexivity. Qed.

Lemma handleMessages_app (l1 l2 : list ServerMessage) (st : State) :
  handleMessages rt (l1 ++ l2) st
  = handleMessages rt l2 (handleMessages rt l1 st).
Proof. apply fold_left_app. Qed.

Lemma block_start_is_ignored (index : nat) (block : ContentBlock)
    (s : option Z) (st : State) :
  handleMessage rt (stream_event (content_block_start index block) s) st = st.
Proof. reflexivity. Qed.

Lemma block_stop_is_ignored (index : nat) (s : option Z) (st : State) :
  handleMessage rt (stream_event (content_block_stop index) s) st = st.
Proof. reflexivity. Qed.

(** A text delta while a streaming component exists. *)
Lemma delta_appends (index : nat) (d : string * option Z) (st : State)
    (md : nat) :
  streamingMd (vars st) = Some md ->
  handleMessage rt (delta_event index d) st
  = setText md (streamingText (vars st) +:+ fst d)
      (set_streamingText (streamingText (vars st) +:+ fst d) st).
Proof.
  intros H. unfold delta_event. cbn [handleMessage].
  unfold ensureStreamingMd. rewrite H. reflexivity.
Qed.

(** The deltas that follow the first one. *)
Lemma deltas_append (index : nat) (deltas : list (string * option Z)) :
  forall (st : State) (md : nat) (base : gmap nat string),
    streamingMd (vars st) = Some md ->
    texts (tui st) = <[md := streamingText (vars st)]> base ->
    let st' := handleMessages rt (map (delta_event index) deltas) st in
    streamingMd (vars st') = Some md
    /\ streamingText (vars st') = streamingText (vars st) +:+ payload deltas
    /\ texts (tui st') = <[md := streamingText (vars st')]> base
    /\ children (tui st') = children (tui st)
    /\ nextId (tui st') = nextId (tui st).
Proof.
  induction deltas as [| d deltas IH]; intros st md base Hmd Htx.
  - cbn. rewrite append_nil_r. repeat split; assumption.
  - unfold handleMessages in *. cbn [map fold_left].
    rewrite (delta_appends index d st md Hmd).
    remember (setText md _ _) as st1 eqn:E.
    assert (Ht : streamingText (vars st1) = streamingText (vars st) +:+ fst d)
      by (subst st1; reflexivity).
    assert (H1 : streamingMd (vars st1) = Some md) by (subst st1; exact Hmd).
    assert (H2 : texts (tui st1) = <[md := streamingText (vars st1)]> base).
    { rewrite Ht. subst st1. cbn. rewrite Htx. apply insert_insert_eq. }
    assert (H3 : children (tui st1) = children (tui st)) by (subst st1; reflexivity).
    assert (H4 : nextId (tui st1) = nextId (tui st)) by (subst st1; reflexivity).
    destruct (IH st1 md base H1 H2) as (Ha & Hb & Hc & Hd & He).
    split; [exact Ha |].
    split.
    { rewrite Hb, Ht. unfold payload. cbn [map].
      rewrite join_empty_cons. apply append_assoc. }
    split; [exact Hc |].
    split; [rewrite Hd; exact H3 | rewrite He; exact H4].
Qed.

(** The first text delta of a message creates the streaming component. *)
Lemma first_delta_creates (index : nat) (d : string * option Z) (st : State) :
  streamingMd (vars st) = None ->
  let st1 := handleMessage rt (delta_event index d) st in
  let md := nextId (tui st) in
  streamingMd (vars st1) = Some md
  /\ streamingText (vars st1) = streamingText (vars st) +:+ fst d
  /\ texts (tui st1) = <[md := streamingText (vars st1)]> (texts (tui st))
  /\ children (tui st1)
     = children (tui (insertBeforeEditor (Markdown md) (removeLoader st)))
  /\ nextId (tui st1) = S md.
Proof.
  intros H. unfold delta_event. cbn [handleMessage fst snd].
  unfold ensureStreamingMd. rewrite H.
  unfold_tui. break_match; cbn;
    (split; [reflexivity |]); (split; [reflexivity |]);
    (split; [apply insert_insert_eq |]); split; reflexivity.
Qed.


(** C2, amended.  A text delta is never dropped, whatever block events came
    before it: its payload is appended to the streaming text, which is the
    text of the streaming component; when there is no streaming component the
    delta creates one and puts it into the container.  Handling it shows no
    notice and sends nothing.  ([handleMessage] is a total function: the
    delta cannot make it throw.) *)
Theorem orphan_delta_is_appended
    (index : nat) (text : string) (s : option Z) (st : State) :
  let st' :=
    handleMessage rt
      (stream_event (content_block_delta index (text_delta text)) s) st in
  streamingText (vars st') = streamingText (vars st) +:+ text
  /\ (exists md,
        streamingMd (vars st') = Some md
        /\ texts (tui st') !! md = Some (streamingText (vars st'))
        /\ (streamingMd (vars st) = None ->
            md = nextId (tui st) /\ Markdown md ∈ children (tui st')))
  /\ notices st' = notices st
  /\ sent (client st') = sent (client st).
Proof.
  cbn zeta.
  change (stream_event (content_block_delta index (text_delta text)) s)
    with (delta_event index (text, s)).
  destruct (streamingMd (vars st)) as [md |] eqn:E.
  - rewrite (delta_appends index (text, s) st md E). cbn.
    split; [reflexivity |].
    split; [| split; reflexivity].
    exists md. split; [exact E |].
    split; [apply lookup_insert_eq | discriminate].
  - destruct (first_delta_creates index (text, s) st E) as (Ha & Hb & Hc & Hd & He).
    remember (handleMessage rt (delta_event index (text, s)) st) as st1 eqn:E1.
    split; [exact Hb |].
    split.
    { exists (nextId (tui st)). split; [exact Ha |].
      split; [rewrite Hc; apply lookup_insert_eq |].
      intros _. split; [reflexivity |].
      rewrite Hd. apply elem_of_insertBeforeEditor. }
    split.
    { unfold notices. rewrite Hd.
      rewrite flat_map_insertBeforeEditor by reflexivity.
      apply flat_map_removeLoader. reflexivity. }
    subst st1. unfold delta_event. cbn [handleMessage fst snd].
    unfold ensureStreamingMd. rewrite E. unfold_tui. break_match; reflexivity.
Qed.

End Streaming.



(** C2 as stated fails: a text delta that comes after the block-stop of its
    block, with no block open, is not dropped.  It creates the streaming
    component, which is put into the container with the payload as text. *)
Lemma delta_after_block_stop :
  let st := start "tui-1" "0a1b2c3d" None in
  let st' :=
    handleMessages Sample.runtime
      [ stream_event (content_block_start 0 (text_block "")) None;
        stream_event (content_block_stop 0) None;
        stream_event (content_block_delta 0 (text_delta "late")) None ] st in
  streamingMd (vars st) = None
  /\ streamingMd (vars st') = Some 1
  /\ streamingText (vars st') = "late"
  /\ texts (tui st') !! 1 = Some "late"
  /\ children (tui st') = [StatusBarC; HeaderC; Spacer 0; Markdown 1; EditorC].
Proof. repeat split. Qed.

(** ** Nested messages *)

Section Nested.

Context (rt : Runtime).

Lemma handleMessage_history (messages : list ServerMessage) (s : option Z)
    (st : State) :
  handleMessage rt (message_history messages s) st
  = handleMessages rt messages st.
Proof.
  cbn [handleMessage]. revert st.
  induction messages as [| m l IH]; intros st; [reflexivity |].
  rewrite handleMessages_cons. apply IH.
Qed.

Lemma handleMessage_replay (events : list (ServerMessage * Z)) (s : option Z)
    (st : State) :
  handleMessage rt (event_replay events s) st
  = handleMessages rt (map fst events) st.
Proof.
  cbn [handleMessage]. revert st.
  induction events as [| [m n] l IH]; intros st; [reflexivity |].
  cbn [map fst]. rewrite handleMessages_cons. apply IH.
Qed.

(** A reflexive and transitive relation between the state before and the
    state after that holds for the messages that hold no other message holds
    for every message. *)
Lemma handleMessage_preserves (R : State -> State -> Prop) :
  (forall st, R st st) ->
  (forall st1 st2 st3, R st1 st2 -> R st2 st3 -> R st1 st3) ->
  (forall msg st, nested msg = false -> R st (handleMessage rt msg st)) ->
  forall msg st, R st (handleMessage rt msg st).
Proof.
  intros Hrefl Htrans Hflat msg.
  induction msg as [msg Hn | messages s IH | events s IH]
    using ServerMessage_nested_ind; intros st.
  - apply Hflat, Hn.
  - rewrite handleMessage_history. revert st.
    induction IH as [| m l Hm _ IHl]; intros st; [apply Hrefl |].
    rewrite handleMessages_cons. eapply Htrans; [apply Hm | apply IHl].
  - rewrite handleMessage_replay. revert st.
    induction IH as [| e l He _ IHl]; intros st; [apply Hrefl |].
    cbn [map]. rewrite handleMessages_cons.
    eapply Htrans; [apply He | apply IHl].
Qed.

(** Handling a message does not touch the client: nothing is sent and
    [lastSeq] stays. *)
Lemma handleMessage_client (msg : ServerMessage) (st : State) :
  client (handleMessage rt msg st) = client st.
Proof.
  apply (handleMessage_preserves (fun st st' => client st' = client st)).
  - reflexivity.
  - intros st1 st2 st3 H12 H23. now rewrite H23.
  - clear. intros msg st Hn.
    destruct msg; try discriminate Hn; cbn [handleMessage];
      unfold renderMcpStatus; unfold_tui; break_match; reflexivity.
Qed.

End Nested.

(** ** The sequence number of the client *)

Section LastSeq.

Context (rt : Runtime).

(** After a frame that parses, [lastSeq] is the [seq] at the top of the
    frame, when it has one; the messages inside a history or a replay do not
    change it. *)
Lemma lastSeq_after_message (data : string) (msg : ServerMessage) (st : State) :
  JSON_parse rt data = Some msg ->
  lastSeq (client (ws_on_message rt data st))
  = default (lastSeq (client st)) (seq_of msg).
Proof.
  intros H. unfold ws_on_message. rewrite H.
  rewrite handleMessage_client. destruct (seq_of msg); reflexivity.
Qed.

(** When the socket opens, the client subscribes with [lastSeq]. *)
Lemma subscribe_on_open (st : State) :
  ws (client st) = Some CONNECTING ->
  exited (vars st) = false ->
  sent (client (dispatch rt WsOpen st))
  = (sent (client st)
     ++ [c_session_subscribe (lastSeq (client st)) (clientId (client st))])%list.
Proof.
  intros H He. unfold dispatch. rewrite He, H. reflexivity.
Qed.

End LastSeq.

(** C3 on a concrete run.  The client gets a frame with [seq] 3 and loses the
    connection; after it reconnects (asking for the events after 3) it is
    sent the replay of the events 4 and 5, handles both, and loses the
    connection again.  When it reconnects it asks for the events after 3
    once more, not after 5: [lastSeq] is still 3.  A server that answers with
    the events after 3 makes the client handle the events 4 and 5 a second
    time. *)
Theorem replay_does_not_advance_lastSeq :
  let evs :=
    [ WsOpen; WsMessage Sample.frame_connected_3; WsClose; ReconnectTimer;
      WsOpen; WsMessage Sample.frame_replay_4_5; WsClose; ReconnectTimer;
      WsOpen ] in
  let st := run Sample.runtime evs (start "tui-1" "0a1b2c3d" None) in
  let again := dispatch Sample.runtime (WsMessage Sample.frame_replay_4_5) st in
  JSON_parse Sample.runtime Sample.frame_replay_4_5
  = Some (event_replay
            [(cli_disconnected (Some 4%Z), 4%Z); (cli_connected (Some 5%Z), 5%Z)]
            None)
  /\ map (fun id => texts (tui st) !! id) (notices st)
     = [Some "CLI connected"; Some "CLI disconnected"; Some "CLI connected"]
  /\ lastSeq (client st) = 3%Z
  /\ sent (client st)
     = [ c_session_subscribe 0 "tui-1"; c_session_subscribe 3 "tui-1";
         c_session_subscribe 3 "tui-1" ]
  /\ map (fun id => texts (tui again) !! id) (notices again)
     = [ Some "CLI connected"; Some "CLI disconnected"; Some "CLI connected";
         Some "CLI disconnected"; Some "CLI connected" ].
Proof. repeat split. Qed.

(** Without a replay the sequence number follows the frames: after frames
    that all parse and carry a [seq], [lastSeq] is the [seq] of the last
    one. *)
Lemma lastSeq_follows_frames (rt : Runtime) (data : string) (msg : ServerMessage)
    (n : Z) (st : State) :
  exited (vars st) = false ->
  ws (client st) = Some OPEN ->
  JSON_parse rt data = Some msg ->
  seq_of msg = Some n ->
  lastSeq (client (dispatch rt (WsMessage data) st)) = n.
Proof.
  intros He Ho Hp Hs. unfold dispatch. rewrite He, Ho.
  rewrite (lastSeq_after_message rt data msg st Hp), Hs. reflexivity.
Qed.

(** ** Frames that do not parse *)

Section Malformed.

Context (rt : Runtime).

Lemma run_app (evs1 evs2 : list Event) (st : State) :
  run rt (evs1 ++ evs2) st = run rt evs2 (run rt evs1 st).
Proof. apply fold_left_app. Qed.

Lemma run_cons (ev : Event) (evs : list Event) (st : State) :
  run rt (ev :: evs) st = run rt evs (dispatch rt ev st).
Proof. reflexivity. Qed.

Lemma for_of_app {S A} (l1 l2 : list A) (body : A -> Js S unit) (s : S) :
  for_of (l1 ++ l2) body s
  = bind (for_of l1 body) (fun _ => for_of l2 body) s.
Proof.
  revert s. induction l1 as [| x l1 IH]; intros s.
  - reflexivity.
  - cbn [app for_of]. unfold bind.
    destruct (body x s) as [s' [[] | exn]]; [| reflexivity].
    specialize (IH s'). unfold bind in IH. exact IH.
Qed.

(** C5, amended.  A frame that [JSON.parse] rejects is dropped without a
    trace: the handler of the client returns with the state as it was (no
    notice is shown, nothing is sent, [lastSeq] and the socket are as
    before), so that a run with the frame ends in the same state as the run
    without it.  In the NDJSON server a line that [JSON.parse] rejects
    neither changes the state nor throws, and the chunk is handled as if the
    line were not in it. *)
Theorem malformed_frame_is_dropped
    (data : string) (evs1 evs2 : list Event) (st : State)
    {CLIMessage S : Type} (parse : string -> option CLIMessage)
    (trim_ : string -> string) (handleParsed : CLIMessage -> Js S unit)
    (raw bad : string) (before after : list string) (s : S) :
  JSON_parse rt data = None ->
  split_lines raw = (before ++ bad :: after)%list ->
  parse (trim_ bad) = None ->
  ws_on_message rt data st = st
  /\ dispatch rt (WsMessage data) st = st
  /\ run rt (evs1 ++ WsMessage data :: evs2) st = run rt (evs1 ++ evs2) st
  /\ NdjsonServer.handleLine parse trim_ handleParsed bad s = (s, Normal tt)
  /\ NdjsonServer.handleCliMessage parse trim_ handleParsed raw s
     = for_of (before ++ after)
         (NdjsonServer.handleLine parse trim_ handleParsed) s.
Proof.
  intros Hdata Hraw Hbad.
  assert (Hmsg : ws_on_message rt data st = st)
    by (unfold ws_on_message; now rewrite Hdata).
  assert (Hdis : forall st0, dispatch rt (WsMessage data) st0 = st0).
  { intros st0. unfold dispatch, ws_on_message. rewrite Hdata.
    destruct (exited (vars st0)); [reflexivity |].
    destruct (ws (client st0)) as [[] |]; reflexivity. }
  assert (Hline : forall s0,
            NdjsonServer.handleLine parse trim_ handleParsed bad s0
            = (s0, Normal tt)).
  { intros s0. unfold NdjsonServer.handleLine. rewrite Hbad.
    destruct (negb (truthy (trim_ bad))); reflexivity. }
  split; [exact Hmsg |].
  split; [apply Hdis |].
  split.
  { rewrite !run_app, run_cons, Hdis. reflexivity. }
  split; [apply Hline |].
  unfold NdjsonServer.handleCliMessage. rewrite Hraw.
  rewrite !for_of_app. unfold bind.
  destruct (for_of before _ s) as [s' [[] | exn]]; [| reflexivity].
  cbn [for_of]. unfold bind. rewrite Hline. reflexivity.
Qed.

End Malformed.

(** A chunk of three lines whose second line is not a JSON text. *)
Lemma malformed_frame_example :
  let st := run Sample.runtime [WsOpen] (start "tui-1" "0a1b2c3d" None) in
  let parse (line : string) :=
    if String.eqb line "1" then Some 1 else
    if String.eqb line "2" then Some 2 else None in
  let count (n : nat) : Js nat unit := fun total => (total + n, Normal tt) in
  let raw := "1
{oops
2" in
  (JSON_parse Sample.runtime Sample.frame_malformed = None
   /\ split_lines raw = (["1"] ++ "{oops" :: ["2"])%list
   /\ parse (Sample.ascii_trim "{oops") = None)
  /\ ws_on_message Sample.runtime Sample.frame_malformed st = st
  /\ dispatch Sample.runtime (WsMessage Sample.frame_malformed) st = st
  /\ run Sample.runtime
       ([WsMessage Sample.frame_connected_3]
        ++ WsMessage Sample.frame_malformed :: [WsMessage Sample.frame_error]) st
     = run Sample.runtime
         ([WsMessage Sample.frame_connected_3] ++ [WsMessage Sample.frame_error])
         st
  /\ NdjsonServer.handleLine parse Sample.ascii_trim count "{oops" 0
     = (0, Normal tt)
  /\ NdjsonServer.handleCliMessage parse Sample.ascii_trim count raw 0
     = for_of (["1"] ++ ["2"])
         (NdjsonServer.handleLine parse Sample.ascii_trim count) 0.
Proof.
  split; [repeat split |].
  apply (malformed_frame_is_dropped Sample.runtime Sample.frame_malformed
           [WsMessage Sample.frame_connected_3] [WsMessage Sample.frame_error]
           _ _ Sample.ascii_trim _ "1
{oops
2" "{oops" ["1"] ["2"] 0); reflexivity.
Defined.

(** C5 as stated fails: no diagnostic is produced for a frame that does not
    parse.  The state after it is the state before it, whereas a frame that
    carries an error shows the notice ["Error: boom"]. *)
Lemma malformed_frame_shows_no_notice :
  let st := run Sample.runtime [WsOpen] (start "tui-1" "0a1b2c3d" None) in
  let dropped := dispatch Sample.runtime (WsMessage Sample.frame_malformed) st in
  let shown := dispatch Sample.runtime (WsMessage Sample.frame_error) st in
  JSON_parse Sample.runtime Sample.frame_malformed = None
  /\ dropped = st
  /\ notices dropped = []
  /\ map (fun id => texts (tui shown) !! id) (notices shown)
     = [Some "Error: boom"].
Proof. repeat split. Qed.

(** ** Interrupts *)

Section Interrupt.

Context (rt : Runtime).

(** With an open socket, [interrupt()] writes the frame at once, behind the
    frames that were written before. *)
Lemma interrupt_sends (st : State) :
  ws (client st) = Some OPEN ->
  sent (client (interrupt st))
  = (sent (client st) ++ [c_interrupt (uuid (client st))])%list
  /\ (tui (interrupt st), statusBar (interrupt st), vars (interrupt st))
     = (tui st, statusBar st, vars st).
Proof. intros H. unfold_tui. cbn. rewrite H. split; reflexivity. Qed.

(** While a turn is running, the editor does not keep a submitted text for
    later: a text that is no command is thrown away. *)
Lemma input_is_not_queued_while_running (text : string) (st : State) :
  isRunning (statusBar st) = true ->
  String.prefix "/" (trim rt text) = false ->
  match_mcp_action rt (trim rt text) = None ->
  onSubmit rt text st = st.
Proof.
  intros Hrun Hslash Hmcp. unfold onSubmit, mcpAction.
  rewrite Hslash, Hmcp, Hrun.
  destruct (negb (truthy (trim rt text))); reflexivity.
Qed.

(** A [result] and a change of status to anything but [running] end the
    turn. *)
Lemma result_ends_turn (data : ResultData) (s : option Z) (st : State) :
  isRunning (statusBar (handleMessage rt (result data s) st)) = false.
Proof. cbn [handleMessage]. unfold_tui. break_match; reflexivity. Qed.

Lemma status_idle_ends_turn (s : option Z) (st : State) :
  isRunning (statusBar (handleMessage rt (status_change (Some idle) s) st))
  = false.
Proof.
  cbn [handleMessage]. reflexivity.
Qed.


End Interrupt.



(** ** The answers to a permission prompt *)

(** C9.  On a permission prompt the key [a] ("always allow") does what the
    key [y] ("allow") does: both call the callback of the banner with
    [allow], so the states after the two keys are equal, the frames sent
    included; over an open socket the frame is one permission response with
    the behavior [allow]. *)
Theorem always_allow_is_allow
    (rt : Runtime) (now : Z) (id : nat) (request : PermissionRequest)
    (st : State) :
  focus (tui st) = Some (PermissionBanner id request) ->
  exited (vars st) = false ->
  dispatch rt (Input A now) st = dispatch rt (Input Y now) st
  /\ dispatch rt (Input A now) st = onRespond request allow st
  /\ PermissionBanner_handleInput request A st
     = PermissionBanner_handleInput request Y st
  /\ (ws (client st) = Some OPEN ->
      sent (client (dispatch rt (Input A now) st))
      = (sent (client st)
         ++ [c_permission_response (request_id request) allow
               (uuid (client st))])%list).
Proof.
  intros Hf He.
  assert (Ha : dispatch rt (Input A now) st = onRespond request allow st).
  { unfold dispatch, handleInput, inputListener. rewrite He. cbn.
    rewrite Hf. reflexivity. }
  assert (Hy : dispatch rt (Input Y now) st = onRespond request allow st).
  { unfold dispatch, handleInput, inputListener. rewrite He. cbn.
    rewrite Hf. reflexivity. }
  split; [now rewrite Ha, Hy |].
  split; [exact Ha |].
  split; [reflexivity |].
  intros Ho. rewrite Ha. unfold_tui. cbn. rewrite Ho.
  break_match; reflexivity.
Qed.

(** The prompt for the request [req-1], answered over an open socket. *)
Lemma always_allow_example :
  let st :=
    run Sample.runtime [WsOpen; WsMessage Sample.frame_permission]
      (start "tui-1" "0a1b2c3d" None) in
  (focus (tui st) = Some (PermissionBanner 1 Sample.request_1)
   /\ exited (vars st) = false)
  /\ dispatch Sample.runtime (Input A 10) st
     = dispatch Sample.runtime (Input Y 10) st
  /\ dispatch Sample.runtime (Input A 10) st
     = onRespond Sample.request_1 allow st
  /\ PermissionBanner_handleInput Sample.request_1 A st
     = PermissionBanner_handleInput Sample.request_1 Y st
  /\ (ws (client st) = Some OPEN ->
      sent (client (dispatch Sample.runtime (Input A 10) st))
      = (sent (client st)
         ++ [c_permission_response (request_id Sample.request_1) allow
               (uuid (client st))])%list).
Proof.
  split; [split; reflexivity |].
  apply (always_allow_is_allow Sample.runtime 10 1 Sample.request_1);
    reflexivity.
Defined.

(** ** Permission prompts *)

Lemma responses_app (r : string) (l1 l2 : list ClientMessage) :
  responses r (l1 ++ l2) = responses r l1 + responses r l2.
Proof. unfold responses. rewrite List.filter_app, length_app. reflexivity. Qed.

Lemma responses_snoc (r : string) (l : list ClientMessage) (m : ClientMessage) :
  responses r (l ++ [m]) = responses r l + (if is_response r m then 1 else 0).
Proof.
  rewrite responses_app. unfold responses. cbn.
  destruct (is_response r m); reflexivity.
Qed.

(** ** What the helpers leave alone

    The helpers that work on the container do not touch the client, the
    status bar or the focus; the helpers of the client touch the client
    only, and the frames they send are no permission responses. *)

Lemma addChild_frame (c : Component) (st : State) :
  client (addChild c st) = client st
  /\ statusBar (addChild c st) = statusBar st
  /\ focus (tui (addChild c st)) = focus (tui st).
Proof. unfold_tui. break_match; repeat split. Qed.

Lemma removeChild_frame (c : Component) (st : State) :
  client (removeChild c st) = client st
  /\ statusBar (removeChild c st) = statusBar st
  /\ focus (tui (removeChild c st)) = focus (tui st).
Proof. unfold_tui. break_match; repeat split. Qed.

Lemma insertBeforeEditor_frame (c : Component) (st : State) :
  client (insertBeforeEditor c st) = client st
  /\ statusBar (insertBeforeEditor c st) = statusBar st
  /\ focus (tui (insertBeforeEditor c st)) = focus (tui st).
Proof. unfold_tui. break_match; repeat split. Qed.

Lemma setText_frame (id : nat) (text : string) (st : State) :
  client (setText id text st) = client st
  /\ statusBar (setText id text st) = statusBar st
  /\ focus (tui (setText id text st)) = focus (tui st).
Proof. unfold_tui. break_match; repeat split. Qed.

Lemma insertText_frame (text : string) (st : State) :
  client (insertText text st) = client st
  /\ statusBar (insertText text st) = statusBar st
  /\ focus (tui (insertText text st)) = focus (tui st).
Proof. unfold_tui. break_match; repeat split. Qed.

Lemma insertSpacer_frame (st : State) :
  client (insertSpacer st) = client st
  /\ statusBar (insertSpacer st) = statusBar st
  /\ focus (tui (insertSpacer st)) = focus (tui st).
Proof. unfold_tui. break_match; repeat split. Qed.

Lemma insertMarkdown_frame (text : string) (st : State) :
  client (insertMarkdown text st) = client st
  /\ statusBar (insertMarkdown text st) = statusBar st
  /\ focus (tui (insertMarkdown text st)) = focus (tui st).
Proof. unfold_tui. break_match; repeat split. Qed.

Lemma showLoader_frame (message : string) (st : State) :
  client (showLoader message st) = client st
  /\ statusBar (showLoader message st) = statusBar st
  /\ focus (tui (showLoader message st)) = focus (tui st).
Proof. unfold_tui. break_match; repeat split. Qed.

Lemma removeLoader_frame (st : State) :
  client (removeLoader st) = client st
  /\ statusBar (removeLoader st) = statusBar st
  /\ focus (tui (removeLoader st)) = focus (tui st).
Proof. unfold_tui. break_match; repeat split. Qed.

Lemma finalizeStream_frame (st : State) :
  client (finalizeStream st) = client st
  /\ statusBar (finalizeStream st) = statusBar st
  /\ focus (tui (finalizeStream st)) = focus (tui st).
Proof. unfold_tui. break_match; repeat split. Qed.

Lemma sendUserMessage_frame (r : string) (content : string) (st : State) :
  responses r (sent (client (sendUserMessage content st))) = responses r (sent (client st))
  /\ tui (sendUserMessage content st) = tui st
  /\ statusBar (sendUserMessage content st) = statusBar st
  /\ vars (sendUserMessage content st) = vars st.
Proof.
  unfold_tui. break_match; rewrite ?responses_snoc; cbn;
    rewrite ?Nat.add_0_r; repeat split.
Qed.

Lemma interrupt_frame (r : string) (st : State) :
  responses r (sent (client (interrupt st))) = responses r (sent (client st))
  /\ tui (interrupt st) = tui st
  /\ statusBar (interrupt st) = statusBar st
  /\ vars (interrupt st) = vars st.
Proof.
  unfold_tui. break_match; rewrite ?responses_snoc; cbn;
    rewrite ?Nat.add_0_r; repeat split.
Qed.

Lemma setModel_frame (r : string) (model : string) (st : State) :
  responses r (sent (client (setModel model st))) = responses r (sent (client st))
  /\ tui (setModel model st) = tui st
  /\ statusBar (setModel model st) = statusBar st
  /\ vars (setModel model st) = vars st.
Proof.
  unfold_tui. break_match; rewrite ?responses_snoc; cbn;
    rewrite ?Nat.add_0_r; repeat split.
Qed.

Lemma setPermissionMode_frame (r : string) (mode : string) (st : State) :
  responses r (sent (client (setPermissionMode mode st))) = responses r (sent (client st))
  /\ tui (setPermissionMode mode st) = tui st
  /\ statusBar (setPermissionMode mode st) = statusBar st
  /\ vars (setPermissionMode mode st) = vars st.
Proof.
  unfold_tui. break_match; rewrite ?responses_snoc; cbn;
    rewrite ?Nat.add_0_r; repeat split.
Qed.

Lemma mcpGetStatus_frame (r : string) (st : State) :
  responses r (sent (client (mcpGetStatus st))) = responses r (sent (client st))
  /\ tui (mcpGetStatus st) = tui st
  /\ statusBar (mcpGetStatus st) = statusBar st
  /\ vars (mcpGetStatus st) = vars st.
Proof.
  unfold_tui. break_match; rewrite ?responses_snoc; cbn;
    rewrite ?Nat.add_0_r; repeat split.
Qed.

Lemma mcpToggle_frame (r : string) (serverName : string) (enabled : bool) (st : State) :
  responses r (sent (client (mcpToggle serverName enabled st))) = responses r (sent (client st))
  /\ tui (mcpToggle serverName enabled st) = tui st
  /\ statusBar (mcpToggle serverName enabled st) = statusBar st
  /\ vars (mcpToggle serverName enabled st) = vars st.
Proof.
  unfold_tui. break_match; rewrite ?responses_snoc; cbn;
    rewrite ?Nat.add_0_r; repeat split.
Qed.

Lemma mcpReconnect_frame (r : string) (serverName : string) (st : State) :
  responses r (sent (client (mcpReconnect serverName st))) = responses r (sent (client st))
  /\ tui (mcpReconnect serverName st) = tui st
  /\ statusBar (mcpReconnect serverName st) = statusBar st
  /\ vars (mcpReconnect serverName st) = vars st.
Proof.
  unfold_tui. break_match; rewrite ?responses_snoc; cbn;
    rewrite ?Nat.add_0_r; repeat split.
Qed.

Section Prompts.

Context (rt : Runtime).

Lemma calm_refl (r : string) (st : State) : calm r st st.
Proof. split; [reflexivity | apply le_n]. Qed.

Lemma calm_trans (r : string) (st1 st2 st3 : State) :
  calm r st1 st2 -> calm r st2 st3 -> calm r st1 st3.
Proof. intros [Ha Hb] [Hc Hd]. split; [congruence | lia]. Qed.

(** A helper that leaves the frames sent and the focus is calm. *)
Lemma calm_of_frame (r : string) (st st' : State) :
  client st' = client st -> focus (tui st') = focus (tui st) -> calm r st st'.
Proof.
  intros Hc Hf. unfold calm, prompting. rewrite Hc, Hf.
  split; [reflexivity | apply le_n].
Qed.

(** So is one that sends no response and leaves the container. *)
Lemma calm_of_send (r : string) (st st' : State) :
  responses r (sent (client st')) = responses r (sent (client st)) ->
  tui st' = tui st -> calm r st st'.
Proof.
  intros Hc Hf. unfold calm, prompting. rewrite Hc, Hf.
  split; [reflexivity | apply le_n].
Qed.

Create HintDb calm.

Ltac by_frame lemma :=
  intros; apply calm_of_frame; apply lemma.

Ltac by_send lemma :=
  intros; apply calm_of_send; apply lemma.

Lemma addChild_calm r c st : calm r st (addChild c st).
Proof. by_frame addChild_frame. Qed.
Lemma removeChild_calm r c st : calm r st (removeChild c st).
Proof. by_frame removeChild_frame. Qed.
Lemma insertBeforeEditor_calm r c st : calm r st (insertBeforeEditor c st).
Proof. by_frame insertBeforeEditor_frame. Qed.
Lemma setText_calm r id text st : calm r st (setText id text st).
Proof. by_frame setText_frame. Qed.
Lemma insertText_calm r text st : calm r st (insertText text st).
Proof. by_frame insertText_frame. Qed.
Lemma insertSpacer_calm r st : calm r st (insertSpacer st).
Proof. by_frame insertSpacer_frame. Qed.
Lemma insertMarkdown_calm r text st : calm r st (insertMarkdown text st).
Proof. by_frame insertMarkdown_frame. Qed.
Lemma showLoader_calm r message st : calm r st (showLoader message st).
Proof. by_frame showLoader_frame. Qed.
Lemma removeLoader_calm r st : calm r st (removeLoader st).
Proof. by_frame removeLoader_frame. Qed.
Lemma finalizeStream_calm r st : calm r st (finalizeStream st).
Proof. by_frame finalizeStream_frame. Qed.

Lemma sendUserMessage_calm r content st : calm r st (sendUserMessage content st).
Proof. by_send (sendUserMessage_frame r). Qed.
Lemma interrupt_calm r st : calm r st (interrupt st).
Proof. by_send (interrupt_frame r). Qed.
Lemma setModel_calm r model st : calm r st (setModel model st).
Proof. by_send (setModel_frame r). Qed.
Lemma setPermissionMode_calm r mode st : calm r st (setPermissionMode mode st).
Proof. by_send (setPermissionMode_frame r). Qed.
Lemma mcpGetStatus_calm r st : calm r st (mcpGetStatus st).
Proof. by_send (mcpGetStatus_frame r). Qed.
Lemma mcpToggle_calm r name enabled st : calm r st (mcpToggle name enabled st).
Proof. by_send (mcpToggle_frame r). Qed.
Lemma mcpReconnect_calm r name st : calm r st (mcpReconnect name st).
Proof. by_send (mcpReconnect_frame r). Qed.

Lemma setFocus_editor_calm r st : calm r st (setFocus EditorC st).
Proof. split; [reflexivity | apply Nat.le_0_l]. Qed.

Lemma setFocus_list_calm r id picker st :
  calm r st (setFocus (SelectList id picker) st).
Proof. split; [reflexivity | apply Nat.le_0_l]. Qed.

#[local] Hint Resolve addChild_calm removeChild_calm insertBeforeEditor_calm
  setText_calm insertText_calm insertSpacer_calm insertMarkdown_calm
  showLoader_calm removeLoader_calm finalizeStream_calm sendUserMessage_calm
  interrupt_calm setModel_calm setPermissionMode_calm mcpGetStatus_calm
  mcpToggle_calm mcpReconnect_calm setFocus_editor_calm setFocus_list_calm
  : calm.

(** A change of a field that is neither the frames sent nor the focus. *)
Ltac calm_setter :=
  match goal with
  | |- calm _ ?x _ =>
      generalize x; intro;
      split; [reflexivity | apply le_n]
  end.

(** A composition of calm steps, from the outside in. *)
Ltac calm :=
  cbv beta iota zeta;
  lazymatch goal with
  | |- calm _ ?st ?st => apply calm_refl
  | |- calm _ _ (match ?x with _ => _ end) => destruct x eqn:?; calm
  | |- calm _ _ (?f ?x) =>
      apply (calm_trans _ _ x);
      [ calm | first [ solve [auto with calm] | calm_setter ] ]
  | |- calm _ _ _ => assumption
  end.

Lemma dismissBanner_calm r st : calm r st (dismissBanner st).
Proof. unfold dismissBanner. calm. Qed.

Lemma cleanup_calm r st : calm r st (cleanup st).
Proof. unfold cleanup, dispose. calm. Qed.

Lemma renderMcpStatus_calm r servers st : calm r st (renderMcpStatus servers st).
Proof. unfold renderMcpStatus. calm. Qed.

Lemma clearConversation_calm r st : calm r st (clearConversation st).
Proof.
  unfold clearConversation.
  set (toRemove := List.filter _ _). clearbody toRemove.
  eapply calm_trans; [| apply insertSpacer_calm].
  revert st. induction toRemove as [| c l IH]; intros st; [apply calm_refl |].
  cbn [fold_left]. eapply calm_trans; [apply removeChild_calm | apply IH].
Qed.

#[local] Hint Resolve dismissBanner_calm cleanup_calm renderMcpStatus_calm
  clearConversation_calm : calm.

Lemma showStatus_calm r st : calm r st (showStatus rt st).
Proof. unfold showStatus. calm. Qed.

Lemma showHelp_calm r st : calm r st (showHelp st).
Proof. unfold showHelp. calm. Qed.

Lemma showMcp_calm r st : calm r st (showMcp st).
Proof. unfold showMcp. calm. Qed.

Lemma showModelPicker_calm r arg st : calm r st (showModelPicker arg st).
Proof.
  unfold showModelPicker, new_SelectList, alloc.
  destruct arg; calm.
Qed.

Lemma showModePicker_calm r arg st : calm r st (showModePicker arg st).
Proof.
  unfold showModePicker, new_SelectList, alloc.
  destruct arg; calm.
Qed.

#[local] Hint Resolve showStatus_calm showHelp_calm showMcp_calm
  showModelPicker_calm showModePicker_calm : calm.

Lemma handleSlashCommand_calm r cmd st :
  calm r st (snd (handleSlashCommand rt cmd st)).
Proof.
  unfold handleSlashCommand. cbv zeta.
  repeat match goal with
         | |- context [if ?b then _ else _] => destruct b
         end; cbn [snd]; first [apply calm_refl | solve [auto with calm]].
Qed.

Lemma mcpAction_calm r trimmed st st' :
  mcpAction rt trimmed st = Some st' -> calm r st st'.
Proof.
  unfold mcpAction. cbv zeta. intros H.
  repeat match type of H with
         | context [match ?x with _ => _ end] => destruct x eqn:?
         end; try discriminate H;
    injection H as <-; calm.
Qed.

Lemma onSubmit_calm r text st : calm r st (onSubmit rt text st).
Proof.
  unfold onSubmit. cbv zeta.
  destruct (negb (truthy (trim rt text))); [apply calm_refl |].
  assert (H : calm r st
                (snd (if String.prefix "/" (trim rt text)
                      then handleSlashCommand rt (trim rt text) st
                      else (false, st)))).
  { destruct (String.prefix "/" (trim rt text));
      [apply handleSlashCommand_calm | apply calm_refl]. }
  destruct (if String.prefix "/" (trim rt text)
            then handleSlashCommand rt (trim rt text) st
            else (false, st)) as [handled st1].
  cbn [snd] in H. destruct handled; [exact H |].
  eapply calm_trans; [exact H |].
  destruct (mcpAction rt (trim rt text) st1) as [st2 |] eqn:E.
  - apply (mcpAction_calm r _ _ _ E).
  - calm.
Qed.

Lemma onSelect_calm r list picker value st :
  calm r st (onSelect list picker value st).
Proof. unfold onSelect. calm. Qed.

Lemma onCancel_calm r list st : calm r st (onCancel list st).
Proof. unfold onCancel. calm. Qed.

Lemma send_calm r msg st : is_response r msg = false -> calm r st (send msg st).
Proof.
  intros H. apply calm_of_send; unfold send.
  - destruct (ws (client st)) as [[] |]; cbn; rewrite ?responses_snoc, ?H; lia.
  - destruct (ws (client st)) as [[] |]; reflexivity.
Qed.

Lemma ensureStreamingMd_calm r st : calm r st (snd (ensureStreamingMd st)).
Proof.
  unfold ensureStreamingMd, new_Markdown, alloc.
  destruct (streamingMd (vars st)); cbn [snd]; calm.
Qed.

(** Handling a message that holds no other message sends nothing, and puts
    a prompt for [r] on the screen only if it is a request for [r]. *)
Lemma handleMessage_flat_prompting (r : string) (msg : ServerMessage)
    (st : State) :
  nested msg = false ->
  prompting r (handleMessage rt msg st) <= prompting r st + shown_in r msg.
Proof.
  intros Hn.
  assert (Hcalm : forall st', calm r st st' ->
            prompting r st' <= prompting r st + shown_in r msg)
    by (intros st' [_ H]; lia).
  destruct msg; try discriminate Hn; cbn [handleMessage shown_in];
    try (apply Hcalm; calm).
  - (* stream_event *)
    apply Hcalm. destruct event as [| index [text | |] | | | |]; try calm.
    pose proof (ensureStreamingMd_calm r st) as H.
    destruct (ensureStreamingMd st) as [md st1]. cbn [snd] in H. calm.
  - (* permission_request *)
    unfold new_PermissionBanner, alloc, prompting. cbn.
    destruct (String.eqb (request_id request) r); lia.
Qed.

Lemma shown_in_history (r : string) (messages : list ServerMessage)
    (s : option Z) :
  shown_in r (message_history messages s)
  = list_sum (map (shown_in r) messages).
Proof.
  cbn [shown_in]. induction messages as [| m l IH]; [reflexivity |].
  cbn [map list_sum foldr]. rewrite IH. reflexivity.
Qed.

Lemma shown_in_replay (r : string) (events : list (ServerMessage * Z))
    (s : option Z) :
  shown_in r (event_replay events s)
  = list_sum (map (shown_in r) (map fst events)).
Proof.
  cbn [shown_in]. induction events as [| [m n] l IH]; [reflexivity |].
  cbn [map list_sum foldr fst]. rewrite IH. reflexivity.
Qed.

Lemma handleMessages_prompting (r : string) (messages : list ServerMessage) :
  Forall (fun msg => forall st,
            prompting r (handleMessage rt msg st)
            <= prompting r st + shown_in r msg) messages ->
  forall st,
    prompting r (handleMessages rt messages st)
    <= prompting r st + list_sum (map (shown_in r) messages).
Proof.
  induction 1 as [| m l Hm _ IH]; intros st; [cbn; lia |].
  rewrite handleMessages_cons.
  specialize (IH (handleMessage rt m st)). specialize (Hm st).
  unfold list_sum in *. cbn [map foldr]. lia.
Qed.

(** Handling a message puts at most as many prompts for [r] on the screen
    as the message holds requests for [r]. *)
Lemma handleMessage_prompting (r : string) (msg : ServerMessage) :
  forall st,
    prompting r (handleMessage rt msg st) <= prompting r st + shown_in r msg.
Proof.
  induction msg as [msg Hn | messages s IH | events s IH]
    using ServerMessage_nested_ind; intros st.
  - apply handleMessage_flat_prompting, Hn.
  - rewrite handleMessage_history, shown_in_history.
    apply handleMessages_prompting, IH.
  - rewrite handleMessage_replay, shown_in_replay.
    apply handleMessages_prompting.
    apply Forall_map. exact IH.
Qed.

Lemma calm_bound (r : string) (st st' : State) :
  calm r st st' -> answered_or_prompting r st' <= answered_or_prompting r st.
Proof. intros [Ha Hb]. unfold answered_or_prompting. lia. Qed.

(** The listener of the keyboard sends no response and leaves the focus;
    when it does not consume the key it leaves the state. *)
Lemma inputListener_calm r data now st :
  calm r st (snd (inputListener data now st))
  /\ (fst (inputListener data now st) = false ->
      snd (inputListener data now st) = st).
Proof.
  unfold inputListener.
  repeat match goal with
         | |- context [if ?b then _ else _] => destruct b
         end; cbn [fst snd];
    (split; [first [apply calm_refl | calm] | first [reflexivity | discriminate]]).
Qed.

(** The callback of a banner sends at most one response, to the request of
    the banner, and gives the focus to the editor. *)
Lemma onRespond_bound r request behavior st :
  answered_or_prompting r (onRespond request behavior st)
  <= responses r (sent (client st))
     + (if String.eqb (request_id request) r then 1 else 0).
Proof.
  unfold onRespond. cbv zeta.
  set (st1 := sendPermissionResponse (request_id request) behavior st).
  assert (H1 : responses r (sent (client st1))
               <= responses r (sent (client st))
                  + (if String.eqb (request_id request) r then 1 else 0)).
  { subst st1. unfold sendPermissionResponse, randomUUID, send. cbn.
    destruct (ws (client st)) as [[] |]; cbn;
      rewrite ?responses_snoc; cbn; lia. }
  clearbody st1.
  match goal with
  | |- answered_or_prompting r (setFocus EditorC ?x) <= _ =>
      assert (H2 : calm r st1 x) by calm;
      destruct H2 as [H2 _];
      change (answered_or_prompting r (setFocus EditorC x))
        with (responses r (sent (client x)) + 0);
      rewrite H2
  end.
  lia.
Qed.

Lemma dispatch_answered_or_prompting (r : string) (ev : Event) (st : State) :
  answered_or_prompting r (dispatch rt ev st)
  <= answered_or_prompting r st + shown_by rt r ev.
Proof.
  assert (Hcalm : forall st', calm r st st' ->
            answered_or_prompting r st'
            <= answered_or_prompting r st + shown_by rt r ev)
    by (intros st' H; apply calm_bound in H; lia).
  unfold dispatch. destruct (exited (vars st)) eqn:Hexit; [lia |].
  destruct ev as [| data | | | | data now | text | value |].
  - (* WsOpen *)
    apply Hcalm. unfold ws_on_open, onStatusChange.
    destruct (ws (client st)) as [[] |]; try apply calm_refl.
    eapply calm_trans; [| apply send_calm; reflexivity]. calm.
  - (* WsMessage *)
    destruct (ws (client st)) as [[] |] eqn:Hws; try lia.
    unfold ws_on_message, shown_by.
    destruct (JSON_parse rt data) as [msg |]; [| lia].
    unfold answered_or_prompting. rewrite handleMessage_client.
    match goal with
    | |- context [handleMessage rt msg ?st1] =>
        pose proof (handleMessage_prompting r msg st1) as H;
        assert (Hp : prompting r st1 = prompting r st)
          by (destruct (seq_of msg); reflexivity);
        assert (Hc : sent (client st1) = sent (client st))
          by (destruct (seq_of msg); reflexivity)
    end.
    rewrite Hc. lia.
  - (* WsClose *)
    apply Hcalm. unfold ws_on_close, onStatusChange, scheduleReconnect.
    destruct (ws (client st)); calm.
  - (* ReconnectTimer *)
    apply Hcalm. unfold connect, onStatusChange.
    destruct (reconnectTimer (client st)); calm.
  - (* McpTimer *)
    apply Hcalm. destruct (mcpTimers (vars st)); calm.
  - (* Input *)
    unfold handleInput.
    destruct (inputListener_calm r data now st) as [Hl Hs].
    destruct (inputListener data now st) as [consume st1].
    cbn [fst snd] in Hl, Hs. destruct consume; [apply Hcalm, Hl |].
    rewrite (Hs eq_refl).
    destruct (focus (tui st)) as [[| | | | | | | id request |] |] eqn:Hf;
      try lia.
    unfold PermissionBanner_handleInput.
    assert (Hp : prompting r st
                 = if String.eqb (request_id request) r then 1 else 0)
      by (unfold prompting; now rewrite Hf).
    repeat match goal with
           | |- context [if ?b then _ else _] => destruct b
           end;
      try (pose proof (onRespond_bound r request allow st));
      try (pose proof (onRespond_bound r request deny st));
      unfold answered_or_prompting in *; lia.
  - (* EditorSubmit *)
    destruct (focus (tui st)) as [[] |]; try lia.
    apply Hcalm, onSubmit_calm.
  - (* ListSelect *)
    destruct (focus (tui st)) as [[] |]; try lia.
    apply Hcalm, onSelect_calm.
  - (* ListCancel *)
    destruct (focus (tui st)) as [[] |]; try lia.
    apply Hcalm, onCancel_calm.
Qed.

Lemma run_answered_or_prompting (r : string) (evs : list Event) :
  forall st,
    answered_or_prompting r (run rt evs st)
    <= answered_or_prompting r st + shown rt r evs.
Proof.
  induction evs as [| ev evs IH]; intros st.
  - unfold shown. cbn. lia.
  - rewrite run_cons. specialize (IH (dispatch rt ev st)).
    pose proof (dispatch_answered_or_prompting r ev st) as H.
    unfold shown, list_sum in *. cbn [map foldr]. lia.
Qed.

(** An answer takes the prompt away: the banner that [permissionBanner]
    holds leaves the container, [permissionBanner] is empty, and the editor
    has the focus. *)
Lemma answer_removes_prompt (now : Z) (id : nat) (request : PermissionRequest)
    (data : Key) (banner : Component) (st : State) :
  exited (vars st) = false ->
  focus (tui st) = Some (PermissionBanner id request) ->
  permissionBanner (vars st) = Some banner ->
  data = Y \/ data = Enter \/ data = N \/ data = A ->
  let st' := dispatch rt (Input data now) st in
  focus (tui st') = Some EditorC
  /\ permissionBanner (vars st') = None
  /\ children (tui st')
     = children
         (tui (insertBeforeEditor (Loader (nextId (tui st)))
                 (removeChild banner st))).
Proof.
  intros He Hf Hb Hk. cbn zeta. unfold dispatch. rewrite He.
  unfold handleInput, inputListener.
  destruct Hk as [-> | [-> | [-> | ->]]];
    cbn [matchesKey String.eqb Ascii.eqb Bool.eqb orb]; rewrite Hf;
    unfold PermissionBanner_handleInput;
    cbn [matchesKey String.eqb Ascii.eqb Bool.eqb orb];
    unfold_tui; cbn; destruct (ws (client st)) as [[] |]; cbn;
    rewrite ?Hb; cbn; break_match; repeat split.
Qed.

(** C4, amended.  The client never sends more responses to a request than
    it has shown prompts for it: in every run from the start, the responses
    to [r] among the frames sent are at most the permission requests for [r]
    among the frames handled; a request that is shown once is answered at
    most once.  And from a state in which the prompt for a request has the
    focus, whatever key is pressed and whatever happens afterwards, at most
    one response to the request is sent for as long as no frame shows the
    request again. *)
Theorem at_most_one_response_per_prompt :
  (forall (clientId sessionId8 : string) (gitBranch : option string)
          (evs : list Event) (r : string),
      responses r
        (sent (client (run rt evs (start clientId sessionId8 gitBranch))))
      <= shown rt r evs)
  /\ (forall (clientId sessionId8 : string) (gitBranch : option string)
             (evs : list Event) (r : string),
        shown rt r evs <= 1 ->
        responses r
          (sent (client (run rt evs (start clientId sessionId8 gitBranch))))
        <= 1)
  /\ (forall (st : State) (id : nat) (request : PermissionRequest)
             (data : Key) (now : Z) (later : list Event),
        focus (tui st) = Some (PermissionBanner id request) ->
        shown rt (request_id request) later = 0 ->
        responses (request_id request)
          (sent (client (run rt (Input data now :: later) st)))
        <= responses (request_id request) (sent (client st)) + 1).
Proof.
  assert (Hrun : forall cid sid gb evs r,
             responses r (sent (client (run rt evs (start cid sid gb))))
             <= shown rt r evs).
  { intros cid sid gb evs r.
    pose proof (run_answered_or_prompting r evs (start cid sid gb)) as H.
    unfold answered_or_prompting in H.
    change (responses r (sent (client (start cid sid gb)))) with 0 in H.
    change (prompting r (start cid sid gb)) with 0 in H. lia. }
  split; [exact Hrun |].
  split.
  - intros cid sid gb evs r Hone.
    pose proof (Hrun cid sid gb evs r). lia.
  - intros st id request data now later Hf Hs.
    pose proof (run_answered_or_prompting (request_id request)
                  (Input data now :: later) st) as H.
    unfold answered_or_prompting in H.
    assert (Hp : prompting (request_id request) st = 1).
    { unfold prompting. rewrite Hf. now rewrite String.eqb_refl. }
    assert (Hz : shown rt (request_id request) (Input data now :: later) = 0).
    { unfold shown, list_sum in *. cbn [map foldr shown_by]. exact Hs. }
    lia.
Qed.

End Prompts.

(** Four answers to one prompt: one response is sent. *)
Lemma one_prompt_one_response :
  let evs :=
    [ WsOpen; WsMessage Sample.frame_permission;
      Input Y 10; Input A 20; Input Enter 30; Input N 40 ] in
  let st := run Sample.runtime evs (start "tui-1" "0a1b2c3d" None) in
  shown Sample.runtime "req-1" evs = 1
  /\ sent (client st)
     = [c_session_subscribe 0 "tui-1"; c_permission_response "req-1" allow 0]
  /\ focus (tui st) = Some EditorC
  /\ permissionBanner (vars st) = None.
Proof. repeat split. Qed.

(** C4 as stated fails when the server delivers a request a second time
    after it was answered: the client keeps no record of the identifiers it
    has answered, the second frame puts up a second prompt, and its answer is
    a second response with the same request identifier. *)
Lemma repeated_request_is_answered_twice :
  let evs :=
    [ WsOpen; WsMessage Sample.frame_permission; Input Y 10;
      WsMessage Sample.frame_permission; Input Y 20 ] in
  let st := run Sample.runtime evs (start "tui-1" "0a1b2c3d" None) in
  shown Sample.runtime "req-1" evs = 2
  /\ sent (client st)
     = [ c_session_subscribe 0 "tui-1";
         c_permission_response "req-1" allow 0;
         c_permission_response "req-1" allow 1 ]
  /\ responses "req-1" (sent (client st)) = 2.
Proof. vm_compute. repeat split. Qed.

(** ** The event bus *)

Section EventBus.

Import SdkBridge.

Context {World : Type}.

Lemma guarded_call (h : nat * EventHandler) (event : SDKMessage)
    (r : Run World) :
  try_catch (call h event) (fun _ => ret tt) r
  = ({| world := fst (snd h event (world r)); called := called r ++ [fst h] |},
     Normal tt).
Proof.
  unfold try_catch, call. destruct h as [id handler]. cbn.
  destruct (handler event (world r)) as [w [[] | exn]]; reflexivity.
Qed.

Lemma emit_loop (hs : list (nat * EventHandler)) (event : SDKMessage) :
  forall r : Run World,
    for_of hs (fun handler => try_catch (call handler event) (fun _ => ret tt)) r
    = ({| world := after_handlers hs event (world r);
          called := called r ++ hs.*1 |}, Normal tt).
Proof.
  induction hs as [| h hs IH]; intros r.
  - cbn. rewrite app_nil_r. destruct r; reflexivity.
  - cbn [for_of]. unfold bind. rewrite guarded_call, IH. cbn.
    rewrite <- app_assoc. reflexivity.
Qed.

(** C8.  [emit] calls every handler of the bus, once and in the order of
    subscription, also the handlers behind one that throws: each handler runs
    on the world that the handlers before it left.  [emit] itself returns
    normally, so that no error of a handler reaches the loop that reads the
    upstream connection. *)
Theorem emit_calls_every_handler
    (bus : EventBus World) (event : SDKMessage) (r : Run World) :
  emit bus event r
  = ({| world := after_handlers (handlers bus) event (world r);
        called := called r ++ (handlers bus).*1 |}, Normal tt).
Proof. unfold emit. apply emit_loop. Qed.

End EventBus.

(** A handler that throws, subscribed before a handler that records the
    type of the event: both are called, and the event is recorded. *)
Lemma emit_example :
  let thrower : SdkBridge.EventHandler :=
    fun _ (w : list string) => (w, Throw (JsStr "TypeError")) in
  let recorder : SdkBridge.EventHandler :=
    fun event (w : list string) =>
      ((w ++ [SdkBridge.type event])%list, Normal tt) in
  let bus :=
    SdkBridge.subscribe 1 recorder
      (SdkBridge.subscribe 0 thrower {| SdkBridge.handlers := [] |}) in
  let event := {| SdkBridge.type := "assistant"; SdkBridge.properties := ∅ |} in
  SdkBridge.emit bus event {| SdkBridge.world := []; SdkBridge.called := [] |}
  = ({| SdkBridge.world := ["assistant"]; SdkBridge.called := [0; 1] |},
     Normal tt).
Proof. reflexivity. Qed.

(** ** The queue of user messages *)

Section Queue.

Import SdkBridge.

Lemma act_consistent (a : Action) (b : Bridge) :
  consistent b -> consistent (act a b).
Proof.
  unfold consistent. destruct b as [q ps l np cs].
  destruct a as [content |]; cbn; unfold sendToSdk, sdkLoop_step, resolve; cbn.
  - destruct l as [| p | c]; cbn.
    + intros ->. reflexivity.
    + intros [-> ->]. cbn. rewrite Nat.eqb_refl. reflexivity.
    + intros ->. reflexivity.
  - destruct l as [| p | c]; cbn.
    + intros ->. destruct q; cbn; [split |]; reflexivity.
    + intros H. exact H.
    + intros ->. reflexivity.
Qed.

Lemma act_consumed (a : Action) (b : Bridge) :
  consistent b ->
  (consumed (act a b) ++ messageQueue (act a b)
   = (consumed b ++ messageQueue b) ++ submitted [a])%list.
Proof.
  unfold consistent. destruct b as [q ps l np cs].
  destruct a as [content |]; cbn; unfold sendToSdk, sdkLoop_step, resolve; cbn.
  - destruct l as [| p | c]; cbn.
    + intros ->. cbn. now rewrite app_assoc.
    + intros [-> ->]. cbn. rewrite Nat.eqb_refl. cbn.
      now rewrite !app_nil_r.
    + intros ->. cbn. now rewrite app_assoc.
  - rewrite app_nil_r. destruct l as [| p | c]; cbn; intros H.
    + destruct q; cbn; [reflexivity | now rewrite <- app_assoc].
    + reflexivity.
    + reflexivity.
Qed.

Lemma run_bridge_app (acts1 acts2 : list Action) (b : Bridge) :
  SdkBridge.run (acts1 ++ acts2) b
  = SdkBridge.run acts2 (SdkBridge.run acts1 b).
Proof. apply fold_left_app. Qed.

Lemma run_consistent (acts : list Action) :
  forall b,
    consistent b ->
    consistent (SdkBridge.run acts b)
    /\ (consumed (SdkBridge.run acts b) ++ messageQueue (SdkBridge.run acts b)
        = (consumed b ++ messageQueue b) ++ submitted acts)%list.
Proof.
  induction acts as [| a acts IH]; intros b Hb.
  - cbn. rewrite app_nil_r. split; [exact Hb | reflexivity].
  - change (SdkBridge.run (a :: acts) b) with (SdkBridge.run acts (act a b)).
    destruct (IH (act a b) (act_consistent a b Hb)) as [Hc He].
    split; [exact Hc |].
    pose proof (act_consumed a b Hb) as Ha.
    unfold submitted in *. cbn [flat_map] in *. rewrite app_nil_r in Ha.
    rewrite He, Ha. now rewrite <- app_assoc.
Qed.

Lemma two_steps_take_one (c : string) (q : list string) (b : Bridge) :
  loop b = AtTop -> messageQueue b = c :: q ->
  sdkLoop_step (sdkLoop_step b)
  = {| messageQueue := q; pendingSend := pendingSend b; loop := AtTop;
       nextPromise := S (nextPromise b); consumed := consumed b ++ [c] |}.
Proof.
  destruct b as [mq ps l np cs]. cbn. intros -> ->. reflexivity.
Qed.

(** A loop at the top takes the queued messages from the front, one for
    every two steps. *)
Lemma loop_drains_queue (q : list string) :
  forall b,
    loop b = AtTop -> messageQueue b = q ->
    let b' := SdkBridge.run (repeat Step (2 * length q)) b in
    loop b' = AtTop /\ messageQueue b' = []
    /\ consumed b' = (consumed b ++ q)%list.
Proof.
  induction q as [| c q IH]; intros b Hl Hq.
  - cbn. rewrite app_nil_r. repeat split; assumption.
  - cbn zeta.
    replace (2 * length (c :: q)) with (S (S (2 * length q))) by (cbn; lia).
    change (SdkBridge.run (repeat Step (S (S (2 * length q)))) b)
      with (SdkBridge.run (repeat Step (2 * length q))
              (sdkLoop_step (sdkLoop_step b))).
    rewrite (two_steps_take_one c q b Hl Hq).
    match goal with
    | |- context [SdkBridge.run _ ?b1] =>
        destruct (IH b1 eq_refl eq_refl) as (Ha & Hb & Hc)
    end.
    cbn zeta in *. rewrite Ha, Hb, Hc. cbn.
    rewrite <- app_assoc. repeat split.
Qed.

(** C10.  After any sequence of calls of [sendToSdk] and steps of the loop,
    the contents that the loop got, followed by the contents still in the
    queue, are the contents that were passed to [sendToSdk], in the order of
    the calls: none is lost, none is there twice, none overtakes another.  A
    call of [sendToSdk] hands the content to the loop when the loop awaits
    one, and appends it to the queue otherwise.  And the loop consumes what
    is queued: after finitely many further steps of the loop the queue is
    empty and the loop got every content. *)
Theorem messages_are_consumed_once_in_order (acts : list Action) :
  let b := SdkBridge.run acts SdkBridge.initial in
  (consumed b ++ messageQueue b = submitted acts)%list
  /\ (forall content,
        match loop b with
        | Awaiting _ =>
            consumed (sendToSdk content b) = (consumed b ++ [content])%list
            /\ messageQueue (sendToSdk content b) = []
            /\ loop (sendToSdk content b) = Sending content
        | _ =>
            consumed (sendToSdk content b) = consumed b
            /\ messageQueue (sendToSdk content b)
               = (messageQueue b ++ [content])%list
        end)
  /\ (exists n,
        let b' := SdkBridge.run (acts ++ repeat Step n) SdkBridge.initial in
        consumed b' = submitted acts /\ messageQueue b' = []).
Proof.
  cbn zeta.
  assert (H0 : consistent SdkBridge.initial) by reflexivity.
  destruct (run_consistent acts SdkBridge.initial H0) as [Hc He].
  cbn [SdkBridge.initial consumed messageQueue app] in He.
  remember (SdkBridge.run acts SdkBridge.initial) as b eqn:Eb.
  split; [exact He |].
  split.
  - intros content. unfold consistent in Hc.
    destruct b as [q ps l np cs]. cbn in *.
    destruct l as [| p | c]; unfold sendToSdk, resolve; cbn.
    + rewrite Hc. cbn. split; reflexivity.
    + destruct Hc as [-> ->]. cbn. rewrite Nat.eqb_refl. cbn.
      repeat split.
    + rewrite Hc. cbn. split; reflexivity.
  - assert (Hd : exists n,
              consumed (SdkBridge.run (repeat Step n) b)
              = (consumed b ++ messageQueue b)%list
              /\ messageQueue (SdkBridge.run (repeat Step n) b) = []).
    { unfold consistent in Hc. destruct (loop b) as [| p | c] eqn:El.
      - exists (2 * length (messageQueue b)).
        destruct (loop_drains_queue (messageQueue b) b El eq_refl)
          as (_ & Hq & Hk).
        split; assumption.
      - exists 0. destruct Hc as [_ Hq]. cbn. rewrite Hq, app_nil_r.
        split; reflexivity.
      - exists (S (2 * length (messageQueue b))).
        cbn [repeat]. unfold SdkBridge.run. cbn [fold_left act].
        fold (SdkBridge.run (repeat Step (2 * length (messageQueue b)))
                (sdkLoop_step b)).
        assert (E1 : loop (sdkLoop_step b) = AtTop)
          by (unfold sdkLoop_step; rewrite El; reflexivity).
        assert (E2 : messageQueue (sdkLoop_step b) = messageQueue b)
          by (unfold sdkLoop_step; rewrite El; reflexivity).
        assert (E3 : consumed (sdkLoop_step b) = consumed b)
          by (unfold sdkLoop_step; rewrite El; reflexivity).
        destruct (loop_drains_queue (messageQueue b) (sdkLoop_step b) E1 E2)
          as (_ & Hq & Hk).
        cbn zeta in *. rewrite Hk, E3. split; [reflexivity | exact Hq]. }
    destruct Hd as (n & Hn1 & Hn2). exists n.
    rewrite run_bridge_app, <- Eb. rewrite Hn1, He. split; [reflexivity | exact Hn2].
Qed.

End Queue.

(** Two messages while the loop is busy with a first one. *)
Lemma queue_example :
  let acts :=
    [ SdkBridge.Step; SdkBridge.Send "one"; SdkBridge.Send "two";
      SdkBridge.Send "three"; SdkBridge.Step; SdkBridge.Step;
      SdkBridge.Step; SdkBridge.Step ] in
  let b := SdkBridge.run acts SdkBridge.initial in
  SdkBridge.consumed b = ["one"; "two"; "three"]
  /\ SdkBridge.messageQueue b = []
  /\ SdkBridge.loop b = SdkBridge.Sending "three".
Proof. repeat split. Qed.

(** * Start-up of the terminal client *)

Section CommandLine.

Import Startup.

(** What the loop of [parseCliArgs] can change, from any argument on. *)
Lemma parseCliArgs_loop_fields (n : nat) :
  forall (argv : list string) (args0 args : CliArgs) (out : list Effect),
    length argv <= n ->
    parseCliArgs_loop argv args0 = (out, Returned args) ->
    out = []
    /\ (help args = true ->
        help args0 = true \/ In "-h" argv \/ In "--help" argv)
    /\ (continue args = true ->
        continue args0 = true \/ In "-c" argv \/ In "--continue" argv)
    /\ (resume args = true ->
        resume args0 = true \/ In "-r" argv \/ In "--resume" argv)
    /\ (resumeId args = resumeId args0
        \/ exists id pre post flag,
             resumeId args = Some id
             /\ resume args = true
             /\ id <> ""
             /\ String.prefix "-" id = false
             /\ (flag = "-r" \/ flag = "--resume")
             /\ argv = (pre ++ flag :: id :: post)%list)
    /\ (host args = host args0
        \/ exists pre post,
             host args <> ""
             /\ argv = (pre ++ "--host" :: host args :: post)%list)
    /\ (resume args0 = true -> resume args = true).
Proof.
  induction n as [| n IH]; intros argv args0 args out Hn H.
  - destruct argv; [| cbn in Hn; lia].
    cbn in H. injection H as <- <-. repeat split; auto.
  - destruct argv as [| arg rest].
    { cbn in H. injection H as <- <-. repeat split; auto. }
    cbn [length] in Hn. cbn [parseCliArgs_loop] in H.
    destruct (String.eqb arg "-h" || String.eqb arg "--help") eqn:Eh.
    { apply IH in H; [| lia]. cbn in H.
      destruct H as (Ho & Hh & Hc & Hr & Hid & Hhost & Hmono).
      split; [exact Ho |].
      split.
      { intros _. right.
        apply orb_true_iff in Eh as [E | E]; apply String.eqb_eq in E;
          subst arg; [left | right]; now left. }
      split; [intros Hx; destruct (Hc Hx) as [? | [? | ?]]; auto;
              right; [left | right]; now right |].
      split; [intros Hx; destruct (Hr Hx) as [? | [? | ?]]; auto;
              right; [left | right]; now right |].
      split.
      { destruct Hid as [? | (id & pre & post & flag & ? & ? & ? & ? & ? & ->)];
          [now left | right].
        exists id, (arg :: pre), post, flag. repeat split; auto. }
      split; [| exact Hmono].
      destruct Hhost as [? | (pre & post & ? & ->)]; [now left | right].
      exists (arg :: pre), post. split; auto. }
    destruct (String.eqb arg "-c" || String.eqb arg "--continue") eqn:Ec.
    { apply IH in H; [| lia]. cbn in H.
      destruct H as (Ho & Hh & Hc & Hr & Hid & Hhost & Hmono).
      split; [exact Ho |].
      split; [intros Hx; destruct (Hh Hx) as [? | [? | ?]]; auto;
              right; [left | right]; now right |].
      split.
      { intros _. right.
        apply orb_true_iff in Ec as [E | E]; apply String.eqb_eq in E;
          subst arg; [left | right]; now left. }
      split; [intros Hx; destruct (Hr Hx) as [? | [? | ?]]; auto;
              right; [left | right]; now right |].
      split.
      { destruct Hid as [? | (id & pre & post & flag & ? & ? & ? & ? & ? & ->)];
          [now left | right].
        exists id, (arg :: pre), post, flag. repeat split; auto. }
      split; [| exact Hmono].
      destruct Hhost as [? | (pre & post & ? & ->)]; [now left | right].
      exists (arg :: pre), post. split; auto. }
    destruct (String.eqb arg "-r" || String.eqb arg "--resume") eqn:Er.
    { assert (Harg : arg = "-r" \/ arg = "--resume").
      { apply orb_true_iff in Er as [E | E]; apply String.eqb_eq in E; auto. }
      assert (Hin : In "-r" (arg :: rest) \/ In "--resume" (arg :: rest)).
      { destruct Harg as [-> | ->]; [left | right]; now left. }
      cbn zeta in H.
      destruct rest as [| next rest'].
      { cbn in H. injection H as <- <-. cbn.
        repeat split; auto. }
      destruct (truthy next && negb (String.prefix "-" next)) eqn:En.
      - apply IH in H; [| cbn [length] in Hn; lia]. cbn in H.
        destruct H as (Ho & Hh & Hc & Hr & Hid & Hhost & Hmono).
        apply andb_true_iff in En as [Et Ep].
        apply negb_true_iff in Ep.
        assert (Hne : next <> "").
        { intros ->. discriminate Et. }
        split; [exact Ho |].
        split; [intros Hx; destruct (Hh Hx) as [? | [? | ?]]; auto;
                right; [left | right]; right; now right |].
        split; [intros Hx; destruct (Hc Hx) as [? | [? | ?]]; auto;
                right; [left | right]; right; now right |].
        split; [intros _; right; exact Hin |].
        split.
        { right.
          destruct Hid as [Hsame | (id & pre & post & flag & ? & ? & ? & ? & ? & ->)].
          - exists next, [], rest', arg. rewrite Hsame.
            repeat split; auto.
          - exists id, (arg :: next :: pre), post, flag. repeat split; auto. }
        split; [| intros _; now apply Hmono].
        destruct Hhost as [? | (pre & post & ? & ->)]; [now left | right].
        exists (arg :: next :: pre), post. split; auto.
      - apply IH in H; [| cbn [length] in *; lia]. cbn in H.
        destruct H as (Ho & Hh & Hc & Hr & Hid & Hhost & Hmono).
        split; [exact Ho |].
        split; [intros Hx; destruct (Hh Hx) as [? | [? | ?]]; auto;
                right; [left | right]; now right |].
        split; [intros Hx; destruct (Hc Hx) as [? | [? | ?]]; auto;
                right; [left | right]; now right |].
        split; [intros _; right; exact Hin |].
        split.
        { destruct Hid as [? | (id & pre & post & flag & ? & ? & ? & ? & ? & E)];
            [now left | right].
          exists id, (arg :: pre), post, flag. rewrite E. repeat split; auto. }
        split; [| intros _; now apply Hmono].
        destruct Hhost as [? | (pre & post & ? & E)]; [now left | right].
        exists (arg :: pre), post. rewrite E. split; auto. }
    destruct (String.eqb arg "--host") eqn:Ehost.
    { apply String.eqb_eq in Ehost. subst arg.
      destruct rest as [| next rest']; [discriminate H |].
      destruct (truthy next) eqn:Et; [| discriminate H].
      assert (Hne : next <> "").
      { intros ->. discriminate Et. }
      apply IH in H; [| cbn [length] in Hn; lia]. cbn in H.
      destruct H as (Ho & Hh & Hc & Hr & Hid & Hhost & Hmono).
      split; [exact Ho |].
      split; [intros Hx; destruct (Hh Hx) as [? | [? | ?]]; auto;
              right; [left | right]; right; now right |].
      split; [intros Hx; destruct (Hc Hx) as [? | [? | ?]]; auto;
              right; [left | right]; right; now right |].
      split; [intros Hx; destruct (Hr Hx) as [? | [? | ?]]; auto;
              right; [left | right]; right; now right |].
      split.
      { destruct Hid as [? | (id & pre & post & flag & ? & ? & ? & ? & ? & ->)];
          [now left | right].
        exists id, ("--host" :: next :: pre), post, flag. repeat split; auto. }
      split; [| exact Hmono].
      right.
      destruct Hhost as [Hsame | (pre & post & ? & ->)].
      - exists [], rest'. rewrite Hsame. split; auto.
      - exists ("--host" :: next :: pre), post. split; auto. }
    discriminate H.
Qed.

(** X1.  When [parseCliArgs] returns, it has printed nothing.  A flag of the
    result is set only if it is among the arguments.  A session identifier,
    when the result has one, is an argument that is not empty, does not start
    with [-] and stands directly behind [-r] or [--resume], and [resume] is
    set with it.  The host is the default (the variable [COMPANION_HOST], or
    [localhost:3456]) or the argument directly behind a [--host], which is
    not empty. *)
Theorem parseCliArgs_returns (COMPANION_HOST : option string)
    (argv : list string) (out : list Effect) (args : CliArgs) :
  parseCliArgs COMPANION_HOST argv = (out, Returned args) ->
  out = []
  /\ (help args = true -> In "-h" argv \/ In "--help" argv)
  /\ (continue args = true -> In "-c" argv \/ In "--continue" argv)
  /\ (resume args = true -> In "-r" argv \/ In "--resume" argv)
  /\ (forall id, resumeId args = Some id ->
        resume args = true
        /\ id <> ""
        /\ String.prefix "-" id = false
        /\ exists pre post flag,
             (flag = "-r" \/ flag = "--resume")
             /\ argv = (pre ++ flag :: id :: post)%list)
  /\ (host args = default "localhost:3456" COMPANION_HOST
      \/ exists pre post,
           host args <> ""
           /\ argv = (pre ++ "--host" :: host args :: post)%list).
Proof.
  intros H. unfold parseCliArgs in H.
  apply (parseCliArgs_loop_fields (length argv)) in H; [| lia].
  cbn in H. destruct H as (Ho & Hh & Hc & Hr & Hid & Hhost & _).
  split; [exact Ho |].
  split; [intros Hx; destruct (Hh Hx) as [? | ?]; [discriminate | assumption] |].
  split; [intros Hx; destruct (Hc Hx) as [? | ?]; [discriminate | assumption] |].
  split; [intros Hx; destruct (Hr Hx) as [? | ?]; [discriminate | assumption] |].
  split; [| exact Hhost].
  intros id Hsome.
  destruct Hid as [Hnone | (id' & pre & post & flag & E & ? & ? & ? & ? & ?)].
  - congruence.
  - assert (id' = id) by congruence. subst id'.
    repeat split; auto. exists pre, post, flag. split; auto.
Qed.

(** [companion-tui -c -r 3f2a --host box:4000]. *)
Lemma parseCliArgs_example :
  let argv := ["-c"; "-r"; "3f2a"; "--host"; "box:4000"] in
  let args :=
    {| continue := true; resume := true; resumeId := Some "3f2a";
       help := false; host := "box:4000" |} in
  parseCliArgs None argv = ([], Returned args)
  /\ ([] = @nil Effect
      /\ (help args = true -> In "-h" argv \/ In "--help" argv)
      /\ (continue args = true -> In "-c" argv \/ In "--continue" argv)
      /\ (resume args = true -> In "-r" argv \/ In "--resume" argv)
      /\ (forall id, resumeId args = Some id ->
            resume args = true
            /\ id <> ""
            /\ String.prefix "-" id = false
            /\ exists pre post flag,
                 (flag = "-r" \/ flag = "--resume")
                 /\ argv = (pre ++ flag :: id :: post)%list)
      /\ (host args = default "localhost:3456" None
          \/ exists pre post,
               host args <> ""
               /\ argv = (pre ++ "--host" :: host args :: post)%list)).
Proof.
  cbn zeta. split; [reflexivity |].
  apply (parseCliArgs_returns None
           ["-c"; "-r"; "3f2a"; "--host"; "box:4000"]).
  reflexivity.
Defined.

Lemma parseCliArgs_loop_flags (argv : list string) :
  Forall (fun arg => In arg plain_flags) argv ->
  forall args : CliArgs,
    parseCliArgs_loop argv args
    = ([],
       Returned
         {| continue :=
              continue args
              || existsb (fun arg => String.eqb arg "-c"
                                     || String.eqb arg "--continue") argv;
            resume :=
              resume args
              || existsb (fun arg => String.eqb arg "-r"
                                     || String.eqb arg "--resume") argv;
            resumeId := resumeId args;
            help :=
              help args
              || existsb (fun arg => String.eqb arg "-h"
                                     || String.eqb arg "--help") argv;
            host := host args |}).
Proof.
  induction 1 as [| arg rest Harg Hrest IH]; intros args.
  - cbn. rewrite !orb_false_r. now destruct args.
  - assert (Hnext : forall next rest',
               rest = next :: rest' ->
               truthy next && negb (String.prefix "-" next) = false).
    { intros next rest' ->. inversion Hrest as [| ? ? Hn _]; subst.
      cbn in Hn.
      destruct Hn as [<- | [<- | [<- | [<- | [<- | [<- | []]]]]]];
        reflexivity. }
    cbn in Harg.
    destruct Harg as [<- | [<- | [<- | [<- | [<- | [<- | []]]]]]];
      cbn [parseCliArgs_loop String.eqb Ascii.eqb Bool.eqb orb andb existsb];
      try (destruct rest as [| next rest'];
           [| rewrite (Hnext next rest' eq_refl)]);
      rewrite IH; cbn [continue resume resumeId help host];
      rewrite ?orb_true_r, ?orb_true_l, ?orb_false_l; reflexivity.
Qed.

(** X2.  Arguments that are all flags without a value are accepted in any
    order and any number: the result sets [help], [continue] and [resume]
    for the flags that occur, in either spelling, has no session identifier
    and keeps the default host; nothing is printed.  In particular [-r]
    does not take a following flag for the identifier. *)
Theorem parseCliArgs_flags (COMPANION_HOST : option string)
    (argv : list string) :
  Forall (fun arg => In arg plain_flags) argv ->
  parseCliArgs COMPANION_HOST argv
  = ([],
     Returned
       {| continue :=
            existsb (fun arg => String.eqb arg "-c"
                                || String.eqb arg "--continue") argv;
          resume :=
            existsb (fun arg => String.eqb arg "-r"
                                || String.eqb arg "--resume") argv;
          resumeId := None;
          help :=
            existsb (fun arg => String.eqb arg "-h"
                                || String.eqb arg "--help") argv;
          host := default "localhost:3456" COMPANION_HOST |}).
Proof.
  intros H. unfold parseCliArgs.
  rewrite (parseCliArgs_loop_flags argv H). reflexivity.
Qed.

(** [companion-tui -r --continue -r]. *)
Lemma parseCliArgs_flags_example :
  Forall (fun arg => In arg plain_flags) ["-r"; "--continue"; "-r"]
  /\ parseCliArgs (Some "box:4000") ["-r"; "--continue"; "-r"]
     = ([],
        Returned
          {| continue := true; resume := true; resumeId := None;
             help := false; host := "box:4000" |}).
Proof.
  assert (H : Forall (fun arg => In arg plain_flags)
                ["-r"; "--continue"; "-r"]).
  { repeat (apply List.Forall_cons; [cbn; auto 10 |]). apply List.Forall_nil. }
  split; [exact H |].
  exact (parseCliArgs_flags (Some "box:4000") ["-r"; "--continue"; "-r"] H).
Defined.

End CommandLine.

Section SessionLookup.

Import Startup.

Context (js : Strings).

Lemma prefix_refl (s : string) : String.prefix s s = true.
Proof.
  induction s as [| c s IH]; [reflexivity |].
  cbn. destruct (ascii_dec c c); [exact IH | contradiction].
Qed.

(** A loop that prints one line for each element. *)
Lemma for_each_lines {A} (l : list A) (line : A -> string) :
  for_each l (fun x => effect (console_error (line x)))
  = (map (fun x => console_error (line x)) l, Returned tt).
Proof.
  induction l as [| x l IH]; [reflexivity |].
  cbn [for_each mbind Proc_bind and_then effect]. rewrite IH. reflexivity.
Qed.

(** X3.  [findByPrefix] returns a session of the list whose identifier
    starts with the prefix: the first session whose identifier is the
    prefix itself, if there is one, and otherwise the session whose
    identifier starts with the prefix if there is exactly one.  It returns
    [undefined] only if no identifier starts with the prefix.  With several
    candidates and none exact it ends the process with code 1, after one line
    of heading and one line for each candidate.  It prints nothing when it
    returns, and it does not throw. *)
Theorem findByPrefix_result (sessions : list SessionInfo) (prefix : string) :
  let matches :=
    List.filter (fun s => String.prefix prefix (sessionId s)) sessions in
  match findByPrefix js sessions prefix with
  | (out, Returned (Some s)) =>
      out = []
      /\ In s sessions
      /\ String.prefix prefix (sessionId s) = true
      /\ (List.find (fun s => String.eqb (sessionId s) prefix) sessions
          = Some s
          \/ (forall s', In s' sessions -> sessionId s' <> prefix)
             /\ matches = [s])
  | (out, Returned None) =>
      out = []
      /\ forall s, In s sessions ->
                   String.prefix prefix (sessionId s) = false
  | (out, Exited code) =>
      code = 1%Z
      /\ (forall s', In s' sessions -> sessionId s' <> prefix)
      /\ 2 <= length matches
      /\ length out = S (length matches)
  | (_, Thrown) => False
  end.
Proof.
  cbn zeta. unfold findByPrefix.
  destruct (List.find _ sessions) as [exact |] eqn:Efind.
  - apply List.find_some in Efind as Hex. destruct Hex as [Hin Heq].
    apply String.eqb_eq in Heq. cbn.
    repeat split; auto.
    rewrite <- Heq. apply prefix_refl.
  - assert (Hno : forall s', In s' sessions -> sessionId s' <> prefix).
    { intros s' Hin Heq.
      apply (List.find_none _ _ Efind) in Hin.
      apply String.eqb_neq in Hin. contradiction. }
    remember (List.filter _ sessions) as matches eqn:Em.
    destruct matches as [| m [| m' matches]].
    + cbn. split; [reflexivity |]. intros s Hin.
      destruct (String.prefix prefix (sessionId s)) eqn:Ep; [| reflexivity].
      assert (Hm : In s []).
      { rewrite Em. apply List.filter_In. auto. }
      destruct Hm.
    + cbn.
      assert (Hm : In m (List.filter
                           (fun s => String.prefix prefix (sessionId s))
                           sessions)).
      { rewrite <- Em. now left. }
      apply List.filter_In in Hm as [Hin Hp].
      repeat split; auto.
    + cbn [length Nat.eqb Nat.ltb Nat.leb].
      rewrite for_each_lines.
      cbn [mbind Proc_bind and_then effect process_exit fst snd].
      repeat split; auto.
      * cbn. lia.
      * cbn. rewrite length_app, length_map. cbn. lia.
Qed.

(** ** The session that [main] connects to *)

Lemma Array_sort_nil {A} (compare : A -> A -> Z) (l : list A) :
  Array_sort compare l = [] -> l = [].
Proof.
  destruct l as [| x l]; [reflexivity |]. intros H. exfalso.
  unfold Array_sort in H. cbn [foldr] in H.
  destruct (foldr (sort_insert compare) [] l) as [| y l'];
    cbn [sort_insert] in H; [discriminate |].
  destruct (0 <? compare x y)%Z; discriminate.
Qed.

(** The first element of an array sorted with [by_createdAt] is the first
    of the most recent elements of the array. *)
Lemma Array_sort_head (l : list SessionInfo) (h : SessionInfo)
    (t : list SessionInfo) :
  Array_sort by_createdAt l = h :: t ->
  exists pre post,
    l = (pre ++ h :: post)%list
    /\ (forall y, In y pre ->
          (default 0 (createdAt y) < default 0 (createdAt h))%Z)
    /\ (forall y, In y post ->
          (default 0 (createdAt y) <= default 0 (createdAt h))%Z).
Proof.
  revert h t. induction l as [| a l IH]; intros h t H; [discriminate H |].
  change (Array_sort by_createdAt (a :: l))
    with (sort_insert by_createdAt a (Array_sort by_createdAt l)) in H.
  destruct (Array_sort by_createdAt l) as [| h' t'] eqn:Es.
  - apply Array_sort_nil in Es. subst l. cbn in H. injection H as <- <-.
    exists [], []. repeat split; intros y [].
  - destruct (IH h' t' eq_refl) as (pre & post & -> & Hpre & Hpost).
    cbn [sort_insert] in H. unfold by_createdAt in H.
    destruct (0 <? _)%Z eqn:Ecmp.
    + injection H as <- <-. apply Z.ltb_lt in Ecmp.
      exists (a :: pre), post. repeat split; auto.
      intros y [<- | Hy]; [lia | now apply Hpre].
    + injection H as <- <-. apply Z.ltb_ge in Ecmp.
      exists [], (pre ++ h' :: post)%list. repeat split; [intros y [] |].
      intros y Hy. apply in_app_or in Hy as [Hy | [<- | Hy]].
      * apply Hpre in Hy. lia.
      * lia.
      * apply Hpost in Hy. lia.
Qed.


Lemma in_lines {A} (e : Effect) (l : list A) (line : A -> string) :
  In e (map (fun x => console_error (line x)) l) ->
  exists text, e = console_error text.
Proof.
  intros H. apply in_map_iff in H as (x & <- & _). eauto.
Qed.

(** What [ensureAlive] does. *)
Lemma ensureAlive_cases (w : World) (s : SessionInfo) :
  (isAlive s = true /\ ensureAlive js w s = ([], Returned tt))
  \/ (isAlive s = false
      /\ exists text,
           (relaunchSession w (sessionId s) = Some tt
            /\ ensureAlive js w s
               = ([console_log text; relaunch (sessionId s); sleep 2000],
                  Returned tt))
           \/ (relaunchSession w (sessionId s) = None
               /\ ensureAlive js w s
                  = ([console_log text; relaunch (sessionId s)], Thrown))).
Proof.
  unfold ensureAlive. destruct (isAlive s); [left; auto | right].
  split; [reflexivity |].
  destruct (relaunchSession w (sessionId s)) as [[] |]; cbn;
    eexists; [left | right]; split; reflexivity.
Qed.

(** What [findByPrefix] prints, and where its result is from. *)
Lemma findByPrefix_cases (sessions : list SessionInfo) (prefix : string) :
  (exists s, In s sessions
             /\ String.prefix prefix (sessionId s) = true
             /\ findByPrefix js sessions prefix = ([], Returned (Some s)))
  \/ findByPrefix js sessions prefix = ([], Returned None)
  \/ exists out,
       findByPrefix js sessions prefix = (out, Exited 1)
       /\ Forall (fun e => exists text, e = console_error text) out.
Proof.
  unfold findByPrefix.
  destruct (List.find _ sessions) as [exact |] eqn:Efind.
  - left. exists exact. apply List.find_some in Efind as [Hin Heq].
    apply String.eqb_eq in Heq.
    split; [exact Hin |]. split; [| reflexivity].
    rewrite <- Heq. apply prefix_refl.
  - remember (List.filter _ sessions) as matches eqn:Em.
    destruct matches as [| m [| m' matches]].
    + right. left. reflexivity.
    + left. exists m.
      assert (Hm : In m (List.filter
                           (fun s => String.prefix prefix (sessionId s))
                           sessions)).
      { rewrite <- Em. now left. }
      apply List.filter_In in Hm as [Hin Hp]. auto.
    + right. right. cbn [length Nat.eqb Nat.ltb Nat.leb].
      rewrite for_each_lines.
      cbn [mbind Proc_bind and_then effect process_exit fst snd].
      eexists. split; [reflexivity |].
      constructor; [eauto |]. rewrite app_nil_r.
      apply List.Forall_forall. intros e He. eapply in_lines, He.
Qed.

Ltac in_effects :=
  repeat match goal with
         | H : In _ (_ ++ _) |- _ => apply in_app_or in H as [H | H]
         | H : In _ (_ :: _) |- _ => destruct H as [H | H]
         | H : In _ [] |- _ => destruct H
         | H : In _ (map _ _) |- _ =>
             apply in_lines in H as (? & H)
         | H : _ = _ |- _ => discriminate H
         end.

Ltac proc_simpl :=
  cbn [mbind Proc_bind and_then pure effect process_exit raise catch await
       fst snd app] in *.

Ltac ensure_alive w s :=
  let Ha := fresh "Ha" in
  let text := fresh "text" in
  let Hr := fresh "Hr" in
  let E := fresh "E" in
  destruct (ensureAlive_cases w s)
    as [[Ha E] | [Ha (text & [[Hr E] | [Hr E]])]];
  rewrite E in *; clear E.

(** X5.  What the start-up asks of the Companion server.  It asks to
    relaunch only a session that the server listed and that is not alive.
    It asks to create a session only when it is started with neither
    [--resume] nor [--continue], and no session that the server listed for
    the current directory is alive; the session is created for the current
    directory. *)
Theorem resolveSession_requests (w : World) (args : CliArgs) (cwd' : string) :
  let out := fst (resolveSession js w args cwd') in
  (forall id, In (relaunch id) out ->
     exists all s,
       listSessions w = Some all
       /\ In s all /\ sessionId s = id /\ isAlive s = false)
  /\ (forall c, In (create c) out ->
        c = cwd'
        /\ resume args = false
        /\ continue args = false
        /\ exists all,
             listSessions w = Some all
             /\ forall s, In s all -> cwd s = cwd' -> isAlive s = false).
Proof.
  cbn zeta. unfold resolveSession.
  destruct (listSessions w) as [all |] eqn:El.
  2:{ proc_simpl. split; [intros id H | intros c H]; in_effects. }
  cbn [await]. cbn [mbind Proc_bind and_then pure].
  remember (List.filter (fun s => String.eqb (cwd s) cwd') all) as loc eqn:Eloc.
  assert (Hloc : forall s, In s loc -> In s all /\ cwd s = cwd').
  { intros s Hs. rewrite Eloc in Hs. apply List.filter_In in Hs as [? Hc].
    apply String.eqb_eq in Hc. auto. }
  destruct (resume args) eqn:Er.
  - destruct (match resumeId args with
              | Some id => truthy id
              | None => false
              end) eqn:Eid.
    + destruct (findByPrefix_cases all (default "" (resumeId args)))
        as [(s & Hin & _ & E) | [E | (out & E & Hout)]]; rewrite E; clear E.
      * proc_simpl. ensure_alive w s; proc_simpl;
          (split; [intros id H | intros c H]); in_effects.
        -- injection H as <-. eauto 10.
        -- injection H as <-. eauto 10.
      * proc_simpl.
        destruct (0 <? length (drop (length loc - 10) loc))%nat;
          [rewrite for_each_lines |]; proc_simpl;
          (split; [intros id H | intros c H]); in_effects.
      * proc_simpl. split; [intros id H | intros c H];
          rewrite ?app_nil_r in H;
          apply (proj1 (List.Forall_forall _ _) Hout) in H as [? H];
          discriminate H.
    + destruct (length loc =? 0)%nat.
      * proc_simpl. split; [intros id H | intros c H]; in_effects.
      * destruct (pickSession loc (choice w)) as [picked |] eqn:Ep.
        -- assert (Hin : In picked loc).
           { unfold pickSession in Ep. destruct (choice w); [| discriminate].
             now apply List.find_some in Ep. }
           apply Hloc in Hin as [Hin _].
           ensure_alive w picked; proc_simpl;
             (split; [intros id H | intros c H]); in_effects.
           ++ injection H as <-. eauto 10.
           ++ injection H as <-. eauto 10.
        -- proc_simpl. split; [intros id H | intros c H]; in_effects.
  - destruct (continue args) eqn:Ec.
    + destruct (length loc =? 0)%nat.
      * proc_simpl. split; [intros id H | intros c H]; in_effects.
      * destruct (Array_sort by_createdAt loc) as [| s t] eqn:Es.
        -- proc_simpl. split; [intros id H | intros c H]; in_effects.
        -- destruct (Array_sort_head loc s t Es) as (pre & post & E & _).
           assert (Hin : In s all).
           { apply Hloc. rewrite E. apply in_or_app. right. now left. }
           ensure_alive w s; proc_simpl;
             (split; [intros id H | intros c H]); in_effects.
           ++ injection H as <-. eauto 10.
           ++ injection H as <-. eauto 10.
    + destruct (List.filter isAlive loc) as [| s t] eqn:Ea.
      * assert (Hdead : forall s, In s all -> cwd s = cwd' -> isAlive s = false).
        { intros s Hin Hc. destruct (isAlive s) eqn:E; [| reflexivity].
          assert (H : In s (List.filter isAlive loc)).
          { apply List.filter_In. split; [| exact E].
            rewrite Eloc. apply List.filter_In. split; [exact Hin |].
            now apply String.eqb_eq. }
          rewrite Ea in H. destruct H. }
        destruct (createSession w) as [sid |]; proc_simpl;
          (split; [intros id H | intros c H]); in_effects;
          injection H as <-; eauto 10.
      * proc_simpl. split; [intros id H | intros c H]; in_effects.
Qed.

Ltac listed all s :=
  exists all; split; [reflexivity |]; left; exists s;
  split; [assumption |]; split; [reflexivity |].


End SessionLookup.

Section Picker.

Import Startup.

Context (js : Strings).

Lemma sort_insert_perm {A} (compare : A -> A -> Z) (x : A) (l : list A) :
  Permutation (sort_insert compare x l) (x :: l).
Proof.
  induction l as [| y l IH]; [reflexivity |]. cbn.
  destruct (0 <? compare x y)%Z; [| reflexivity].
  rewrite IH. apply perm_swap.
Qed.

Lemma Array_sort_perm {A} (compare : A -> A -> Z) (l : list A) :
  Permutation (Array_sort compare l) l.
Proof.
  induction l as [| x l IH]; [reflexivity |].
  change (Array_sort compare (x :: l))
    with (sort_insert compare x (Array_sort compare l)).
  rewrite sort_insert_perm. now rewrite IH.
Qed.

Lemma sort_insert_sorted (x : SessionInfo) (l : list SessionInfo) :
  most_recent_first l -> most_recent_first (sort_insert by_createdAt x l).
Proof.
  induction l as [| y l IH]; intros Hl.
  - cbn. split; [constructor | exact I].
  - cbn [sort_insert]. unfold by_createdAt at 1.
    destruct Hl as [Hy Hl].
    destruct (0 <? _)%Z eqn:E.
    + apply Z.ltb_lt in E. cbn [most_recent_first]. split; [| now apply IH].
      apply List.Forall_forall. intros z Hz.
      apply (Permutation_in _ (sort_insert_perm by_createdAt x l)) in Hz.
      destruct Hz as [<- | Hz]; [lia |].
      apply (proj1 (List.Forall_forall _ _) Hy z Hz).
    + apply Z.ltb_ge in E. cbn [most_recent_first]. split; [| now split].
      constructor; [lia |].
      apply List.Forall_forall. intros z Hz.
      pose proof (proj1 (List.Forall_forall _ _) Hy z Hz). cbn in *. lia.
Qed.

Lemma Array_sort_sorted (l : list SessionInfo) :
  most_recent_first (Array_sort by_createdAt l).
Proof.
  induction l as [| x l IH]; [exact I |].
  change (Array_sort by_createdAt (x :: l))
    with (sort_insert by_createdAt x (Array_sort by_createdAt l)).
  now apply sort_insert_sorted.
Qed.

(** X7.  The picker offers every session of the list once, the most recent
    first: the values of its items are the identifiers of the sessions, and
    the sessions behind the items are in the order of their creation times,
    latest first.  When the user selects an item of the list, the picker
    answers with a session of the list that has the identifier of the item;
    when the user cancels, with none. *)
Theorem pickSession_offers (now : Z) (sessions : list SessionInfo) :
  let items := pickSession_items js now sessions in
  Permutation (map value items) (map sessionId sessions)
  /\ (exists sorted,
        Permutation sorted sessions
        /\ most_recent_first sorted
        /\ map value items = map sessionId sorted)
  /\ (forall item, In item items ->
        exists s,
          pickSession sessions (select item) = Some s
          /\ In s sessions
          /\ sessionId s = value item)
  /\ pickSession sessions cancel = None.
Proof.
  cbn zeta. unfold pickSession_items.
  assert (Hmap : map value
                   (map (fun s =>
                           {| label := sessionLabel s; value := sessionId s;
                              description := sessionDescription js now s |})
                        (Array_sort by_createdAt sessions))
                 = map sessionId (Array_sort by_createdAt sessions)).
  { rewrite map_map. reflexivity. }
  split.
  { rewrite Hmap. apply Permutation_map, Array_sort_perm. }
  split.
  { exists (Array_sort by_createdAt sessions).
    split; [apply Array_sort_perm |]. split; [apply Array_sort_sorted |].
    exact Hmap. }
  split; [| reflexivity].
  intros item Hitem. apply in_map_iff in Hitem as (s0 & <- & Hs0).
  apply (Permutation_in _ (Array_sort_perm by_createdAt sessions)) in Hs0.
  cbn [pickSession value].
  destruct (List.find _ sessions) as [s |] eqn:Ef.
  - exists s. apply List.find_some in Ef as [Hin Heq].
    apply String.eqb_eq in Heq. auto.
  - apply (List.find_none _ _ Ef) in Hs0.
    rewrite String.eqb_refl in Hs0. discriminate.
Qed.

End Picker.

Section TimeAgo.

Import Startup.

Lemma div_ltb (a b q : Z) :
  (0 < b)%Z -> (a / b <? q)%Z = (a <? b * q)%Z.
Proof.
  intros Hb.
  destruct (Z.ltb_spec a (b * q)) as [H | H].
  - apply Z.ltb_lt. now apply Z.div_lt_upper_bound.
  - apply Z.ltb_ge. now apply Z.div_le_lower_bound.
Qed.

(** X8.  [timeAgo] rounds the time that has passed down to whole units, and
    takes the largest unit of which there is at least one: seconds below a
    minute, minutes below an hour, hours below a day, days from then on.  A
    time that lies ahead is given in seconds, with a negative number. *)
Theorem timeAgo_rounds_down (now ts : Z) :
  let ms := (now - ts)%Z in
  ((ms < 60000)%Z
   /\ timeAgo now ts = pretty (ms / 1000)%Z +:+ "s ago")
  \/ ((60000 <= ms < 3600000)%Z
      /\ timeAgo now ts = pretty (ms / 60000)%Z +:+ "m ago")
  \/ ((3600000 <= ms < 86400000)%Z
      /\ timeAgo now ts = pretty (ms / 3600000)%Z +:+ "h ago")
  \/ ((86400000 <= ms)%Z
      /\ timeAgo now ts = pretty (ms / 86400000)%Z +:+ "d ago").
Proof.
  cbn zeta. unfold timeAgo.
  rewrite !Z.div_div by lia.
  rewrite !div_ltb by lia.
  change (1000 * 60)%Z with 60000%Z.
  change (60000 * 60)%Z with 3600000%Z.
  change (3600000 * 24)%Z with 86400000%Z.
  destruct (Z.ltb_spec (now - ts) 60000); [left; auto |].
  destruct (Z.ltb_spec (now - ts) 3600000); [right; left; auto |].
  destruct (Z.ltb_spec (now - ts) 86400000); [right; right; left; auto |].
  right; right; right; auto.
Qed.

End TimeAgo.

Section StartupExamples.

Import Startup.


End StartupExamples.

(** * The container of the terminal client *)

Section Container.

#[local] Open Scope list_scope.

Lemma same_key (a b : Component) :
  same a b = true <-> (class_of a, id_of a) = (class_of b, id_of b).
Proof.
  destruct a, b; cbn; try (split; [discriminate | intros H; discriminate H]);
    try (split; reflexivity);
    rewrite Nat.eqb_eq; split; intros H; congruence.
Qed.

Lemma same_refl (a : Component) : same a a = true.
Proof. apply same_key. reflexivity. Qed.

Lemma indexOf_app_fixed (l : list Component) :
  Forall (fun c => fixed c = false) l ->
  indexOf (l ++ [EditorC]) EditorC = Some (length l).
Proof.
  induction 1 as [| x l Hx _ IH]; [reflexivity |].
  cbn. rewrite IH. destruct x; try discriminate Hx; reflexivity.
Qed.

(** [insertBeforeEditor] on a container that is laid out. *)
Lemma insert_laid_out (middle : list Component) (c : Component) :
  Forall (fun c => fixed c = false) middle ->
  match indexOf (StatusBarC :: HeaderC :: middle ++ [EditorC]) EditorC with
  | Some idx =>
      splice_insert idx c (StatusBarC :: HeaderC :: middle ++ [EditorC])
  | None => (StatusBarC :: HeaderC :: middle ++ [EditorC]) ++ [c]
  end
  = StatusBarC :: HeaderC :: (middle ++ [c]) ++ [EditorC].
Proof.
  intros H. cbn [indexOf same]. rewrite (indexOf_app_fixed middle H).
  cbn [fmap option_fmap option_map]. unfold splice_insert.
  cbn [take drop]. rewrite take_app_length, drop_app_length.
  now rewrite <- app_assoc.
Qed.

Lemma indexOf_without (l : list Component) (c : Component) :
  match indexOf l c with
  | Some idx => splice_remove idx l
  | None => l
  end = without c l.
Proof.
  induction l as [| x l IH]; [reflexivity |].
  cbn [indexOf without]. destruct (same x c); [reflexivity |].
  destruct (indexOf l c) as [idx |]; cbn; rewrite <- IH; reflexivity.
Qed.

Lemma without_app_fixed (c : Component) (l : list Component) :
  fixed c = false ->
  without c (StatusBarC :: HeaderC :: l ++ [EditorC])
  = StatusBarC :: HeaderC :: without c l ++ [EditorC].
Proof.
  intros Hc.
  assert (H : without c (l ++ [EditorC]) = without c l ++ [EditorC]).
  { induction l as [| x l IH]; cbn.
    - destruct c; try discriminate Hc; reflexivity.
    - destruct (same x c); [reflexivity |]. now rewrite IH. }
  cbn [without]. destruct c; try discriminate Hc; cbn [same]; now rewrite H.
Qed.

Lemma without_in (c x : Component) (l : list Component) :
  In x (without c l) -> In x l.
Proof.
  induction l as [| y l IH]; [auto |]. cbn.
  destruct (same y c); [auto |]. intros [-> | H]; auto.
Qed.

Lemma without_nodup (c : Component) (l : list Component) :
  NoDup (map (fun c => (class_of c, id_of c)) l) ->
  NoDup (map (fun c => (class_of c, id_of c)) (without c l))
  /\ forall x, In x (without c l) -> same x c = false.
Proof.
  induction l as [| y l IH]; intros H.
  - split; [constructor | intros x []].
  - cbn [map] in H. apply NoDup_cons in H as [Hy Hl].
    cbn [without]. destruct (same y c) eqn:E.
    + split; [exact Hl |]. intros x Hx.
      destruct (same x c) eqn:Ex; [| reflexivity].
      exfalso. apply Hy. apply same_key in E, Ex.
      rewrite E, <- Ex.
      apply list_elem_of_In, in_map_iff. now exists x.
    + destruct (IH Hl) as [Hn Hs]. split.
      * cbn [map]. apply NoDup_cons. split; [| exact Hn].
        intros Hin. apply Hy.
        apply list_elem_of_In, in_map_iff in Hin as (x & Hk & Hx).
        apply list_elem_of_In, in_map_iff. exists x.
        split; [exact Hk |]. eapply without_in, Hx.
      * intros x [<- | Hx]; [exact E | now apply Hs].
Qed.

(** [removeChild] on a container that is laid out. *)
Lemma remove_laid_out (children middle : list Component) (next : nat)
    (c : Component) :
  fixed c = false ->
  laid_out children middle next ->
  laid_out
    (match indexOf children c with
     | Some idx => splice_remove idx children
     | None => children
     end)
    (without c middle) next.
Proof.
  intros Hc (-> & Hm & Hn). rewrite indexOf_without.
  split; [now apply without_app_fixed |].
  split; [| now apply without_nodup].
  apply List.Forall_forall. intros x Hx. apply without_in in Hx.
  apply (proj1 (List.Forall_forall _ _) Hm x Hx).
Qed.

(** [insertBeforeEditor] of a component that was just created. *)
Lemma add_laid_out (children middle : list Component) (next : nat)
    (c : Component) :
  fixed c = false ->
  id_of c = next ->
  laid_out children middle next ->
  laid_out
    (match indexOf children EditorC with
     | Some idx => splice_insert idx c children
     | None => children ++ [c]
     end)
    (middle ++ [c]) (S next).
Proof.
  intros Hc Hid (-> & Hm & Hn).
  assert (Hf : Forall (fun c => fixed c = false) middle).
  { eapply List.Forall_impl; [| exact Hm]. now intros x [? _]. }
  split; [now apply insert_laid_out |].
  split.
  - apply Forall_app. split.
    + eapply List.Forall_impl; [| exact Hm]. intros x [? ?]. split; [auto | lia].
    + constructor; [split; [exact Hc | lia] | constructor].
  - rewrite map_app. apply NoDup_app. split; [exact Hn |]. split.
    + intros k Hk Hk'. cbn in Hk'. apply list_elem_of_In in Hk'.
      destruct Hk' as [<- | []].
      apply list_elem_of_In, in_map_iff in Hk as (x & Hx & Hin).
      apply (proj1 (List.Forall_forall _ _) Hm) in Hin as [_ Hlt].
      injection Hx as _ Hx. lia.
    + cbn. apply NoDup_singleton.
Qed.

Lemma keeps_refl (st : State) : keeps st st.
Proof. intros H. exact H. Qed.

Lemma keeps_trans (st1 st2 st3 : State) :
  keeps st1 st2 -> keeps st2 st3 -> keeps st1 st3.
Proof. unfold keeps. auto. Qed.

Lemma steady_refl (st : State) : steady st st.
Proof. split; [auto | split; reflexivity]. Qed.

Lemma steady_trans (st1 st2 st3 : State) :
  steady st1 st2 -> steady st2 st3 -> steady st1 st3.
Proof.
  intros (H1 & F1 & B1) (H2 & F2 & B2).
  split; [auto |]. split; congruence.
Qed.

Lemma steady_keeps (st st' : State) : steady st st' -> keeps st st'.
Proof.
  intros (H & Hf & Hb) (Hn & Hfo). split; [auto |].
  rewrite Hf, Hb. exact Hfo.
Qed.

Lemma send_steady msg st : steady st (send msg st).
Proof.
  unfold send.
  destruct (ws (client st)) as [[] |];
    (split; [intros H; exact H | split; reflexivity]).
Qed.

(** A change of a field other than the container, the allocation counter,
    the focus and [permissionBanner]. *)
Ltac steady_setter :=
  match goal with
  | |- steady ?x _ =>
      generalize x; intro;
      split; [let H := fresh in intros H; exact H | split; reflexivity]
  end.

Ltac by_send' :=
  intros; unfold sendUserMessage, interrupt, setModel, setPermissionMode,
    mcpGetStatus, mcpToggle, mcpReconnect, sendPermissionResponse,
    randomUUID;
  cbv beta iota zeta;
  lazymatch goal with
  | |- steady ?st (send ?msg ?st1) =>
      apply (steady_trans st st1); [steady_setter | apply send_steady]
  end.

Lemma sendUserMessage_steady content st : steady st (sendUserMessage content st).
Proof. by_send'. Qed.
Lemma interrupt_steady st : steady st (interrupt st).
Proof. by_send'. Qed.
Lemma setModel_steady model st : steady st (setModel model st).
Proof. by_send'. Qed.
Lemma setPermissionMode_steady mode st : steady st (setPermissionMode mode st).
Proof. by_send'. Qed.
Lemma mcpGetStatus_steady st : steady st (mcpGetStatus st).
Proof. by_send'. Qed.
Lemma mcpToggle_steady name enabled st : steady st (mcpToggle name enabled st).
Proof. by_send'. Qed.
Lemma mcpReconnect_steady name st : steady st (mcpReconnect name st).
Proof. by_send'. Qed.
Lemma sendPermissionResponse_steady id behavior st :
  steady st (sendPermissionResponse id behavior st).
Proof. by_send'. Qed.

Lemma setText_steady id text st : steady st (setText id text st).
Proof. steady_setter. Qed.

Lemma finalizeStream_steady st : steady st (finalizeStream st).
Proof. steady_setter. Qed.

Lemma removeChild_steady c st :
  fixed c = false -> steady st (removeChild c st).
Proof.
  intros Hc. unfold removeChild.
  destruct (indexOf (children (tui st)) c) as [idx |] eqn:E;
    [| apply steady_refl].
  split; [| split; reflexivity].
  intros ((middle & Hl) & Hv).
  pose proof (remove_laid_out _ _ _ c Hc Hl) as Hr. rewrite E in Hr.
  split; [exists (without c middle); exact Hr | exact Hv].
Qed.

(** A component that was just created is put before the editor. *)
Lemma insert_new_steady (c : Component) (st st1 : State) :
  fixed c = false ->
  id_of c = nextId (tui st) ->
  children (tui st1) = children (tui st) ->
  nextId (tui st1) = S (nextId (tui st)) ->
  focus (tui st1) = focus (tui st) ->
  permissionBanner (vars st1) = permissionBanner (vars st) ->
  steady st (insertBeforeEditor c st1).
Proof.
  intros Hc Hid Hch Hn Hfo Hb.
  unfold insertBeforeEditor, addChild. rewrite Hch.
  split.
  - intros ((middle & Hl) & Hv).
    pose proof (add_laid_out _ _ _ c Hc Hid Hl) as Ha.
    assert (Hv' : forall b, permissionBanner (vars st1) = Some b ->
                    class_of b = 7 /\ id_of b < S (nextId (tui st))).
    { intros b Hb'. rewrite Hb in Hb'. destruct (Hv b Hb').
      split; [auto | lia]. }
    destruct (indexOf (children (tui st)) EditorC) as [idx |];
      (split; [exists (middle ++ [c]); cbn; rewrite Hn; exact Ha |]);
      cbn; rewrite Hn; exact Hv'.
  - destruct (indexOf (children (tui st)) EditorC) as [idx |];
      cbn; rewrite Hfo, Hb; split; reflexivity.
Qed.

Lemma insert_new_neat (c : Component) (st st1 : State) :
  fixed c = false ->
  id_of c = nextId (tui st) ->
  children (tui st1) = children (tui st) ->
  nextId (tui st1) = S (nextId (tui st)) ->
  focus (tui st1) = focus (tui st) ->
  permissionBanner (vars st1) = permissionBanner (vars st) ->
  neat st -> neat (insertBeforeEditor c st1).
Proof.
  intros Hc Hid Hch Hn Hfo Hb.
  now apply (insert_new_steady c st st1).
Qed.

Ltac new_component :=
  lazymatch goal with
  | |- steady _ (insertBeforeEditor ?c _) =>
      apply (insert_new_steady c); reflexivity
  end.

Lemma insertText_steady text st : steady st (insertText text st).
Proof. unfold insertText, new_Text, alloc. cbv beta iota zeta. new_component. Qed.

Lemma insertSpacer_steady st : steady st (insertSpacer st).
Proof. unfold insertSpacer, new_Spacer, alloc. cbv beta iota zeta. new_component. Qed.

Lemma insertMarkdown_steady text st : steady st (insertMarkdown text st).
Proof.
  unfold insertMarkdown, new_Markdown, alloc. cbv beta iota zeta.
  new_component.
Qed.

Lemma showLoader_steady message st : steady st (showLoader message st).
Proof.
  unfold showLoader, new_Loader, alloc. cbv beta iota zeta. new_component.
Qed.

Lemma removeLoader_steady st : steady st (removeLoader st).
Proof.
  unfold removeLoader. destruct (loader (vars st)) as [id |];
    [| apply steady_refl].
  cbv zeta. eapply steady_trans; [apply (removeChild_steady (Loader id)) |].
  - reflexivity.
  - steady_setter.
Qed.

Lemma ensureStreamingMd_steady st : steady st (snd (ensureStreamingMd st)).
Proof.
  unfold ensureStreamingMd, new_Markdown, alloc.
  destruct (streamingMd (vars st)); cbn [snd]; [apply steady_refl |].
  cbv beta iota zeta. cbn [snd].
  eapply steady_trans; [apply removeLoader_steady |]. new_component.
Qed.

Create HintDb steady.

#[local] Hint Resolve sendUserMessage_steady interrupt_steady setModel_steady
  setPermissionMode_steady mcpGetStatus_steady mcpToggle_steady
  mcpReconnect_steady sendPermissionResponse_steady setText_steady
  finalizeStream_steady insertText_steady insertSpacer_steady
  insertMarkdown_steady showLoader_steady removeLoader_steady : steady.

(** A composition of steady steps, from the outside in. *)
Ltac steady :=
  cbv beta iota zeta;
  lazymatch goal with
  | |- steady ?st ?st => apply steady_refl
  | |- steady _ (match ?x with _ => _ end) => destruct x eqn:?; steady
  | |- steady _ (?f ?x) =>
      apply (steady_trans _ x);
      [ steady | first [ solve [auto with steady] | steady_setter ] ]
  | |- steady _ _ => assumption
  end.

(** With the focus on the editor or on a list, a neat container is tidy. *)
Lemma neat_tidy (st : State) :
  neat st ->
  (forall id request, focus (tui st) <> Some (PermissionBanner id request)) ->
  tidy st.
Proof.
  intros Hn Hf. split; [exact Hn |]. intros id request H.
  now apply Hf in H.
Qed.

Lemma neat_without_banner (st : State) :
  neat st -> neat (set_permissionBanner None st).
Proof.
  intros (Hl & Hv). split; [exact Hl |]. intros b Hb. discriminate Hb.
Qed.

(** The end of a prompt: the banner that [permissionBanner] holds is taken
    from the container. *)
Lemma banner_removed_neat (st : State) :
  neat st ->
  neat match permissionBanner (vars st) with
       | Some banner => set_permissionBanner None (removeChild banner st)
       | None => st
       end.
Proof.
  intros H. destruct (permissionBanner (vars st)) as [banner |] eqn:Eb;
    [| exact H].
  apply neat_without_banner.
  destruct H as (Hl & Hv). destruct (Hv banner Eb) as [Hk _].
  assert (Hfix : fixed banner = false)
    by (destruct banner; try discriminate Hk; reflexivity).
  apply (removeChild_steady banner st Hfix). split; assumption.
Qed.

Lemma onRespond_keeps request behavior st :
  keeps st (onRespond request behavior st).
Proof.
  unfold onRespond. cbv zeta. intros [H _].
  apply (sendPermissionResponse_steady (request_id request) behavior) in H.
  revert H.
  generalize (sendPermissionResponse (request_id request) behavior st).
  clear st. intros st H.
  apply banner_removed_neat in H.
  apply showLoader_steady with (message := "Running " +:+ tool_name request +:+ "...") in H.
  apply neat_tidy; [exact H | discriminate].
Qed.

Lemma dismissBanner_keeps st : keeps st (dismissBanner st).
Proof.
  unfold dismissBanner. intros H.
  destruct (permissionBanner (vars st)) as [banner |] eqn:Eb; [| exact H].
  cbv zeta. destruct H as [H _].
  apply banner_removed_neat in H. rewrite Eb in H.
  apply neat_tidy; [exact H | discriminate].
Qed.

Create HintDb keeps.

#[local] Hint Resolve onRespond_keeps dismissBanner_keeps : keeps.

(** A composition of steps that keep the container tidy. *)
Ltac keeps :=
  cbv beta iota zeta;
  lazymatch goal with
  | |- keeps ?st ?st => apply keeps_refl
  | |- keeps _ (match ?x with _ => _ end) => destruct x eqn:?; keeps
  | |- keeps _ (?f ?x) =>
      apply (keeps_trans _ x);
      [ keeps
      | first [ solve [auto with keeps]
              | apply steady_keeps; solve [auto with steady]
              | apply steady_keeps; steady_setter ] ]
  | |- keeps _ _ => assumption
  end.

Lemma cleanup_steady st : steady st (cleanup st).
Proof. unfold cleanup, dispose. steady. Qed.

Lemma renderMcpStatus_steady servers st :
  steady st (renderMcpStatus servers st).
Proof. unfold renderMcpStatus. steady. Qed.

Lemma clearConversation_steady st : steady st (clearConversation st).
Proof.
  unfold clearConversation. cbv zeta.
  eapply steady_trans; [| apply insertSpacer_steady].
  assert (H : Forall (fun c => fixed c = false)
                (List.filter
                   (fun c => negb (same c StatusBarC || same c HeaderC
                                   || same c EditorC))
                   (children (tui st)))).
  { apply List.Forall_forall. intros c Hc.
    apply List.filter_In in Hc as [_ Hc]. now destruct c. }
  revert H. generalize (List.filter
                          (fun c => negb (same c StatusBarC || same c HeaderC
                                          || same c EditorC))
                          (children (tui st))).
  intros l H. revert st. induction H as [| c l Hc _ IH]; intros st.
  - apply steady_refl.
  - cbn [fold_left]. eapply steady_trans; [| apply IH].
    now apply removeChild_steady.
Qed.

#[local] Hint Resolve cleanup_steady renderMcpStatus_steady
  clearConversation_steady : steady.

Section WithRuntime.

Context (rt : Runtime).

Lemma showStatus_steady st : steady st (showStatus rt st).
Proof. unfold showStatus. steady. Qed.

Lemma showHelp_steady st : steady st (showHelp st).
Proof. unfold showHelp. steady. Qed.

Lemma showMcp_steady st : steady st (showMcp st).
Proof. unfold showMcp. steady. Qed.

(** A picker is put before the editor and gets the focus. *)
Lemma show_picker_keeps (picker : Picker) (st : State) :
  keeps st
    (let '(list, st) := new_SelectList picker st in
     let st := insertBeforeEditor list st in
     setFocus list st).
Proof.
  unfold new_SelectList, alloc. cbv beta iota zeta. intros [H _].
  apply neat_tidy; [| discriminate].
  apply (insert_new_neat (SelectList (nextId (tui st)) picker) st
           (set_nextId (S (nextId (tui st))) st)) in H;
    try reflexivity.
  exact H.
Qed.

Lemma showModelPicker_keeps arg st : keeps st (showModelPicker arg st).
Proof.
  unfold showModelPicker. destruct arg; [| apply show_picker_keeps].
  apply steady_keeps. steady.
Qed.

Lemma showModePicker_keeps arg st : keeps st (showModePicker arg st).
Proof.
  unfold showModePicker. destruct arg; [| apply show_picker_keeps].
  apply steady_keeps. steady.
Qed.

Lemma handleSlashCommand_keeps cmd st :
  keeps st (snd (handleSlashCommand rt cmd st)).
Proof.
  unfold handleSlashCommand. cbv zeta.
  repeat match goal with
         | |- context [if ?b then _ else _] => destruct b
         end; cbn [snd];
    first [ apply keeps_refl
          | apply showModelPicker_keeps
          | apply showModePicker_keeps
          | apply steady_keeps; solve [auto with steady]
          | apply steady_keeps, showStatus_steady
          | apply steady_keeps, showHelp_steady
          | apply steady_keeps, showMcp_steady ].
Qed.

Lemma mcpAction_steady trimmed st st' :
  mcpAction rt trimmed st = Some st' -> steady st st'.
Proof.
  unfold mcpAction. cbv zeta. intros H.
  repeat match type of H with
         | context [match ?x with _ => _ end] => destruct x eqn:?
         end; try discriminate H;
    injection H as <-; steady.
Qed.

Lemma onSubmit_keeps text st : keeps st (onSubmit rt text st).
Proof.
  unfold onSubmit. cbv zeta.
  destruct (negb (truthy (trim rt text))); [apply keeps_refl |].
  assert (H : keeps st
                (snd (if String.prefix "/" (trim rt text)
                      then handleSlashCommand rt (trim rt text) st
                      else (false, st)))).
  { destruct (String.prefix "/" (trim rt text));
      [apply handleSlashCommand_keeps | apply keeps_refl]. }
  destruct (if String.prefix "/" (trim rt text)
            then handleSlashCommand rt (trim rt text) st
            else (false, st)) as [handled st1].
  cbn [snd] in H. destruct handled; [exact H |].
  eapply keeps_trans; [exact H |]. apply steady_keeps.
  destruct (mcpAction rt (trim rt text) st1) as [st2 |] eqn:E.
  - apply (mcpAction_steady _ _ _ E).
  - steady.
Qed.

Lemma onSelect_keeps id picker value st :
  keeps st (onSelect (SelectList id picker) picker value st).
Proof.
  unfold onSelect. cbv zeta. intros [H _].
  apply (removeChild_steady (SelectList id picker) st eq_refl) in H.
  assert (Ht : tidy (setFocus EditorC
                       (removeChild (SelectList id picker) st)))
    by (apply neat_tidy; [exact H | discriminate]).
  revert Ht. generalize (setFocus EditorC
                           (removeChild (SelectList id picker) st)).
  clear. intros st. apply steady_keeps. destruct picker; steady.
Qed.

Lemma onCancel_keeps id picker st :
  keeps st (onCancel (SelectList id picker) st).
Proof.
  unfold onCancel. cbv zeta. intros [H _].
  apply (removeChild_steady (SelectList id picker) st eq_refl) in H.
  apply neat_tidy; [exact H | discriminate].
Qed.

(** A request puts a new banner before the editor, keeps it in
    [permissionBanner] and gives it the focus. *)
Lemma permission_request_keeps request st :
  keeps st
    (let st := removeLoader st in
     let '(banner, st) := new_PermissionBanner request st in
     let st := set_permissionBanner (Some banner) st in
     let st := insertBeforeEditor banner st in
     setFocus banner st).
Proof.
  cbv zeta. intros [H _]. apply removeLoader_steady in H. revert H.
  generalize (removeLoader st). clear st. intros st H.
  unfold new_PermissionBanner, alloc. cbv beta iota zeta.
  set (banner := PermissionBanner (nextId (tui st)) request).
  assert (Hn : neat (insertBeforeEditor banner
                       (set_nextId (S (nextId (tui st))) st))).
  { apply (insert_new_neat banner st); try reflexivity. exact H. }
  unfold insertBeforeEditor, addChild in *.
  change (children (tui (set_permissionBanner (Some banner)
                           (set_nextId (S (nextId (tui st))) st))))
    with (children (tui st)).
  change (children (tui (set_nextId (S (nextId (tui st))) st)))
    with (children (tui st)) in Hn.
  destruct (indexOf (children (tui st)) EditorC) as [idx |];
    destruct Hn as [Hl _];
    (split;
     [ split; [exact Hl |];
       intros b Hb; cbn in Hb; injection Hb as <-; split; [reflexivity |];
       cbn; lia
     | intros id r Hf; cbn in Hf; injection Hf as <- <-; reflexivity ]).
Qed.

Lemma handleMessage_flat_keeps (msg : ServerMessage) (st : State) :
  nested msg = false -> keeps st (handleMessage rt msg st).
Proof.
  intros Hn.
  destruct msg; try discriminate Hn; cbn [handleMessage];
    try (apply steady_keeps; steady).
  - (* stream_event *)
    apply steady_keeps.
    destruct event as [| index [text | |] | | | |]; try steady.
    pose proof (ensureStreamingMd_steady st) as H.
    destruct (ensureStreamingMd st) as [md st1]. cbn [snd] in H. steady.
  - (* result *)
    keeps.
  - (* permission_request *)
    apply permission_request_keeps.
  - (* permission_cancelled *)
    apply dismissBanner_keeps.
Qed.

Lemma handleMessage_keeps (msg : ServerMessage) (st : State) :
  keeps st (handleMessage rt msg st).
Proof.
  apply (handleMessage_preserves rt keeps).
  - apply keeps_refl.
  - apply keeps_trans.
  - intros m s Hn. now apply handleMessage_flat_keeps.
Qed.

Lemma inputListener_steady data now st :
  steady st (snd (inputListener data now st))
  /\ (fst (inputListener data now st) = false ->
      snd (inputListener data now st) = st).
Proof.
  unfold inputListener.
  repeat match goal with
         | |- context [if ?b then _ else _] => destruct b
         end; cbn [fst snd];
    (split; [first [apply steady_refl | steady]
            | first [reflexivity | discriminate]]).
Qed.

Lemma dispatch_keeps (ev : Event) (st : State) : keeps st (dispatch rt ev st).
Proof.
  unfold dispatch. destruct (exited (vars st)); [apply keeps_refl |].
  destruct ev as [| data | | | | data now | text | value |].
  - (* WsOpen *)
    unfold ws_on_open, onStatusChange.
    destruct (ws (client st)) as [[] |]; try apply keeps_refl.
    apply steady_keeps.
    eapply steady_trans; [| apply send_steady]. steady.
  - (* WsMessage *)
    destruct (ws (client st)) as [[] |]; try apply keeps_refl.
    unfold ws_on_message.
    destruct (JSON_parse rt data) as [msg |]; [| apply keeps_refl].
    eapply keeps_trans; [| apply handleMessage_keeps].
    destruct (seq_of msg); [intros H; exact H | apply keeps_refl].
  - (* WsClose *)
    apply steady_keeps. unfold ws_on_close, onStatusChange, scheduleReconnect.
    destruct (ws (client st)); steady.
  - (* ReconnectTimer *)
    apply steady_keeps. unfold connect, onStatusChange.
    destruct (reconnectTimer (client st)); steady.
  - (* McpTimer *)
    apply steady_keeps. destruct (mcpTimers (vars st)); steady.
  - (* Input *)
    unfold handleInput.
    destruct (inputListener_steady data now st) as [Hl Hs].
    destruct (inputListener data now st) as [consume st1].
    cbn [fst snd] in Hl, Hs. destruct consume; [apply steady_keeps, Hl |].
    rewrite (Hs eq_refl).
    destruct (focus (tui st)) as [[| | | | | | | id request |] |];
      try apply keeps_refl.
    unfold PermissionBanner_handleInput.
    repeat match goal with
           | |- context [if ?b then _ else _] => destruct b
           end; first [apply keeps_refl | apply onRespond_keeps].
  - (* EditorSubmit *)
    destruct (focus (tui st)) as [[] |]; try apply keeps_refl.
    apply onSubmit_keeps.
  - (* ListSelect *)
    destruct (focus (tui st)) as [[] |]; try apply keeps_refl.
    apply onSelect_keeps.
  - (* ListCancel *)
    destruct (focus (tui st)) as [[] |]; try apply keeps_refl.
    apply onCancel_keeps.
Qed.

Lemma run_keeps (evs : list Event) (st : State) : keeps st (run rt evs st).
Proof.
  revert st. induction evs as [| ev evs IH]; intros st; [apply keeps_refl |].
  rewrite run_cons. eapply keeps_trans; [apply dispatch_keeps | apply IH].
Qed.

Lemma start_tidy (clientId sessionId8 : string) (gitBranch : option string) :
  tidy (start clientId sessionId8 gitBranch).
Proof.
  split; [split |].
  - exists [Spacer 0]. split; [reflexivity |]. split.
    + constructor; [split; [reflexivity | cbn; lia] | constructor].
    + cbn. apply NoDup_singleton.
  - intros b Hb. discriminate Hb.
  - intros id request H. discriminate H.
Qed.

(** X9.  In every state that the client reaches, the container has the
    status bar first, the header second and the editor last, and each of the
    three once; what is between them are components created with [new], no
    two of them the same object.  The variable [permissionBanner] holds a
    banner or nothing, and a banner that has the focus is the one that
    [permissionBanner] holds. *)
Theorem container_is_laid_out (clientId sessionId8 : string)
    (gitBranch : option string) (evs : list Event) :
  let st := run rt evs (start clientId sessionId8 gitBranch) in
  (exists middle,
     children (tui st) = StatusBarC :: HeaderC :: middle ++ [EditorC]
     /\ Forall (fun c => fixed c = false) middle
     /\ (forall i j a b,
           middle !! i = Some a -> middle !! j = Some b -> i <> j ->
           same a b = false))
  /\ (forall b, permissionBanner (vars st) = Some b ->
        exists id request, b = PermissionBanner id request)
  /\ (forall id request,
        focus (tui st) = Some (PermissionBanner id request) ->
        permissionBanner (vars st) = Some (PermissionBanner id request)).
Proof.
  cbn zeta.
  pose proof (run_keeps evs _ (start_tidy clientId sessionId8 gitBranch))
    as (((middle & Hc & Hm & Hn) & Hv) & Hf).
  split; [| split; [| exact Hf]].
  - exists middle. split; [exact Hc |]. split.
    + eapply List.Forall_impl; [| exact Hm]. now intros c [? _].
    + intros i j a b Ha Hb Hij.
      destruct (same a b) eqn:E; [| reflexivity].
      exfalso. apply Hij. apply same_key in E.
      apply (proj1 (NoDup_alt _) Hn i j (class_of a, id_of a)).
      * rewrite list_lookup_fmap, Ha. reflexivity.
      * rewrite list_lookup_fmap, Hb, E. reflexivity.
  - intros b Hb. destruct (Hv b Hb) as [Hk _].
    destruct b; try discriminate Hk. eauto.
Qed.

Lemma answer_shows_loader (now : Z) (id : nat) (request : PermissionRequest)
    (data : Key) (st : State) :
  exited (vars st) = false ->
  focus (tui st) = Some (PermissionBanner id request) ->
  data = Y \/ data = Enter \/ data = N \/ data = A ->
  loader (vars (dispatch rt (Input data now) st)) = Some (nextId (tui st)).
Proof.
  intros He Hf Hk. unfold dispatch. rewrite He.
  unfold handleInput, inputListener.
  destruct Hk as [-> | [-> | [-> | ->]]];
    cbn [matchesKey String.eqb Ascii.eqb Bool.eqb orb]; rewrite Hf;
    unfold PermissionBanner_handleInput;
    cbn [matchesKey String.eqb Ascii.eqb Bool.eqb orb];
    unfold_tui; cbn; destruct (ws (client st)) as [[] |]; cbn;
    break_match; reflexivity.
Qed.

(** X10.  When the user answers the prompt that has the focus, with [y],
    Enter, [n] or [a], the banner of the prompt leaves the screen: no
    component of the container is that banner afterwards.  In its place,
    directly before the editor, is the loader that [loader] holds; the
    editor has the focus and [permissionBanner] is empty. *)
Theorem answered_prompt_leaves_the_screen (clientId sessionId8 : string)
    (gitBranch : option string) (evs : list Event) (now : Z) (id : nat)
    (request : PermissionRequest) (data : Key) :
  let st := run rt evs (start clientId sessionId8 gitBranch) in
  exited (vars st) = false ->
  focus (tui st) = Some (PermissionBanner id request) ->
  data = Y \/ data = Enter \/ data = N \/ data = A ->
  let st' := dispatch rt (Input data now) st in
  (forall c, In c (children (tui st')) ->
             same c (PermissionBanner id request) = false)
  /\ (exists before l,
        children (tui st') = before ++ [Loader l; EditorC]
        /\ loader (vars st') = Some l)
  /\ focus (tui st') = Some EditorC
  /\ permissionBanner (vars st') = None.
Proof.
  cbn zeta. intros He Hf Hk.
  pose proof (run_keeps evs _ (start_tidy clientId sessionId8 gitBranch))
    as (((middle & Hc & Hm & Hn) & Hv) & Hfo).
  set (st := run rt evs (start clientId sessionId8 gitBranch)) in *.
  pose proof (Hfo id request Hf) as Hb.
  destruct (answer_removes_prompt rt now id request data _ st He Hf Hb Hk)
    as (Hf' & Hb' & Hc').
  pose proof (answer_shows_loader now id request data st He Hf Hk) as Hl'.
  cbn zeta in Hf', Hb', Hc'.
  assert (Hfix : Forall (fun c => fixed c = false)
                   (without (PermissionBanner id request) middle)).
  { apply List.Forall_forall. intros x Hx. apply without_in in Hx.
    now apply (proj1 (List.Forall_forall _ _) Hm x Hx). }
  assert (E : children (tui (dispatch rt (Input data now) st))
              = StatusBarC :: HeaderC
                :: (without (PermissionBanner id request) middle
                    ++ [Loader (nextId (tui st))]) ++ [EditorC]).
  { rewrite Hc'. unfold insertBeforeEditor, addChild, removeChild.
    rewrite <- (insert_laid_out _ (Loader (nextId (tui st))) Hfix).
    rewrite <- (without_app_fixed (PermissionBanner id request) middle eq_refl).
    rewrite <- Hc, <- indexOf_without.
    destruct (indexOf (children (tui st)) (PermissionBanner id request));
      cbn; destruct (indexOf _ EditorC); reflexivity. }
  split; [| split; [| split; [exact Hf' | exact Hb']]].
  - rewrite E. intros c [<- | [<- | Hin]]; [reflexivity | reflexivity |].
    apply in_app_or in Hin as [Hin | [<- | []]]; [| reflexivity].
    apply in_app_or in Hin as [Hin | [<- | []]]; [| reflexivity].
    now apply (proj2 (without_nodup _ _ Hn)).
  - exists (StatusBarC :: HeaderC
            :: without (PermissionBanner id request) middle),
      (nextId (tui st)).
    split; [| exact Hl']. rewrite E. cbn. now rewrite <- app_assoc.
Qed.

(** Removing the components between the header and the editor one after
    the other, first to last, leaves the three fixed components. *)
Lemma remove_all (middle : list Component) :
  Forall (fun c => fixed c = false) middle ->
  forall st,
    children (tui st) = StatusBarC :: HeaderC :: middle ++ [EditorC] ->
    let st' := fold_left (fun st c => removeChild c st) middle st in
    children (tui st') = [StatusBarC; HeaderC; EditorC]
    /\ nextId (tui st') = nextId (tui st)
    /\ vars st' = vars st
    /\ focus (tui st') = focus (tui st)
    /\ texts (tui st') = texts (tui st).
Proof.
  induction 1 as [| c middle Hc Hm IH]; intros st Hch; cbn zeta.
  - cbn. auto.
  - cbn [fold_left].
    assert (E : children (tui (removeChild c st))
                = StatusBarC :: HeaderC :: middle ++ [EditorC]).
    { unfold removeChild.
      pose proof (indexOf_without (children (tui st)) c) as Hw.
      rewrite Hch in Hw at 2.
      rewrite (without_app_fixed c (c :: middle) Hc) in Hw.
      cbn [without] in Hw. rewrite same_refl in Hw.
      destruct (indexOf (children (tui st)) c); cbn; congruence. }
    destruct (IH (removeChild c st) E) as (H1 & H2 & H3 & H4 & H5).
    cbn zeta in *. rewrite H1, H2, H3, H4, H5.
    unfold removeChild. destruct (indexOf (children (tui st)) c); auto.
Qed.

(** X11.  [/clear] in a state that the client reaches leaves the status bar,
    the header, one new spacer and the editor in the container.  It does not
    end a message that is being streamed, a running loader or a prompt:
    [streamingMd], [loader] and [permissionBanner] stay as they are.  So the
    text deltas of a message that follow a [/clear] go to the component that
    was removed and put nothing on the screen. *)
Theorem clear_leaves_an_empty_screen (clientId sessionId8 : string)
    (gitBranch : option string) (evs : list Event) :
  let st := run rt evs (start clientId sessionId8 gitBranch) in
  let st' := clearConversation st in
  children (tui st')
  = [StatusBarC; HeaderC; Spacer (nextId (tui st)); EditorC]
  /\ (streamingText (vars st'), streamingMd (vars st'), loader (vars st'),
      permissionBanner (vars st'))
     = (streamingText (vars st), streamingMd (vars st), loader (vars st),
        permissionBanner (vars st))
  /\ (forall md index text s,
        streamingMd (vars st) = Some md ->
        let st'' :=
          handleMessage rt
            (stream_event (content_block_delta index (text_delta text)) s)
            st' in
        children (tui st'') = children (tui st')
        /\ texts (tui st'') !! md
           = Some (streamingText (vars st) +:+ text)).
Proof.
  cbn zeta.
  pose proof (run_keeps evs _ (start_tidy clientId sessionId8 gitBranch))
    as (((middle & Hc & Hm & Hn) & Hv) & Hfo).
  set (st := run rt evs (start clientId sessionId8 gitBranch)) in *.
  assert (Hfix : Forall (fun c => fixed c = false) middle).
  { eapply List.Forall_impl; [| exact Hm]. now intros c [? _]. }
  assert (Hfilter : List.filter
                      (fun c => negb (same c StatusBarC || same c HeaderC
                                      || same c EditorC))
                      (children (tui st)) = middle).
  { rewrite Hc. cbn [List.filter same orb negb].
    rewrite List.filter_app. cbn [List.filter same orb negb].
    rewrite app_nil_r. clear -Hfix.
    induction Hfix as [| c l Hc _ IH]; [reflexivity |].
    cbn [List.filter]. rewrite IH. now destruct c. }
  destruct (remove_all middle Hfix st Hc) as (H1 & H2 & H3 & H4 & H5).
  cbn zeta in *.
  unfold clearConversation. cbv zeta. rewrite Hfilter.
  set (st1 := fold_left (fun st c => removeChild c st) middle st) in *.
  assert (E : children (tui (insertSpacer st1))
              = [StatusBarC; HeaderC; Spacer (nextId (tui st)); EditorC]).
  { unfold insertSpacer, new_Spacer, alloc, insertBeforeEditor, addChild.
    cbv beta iota zeta. cbn. rewrite H1, H2. reflexivity. }
  assert (Ev : vars (insertSpacer st1) = vars st).
  { rewrite <- H3. unfold insertSpacer, new_Spacer, alloc, insertBeforeEditor,
      addChild. cbv beta iota zeta. cbn.
    destruct (indexOf (children (tui st1)) EditorC); reflexivity. }
  split; [exact E |]. split; [now rewrite Ev |].
  intros md index text s Hmd. cbn [handleMessage].
  clear E. revert Ev. generalize (insertSpacer st1). intros st2 Ev.
  unfold ensureStreamingMd. rewrite Ev, Hmd. cbn. rewrite Ev.
  split; [reflexivity | apply lookup_insert_eq].
Qed.

Lemma dismissBanner_focus (banner : Component) (st : State) :
  permissionBanner (vars st) = Some banner ->
  focus (tui (dismissBanner st)) = Some EditorC.
Proof. intros H. unfold dismissBanner. rewrite H. reflexivity. Qed.

Lemma result_focus (data : ResultData) (s : option Z) (banner : Component)
    (st : State) :
  permissionBanner (vars st) = Some banner ->
  focus (tui (handleMessage rt (result data s) st)) = Some EditorC.
Proof.
  intros Hb. cbn [handleMessage]. cbv zeta.
  set (st1 := set_locallyTriggered false
                (set_disableSubmit false
                   (set_isRunning false (removeLoader (finalizeStream st))))).
  assert (H1 : steady st st1) by (subst st1; steady).
  destruct H1 as (_ & _ & Hb1). rewrite Hb in Hb1.
  pose proof (dismissBanner_focus banner st1 Hb1) as Hf.
  revert Hf. generalize (dismissBanner st1). intros st2 Hf.
  match goal with
  | |- focus (tui ?x) = _ => assert (H2 : steady st2 x) by steady
  end.
  destruct H2 as (_ & -> & _). exact Hf.
Qed.

(** X12.  A prompt that loses the focus without an answer is lost.  When
    the prompt for a request has the focus and the server cancels a request
    (whichever: the identifier in the message is not compared), sends a
    result, or sends a different request, the prompt no longer has the focus
    afterwards, and no response to its request is sent from then on, whatever
    the user does, unless the server sends the request again. *)
Theorem unanswered_prompt_is_lost (clientId sessionId8 : string)
    (gitBranch : option string) (evs later : list Event) (id : nat)
    (request : PermissionRequest) (msg : ServerMessage) :
  let st := run rt evs (start clientId sessionId8 gitBranch) in
  focus (tui st) = Some (PermissionBanner id request) ->
  match msg with
  | permission_cancelled _ _ | result _ _ => True
  | permission_request request' _ =>
      request_id request' <> request_id request
  | _ => False
  end ->
  shown rt (request_id request) later = 0 ->
  let st' := handleMessage rt msg st in
  prompting (request_id request) st' = 0
  /\ responses (request_id request)
       (sent (client (run rt later st')))
     <= responses (request_id request) (sent (client st)).
Proof.
  cbn zeta. intros Hf Hmsg Hlater.
  pose proof (run_keeps evs _ (start_tidy clientId sessionId8 gitBranch))
    as (_ & Hfo).
  set (st := run rt evs (start clientId sessionId8 gitBranch)) in *.
  pose proof (Hfo id request Hf) as Hb.
  assert (Hp : prompting (request_id request) (handleMessage rt msg st) = 0).
  { unfold prompting. destruct msg; try contradiction.
    - rewrite (result_focus _ _ _ st Hb). reflexivity.
    - cbn [handleMessage]. unfold new_PermissionBanner, alloc. cbn.
      apply String.eqb_neq in Hmsg. now rewrite Hmsg.
    - cbn [handleMessage]. rewrite (dismissBanner_focus _ st Hb).
      reflexivity. }
  split; [exact Hp |].
  pose proof (run_answered_or_prompting rt (request_id request) later
                (handleMessage rt msg st)) as H.
  unfold answered_or_prompting in H.
  rewrite Hp, Hlater, handleMessage_client in H. lia.
Qed.

End WithRuntime.

End Container.

(** The prompt for the request [req-1] is answered with [n]. *)
Lemma answered_prompt_example :
  let st :=
    run Sample.runtime [WsOpen; WsMessage Sample.frame_permission]
      (start "tui-1" "0a1b2c3d" None) in
  let st' := dispatch Sample.runtime (Input N 10) st in
  (exited (vars st) = false
   /\ focus (tui st) = Some (PermissionBanner 1 Sample.request_1))
  /\ (forall c, In c (children (tui st')) ->
                same c (PermissionBanner 1 Sample.request_1) = false)
  /\ (exists before l,
        children (tui st') = (before ++ [Loader l; EditorC])%list
        /\ loader (vars st') = Some l)
  /\ focus (tui st') = Some EditorC
  /\ permissionBanner (vars st') = None.
Proof.
  cbn zeta. split; [split; reflexivity |].
  apply (answered_prompt_leaves_the_screen Sample.runtime "tui-1" "0a1b2c3d"
           None [WsOpen; WsMessage Sample.frame_permission] 10 1
           Sample.request_1 N).
  - reflexivity.
  - reflexivity.
  - right. right. left. reflexivity.
Defined.

(** The server cancels some other request while the prompt for [req-1] has
    the focus: the keys that follow answer nothing. *)
Lemma unanswered_prompt_example :
  let st :=
    run Sample.runtime [WsOpen; WsMessage Sample.frame_permission]
      (start "tui-1" "0a1b2c3d" None) in
  let later := [Input Y 10; Input N 20] in
  let st' := handleMessage Sample.runtime (permission_cancelled "req-0" None) st in
  (focus (tui st) = Some (PermissionBanner 1 Sample.request_1)
   /\ shown Sample.runtime (request_id Sample.request_1) later = 0)
  /\ prompting (request_id Sample.request_1) st' = 0
  /\ responses (request_id Sample.request_1)
       (sent (client (run Sample.runtime later st')))
     <= responses (request_id Sample.request_1) (sent (client st)).
Proof.
  cbn zeta. split; [split; reflexivity |].
  apply (unanswered_prompt_is_lost Sample.runtime "tui-1" "0a1b2c3d" None
           [WsOpen; WsMessage Sample.frame_permission]
           [Input Y 10; Input N 20] 1 Sample.request_1
           (permission_cancelled "req-0" None)).
  - reflexivity.
  - exact I.
  - reflexivity.
Defined.

(** * The NDJSON server *)

Section NdjsonApp.

Import NdjsonApp.

#[local] Open Scope list_scope.

Context (rt : NdjsonApp.Runtime).

Lemma silent_refl (st : State) : silent st st.
Proof. repeat split. Qed.

Lemma silent_trans (st1 st2 st3 : State) :
  silent st1 st2 -> silent st2 st3 -> silent st1 st3.
Proof.
  intros (A1 & A2 & A3 & A4 & A5) (B1 & B2 & B3 & B4 & B5).
  repeat split; congruence.
Qed.

(** A change of a field that is neither a socket nor what was written. *)
Ltac silent_setter :=
  match goal with
  | |- silent ?x _ => generalize x; intro; repeat split
  end.

Lemma removeChild_silent c st : silent st (removeChild c st).
Proof.
  unfold removeChild. destruct (indexOf (children st) c); repeat split.
Qed.

Lemma insertBeforeEditor_silent c st : silent st (insertBeforeEditor c st).
Proof.
  unfold insertBeforeEditor, addChild.
  destruct (indexOf (children st) EditorC); repeat split.
Qed.

Lemma setText_silent id text st : silent st (setText id text st).
Proof. repeat split. Qed.

Lemma finalizeStream_silent st : silent st (finalizeStream st).
Proof. repeat split. Qed.

Create HintDb silent.

#[local] Hint Resolve removeChild_silent insertBeforeEditor_silent
  setText_silent finalizeStream_silent : silent.

(** A composition of silent steps, from the outside in. *)
Ltac silent :=
  cbv beta iota zeta;
  lazymatch goal with
  | |- silent ?st ?st => apply silent_refl
  | |- silent _ (match ?x with _ => _ end) => destruct x eqn:?; silent
  | |- silent _ (?f ?x) =>
      apply (silent_trans _ x);
      [ silent | first [ solve [auto with silent] | silent_setter ] ]
  | |- silent _ _ => assumption
  end.

Lemma removeLoader_silent st : silent st (removeLoader st).
Proof. unfold removeLoader. silent. Qed.

Lemma insertText_silent text st : silent st (insertText text st).
Proof. unfold insertText, alloc. silent. Qed.

Lemma insertSpacer_silent st : silent st (insertSpacer st).
Proof. unfold insertSpacer, alloc. silent. Qed.

Lemma insertMarkdown_silent text st : silent st (insertMarkdown text st).
Proof. unfold insertMarkdown, alloc. silent. Qed.

Lemma showLoader_silent message st : silent st (showLoader message st).
Proof. unfold showLoader, alloc. silent. Qed.

#[local] Hint Resolve removeLoader_silent insertText_silent
  insertSpacer_silent insertMarkdown_silent showLoader_silent : silent.

Lemma ensureStreamingMd_silent st : silent st (snd (ensureStreamingMd st)).
Proof.
  unfold ensureStreamingMd, alloc.
  destruct (streamingMd st); cbn [snd]; silent.
Qed.

(** What [handleParsed] does behind [sendToBrowser]. *)
Lemma handleParsed_silent (msg : CLIMessage) (st : State) :
  silent (sendToBrowser msg st) (handleParsed rt msg st).
Proof.
  unfold handleParsed. cbv zeta.
  generalize (sendToBrowser msg st). clear st. intros st.
  destruct msg; unfold alloc; try silent.
  pose proof (ensureStreamingMd_silent st) as H.
  destruct (ensureStreamingMd st) as [md st1]. cbn [snd] in H.
  destruct (if String.eqb (event_type event) "content_block_delta"
            then _ else _); silent.
Qed.

(** Handling a parsed message writes it to the browser, if there is one
    with an open socket, and writes nothing else; it leaves the sockets. *)
Lemma handleParsed_sent (msg : CLIMessage) (st : State) :
  sent (handleParsed rt msg st)
  = sent st
    ++ match browser_socket st with
       | Some ws => [(ws, to_browser msg)]
       | None => []
       end
  /\ browser_socket (handleParsed rt msg st) = browser_socket st
  /\ exited (handleParsed rt msg st) = exited st.
Proof.
  destruct (handleParsed_silent msg st) as (H1 & H2 & H3 & H4 & H5).
  assert (Hs : sent (sendToBrowser msg st)
               = sent st
                 ++ match browser_socket st with
                    | Some ws => [(ws, to_browser msg)]
                    | None => []
                    end
               /\ browserWs (sendToBrowser msg st) = browserWs st
               /\ readyState (sendToBrowser msg st) = readyState st
               /\ exited (sendToBrowser msg st) = exited st).
  { unfold sendToBrowser, browser_socket.
    destruct (browserWs st) as [ws |] eqn:Eb;
      [destruct (readyState st ws =? 1)%Z |]; cbn;
      rewrite ?app_nil_r, ?Eb; repeat split; reflexivity. }
  destruct Hs as (S1 & S2 & S3 & S4).
  unfold browser_socket at 2. rewrite H2, H4, H1, H5, S1, S2, S3, S4.
  repeat split; reflexivity.
Qed.

(** The body of the loop of [handleCliMessage]: it does not throw. *)
Lemma handleLine_state (line : string) (st : State) :
  NdjsonServer.handleLine (JSON_parse rt) (trim rt)
    (fun msg st => (handleParsed rt msg st, Normal tt)) line st
  = (match (if truthy (trim rt line)
            then JSON_parse rt (trim rt line) else None) with
     | Some msg => handleParsed rt msg st
     | None => st
     end, Normal tt).
Proof.
  unfold NdjsonServer.handleLine.
  destruct (truthy (trim rt line)); [| reflexivity].
  destruct (JSON_parse rt (trim rt line)); reflexivity.
Qed.

(** The loop of [handleCliMessage] over the lines. *)
Lemma lines_sent (lines : list string) (st : State) :
  let st' :=
    fst (for_of lines
           (NdjsonServer.handleLine (JSON_parse rt) (trim rt)
              (fun msg st => (handleParsed rt msg st, Normal tt))) st) in
  sent st'
  = sent st
    ++ match browser_socket st with
       | Some ws =>
           map (fun msg => (ws, to_browser msg))
             (omap (fun line =>
                      if truthy (trim rt line)
                      then JSON_parse rt (trim rt line) else None) lines)
       | None => []
       end
  /\ browser_socket st' = browser_socket st
  /\ exited st' = exited st.
Proof.
  revert st. induction lines as [| line lines IH]; intros st; cbn zeta.
  - cbn. destruct (browser_socket st); rewrite app_nil_r; auto.
  - cbn [for_of]. unfold bind. rewrite handleLine_state.
    change (omap ?f (line :: lines))
      with (match f line with
            | Some y => y :: omap f lines
            | None => omap f lines
            end).
    cbv beta.
    destruct (if truthy (trim rt line)
              then JSON_parse rt (trim rt line) else None) as [msg |];
      [| exact (IH st)].
    destruct (handleParsed_sent msg st) as (H1 & H2 & H3).
    destruct (IH (handleParsed rt msg st)) as (I1 & I2 & I3).
    cbn zeta in I1, I2, I3. rewrite I1, I2, I3, H1, H2, H3.
    destruct (browser_socket st); cbn; rewrite <- ?app_assoc; auto.
Qed.


(** X14.  The server keeps one socket for each role and does not compare
    sockets when one closes.  When any socket of a browser closes, also one
    that an earlier browser had, the server forgets the browser: chunks from
    the CLI are no longer forwarded, although the socket of the browser
    connected last is still open.  In the same way the close of any socket
    of a CLI makes the server drop the input of the user. *)
Theorem stale_close_disconnects (ws current : nat) (st : State) :
  exited st = false ->
  (browserWs st = Some current ->
   let st' := dispatch rt (WsClose ws browser) st in
   browserWs st' = None
   /\ (forall raw, sent (handleCliMessage rt raw st') = sent st'))
  /\ (cliWs st = Some current ->
      let st' := dispatch rt (WsClose ws cli) st in
      cliWs st' = None
      /\ (forall msg, sendToCli msg st' = st')).
Proof.
  intros He. split; intros Hc; cbn zeta; unfold dispatch; rewrite He.
  - split; [reflexivity |]. intros raw.
    unfold handleCliMessage, NdjsonServer.handleCliMessage.
    match goal with
    | |- sent (fst (for_of _ _ ?s)) = _ =>
        destruct (lines_sent (split_lines raw) s) as (H & _ & _)
    end.
    cbn zeta in H. rewrite H. apply app_nil_r.
  - unfold ws_close. cbv zeta.
    match goal with
    | |- cliWs (insertText _ ?s) = _ /\ _ =>
        destruct (insertText_silent "Claude Code disconnected" s)
          as (_ & _ & H & _)
    end.
    split; [exact H |]. intros msg. unfold sendToCli. now rewrite H.
Qed.

Lemma run_cons' (ev : Event) (evs : list Event) (st : State) :
  run rt (ev :: evs) st = run rt evs (dispatch rt ev st).
Proof. reflexivity. Qed.

(** Ctrl+C during a turn without a CLI. *)
Lemma ctrl_c_without_cli (n : nat) (st : State) :
  exited st = false ->
  isRunning st = true ->
  cliWs st = None ->
  let st' := run rt (repeat (Input Tui.CtrlC) n) st in
  exited st' = false /\ isRunning st' = true /\ sent st' = sent st.
Proof.
  revert st. induction n as [| n IH]; intros st He Hr Hc; cbn zeta.
  - cbn. auto.
  - cbn [repeat]. rewrite run_cons'.
    assert (E : dispatch rt (Input Tui.CtrlC) st = set_uuid (S (uuid st)) st).
    { unfold dispatch. rewrite He. unfold handleInput, inputListener.
      cbn [Tui.matchesKey String.eqb Ascii.eqb Bool.eqb]. rewrite Hr.
      unfold sendToCli. cbn. rewrite Hc. reflexivity. }
    rewrite E. apply (IH (set_uuid (S (uuid st)) st)); assumption.
Qed.

(** X15.  Text that the user submits while no CLI is connected is not sent
    and not kept, but it is shown as sent and the turn counts as running:
    the editor is disabled, and from then on Ctrl+C does not end the
    server, however often it is pressed; each Ctrl+C is an interrupt for the
    CLI, which is dropped like the text.  (Only a [result] ends such a
    turn.) *)
Theorem input_without_cli_is_dropped (text : string) (st : State) :
  exited st = false ->
  focus st = Some EditorC ->
  isRunning st = false ->
  truthy (trim rt text) = true ->
  cliWs st = None ->
  let st1 := dispatch rt (EditorSubmit text) st in
  sent st1 = sent st
  /\ isRunning st1 = true
  /\ disableSubmit st1 = true
  /\ texts st1 !! nextId st = Some ("You: " +:+ trim rt text)
  /\ (forall n,
        let st2 := run rt (repeat (Input Tui.CtrlC) n) st1 in
        exited st2 = false /\ isRunning st2 = true /\ sent st2 = sent st).
Proof.
  intros He Hf Hr Ht Hc. cbn zeta.
  unfold dispatch. rewrite He, Hf. unfold onSubmit. rewrite Ht, Hr.
  cbn [negb orb]. cbv zeta.
  assert (E0 : sendToCli (user_input (JsStr (trim rt text)) (sessionId st)) st
               = st).
  { unfold sendToCli. now rewrite Hc. }
  rewrite E0.
  set (st1 := showLoader "Thinking..."
                (set_disableSubmit true
                   (set_isRunning true
                      (insertMarkdown ("You: " +:+ trim rt text) st)))).
  assert (Hs : silent st st1).
  { subst st1. silent. }
  destruct Hs as (S1 & S2 & S3 & S4 & S5).
  assert (Hrun : isRunning st1 = true /\ disableSubmit st1 = true
                 /\ texts st1 !! nextId st = Some ("You: " +:+ trim rt text)).
  { subst st1. unfold showLoader, insertMarkdown, alloc, insertBeforeEditor,
      addChild, setText. cbn.
    destruct (indexOf (children st) EditorC); cbn;
      destruct (indexOf _ EditorC); cbn;
      (repeat split;
       rewrite lookup_insert_ne by lia; apply lookup_insert_eq). }
  destruct Hrun as (R1 & R2 & R3).
  split; [exact S1 |]. split; [exact R1 |]. split; [exact R2 |].
  split; [exact R3 |].
  intros n. rewrite <- S1. apply ctrl_c_without_cli; congruence.
Qed.

Lemma split_lines_cons (s : string) : exists line lines, split_lines s = line :: lines.
Proof.
  destruct s as [| c s]; [cbn; eauto |]. cbn.
  destruct (Ascii.eqb c "010"%char); [eauto |].
  destruct (split_lines s); eauto.
Qed.

(** The lines of two chunks that are joined by a newline. *)
Lemma split_lines_join (a b : string) :
  split_lines (a +:+ String "010"%char b) = split_lines a ++ split_lines b.
Proof.
  induction a as [| c a IH].
  - change ("" +:+ String "010"%char b) with (String "010"%char b).
    reflexivity.
  - change (String c a +:+ String "010"%char b)
      with (String c (a +:+ String "010"%char b)).
    cbn [split_lines]. rewrite IH.
    destruct (Ascii.eqb c "010"%char); [reflexivity |].
    destruct (split_lines_cons a) as (line & lines & ->). reflexivity.
Qed.

Lemma lines_return (lines : list string) (st : State) :
  snd (for_of lines
         (NdjsonServer.handleLine (JSON_parse rt) (trim rt)
            (fun msg st => (handleParsed rt msg st, Normal tt))) st)
  = Normal tt.
Proof.
  revert st. induction lines as [| line lines IH]; intros st; [reflexivity |].
  cbn [for_of]. unfold bind. rewrite handleLine_state. apply IH.
Qed.


End NdjsonApp.

(** Two browsers connect, and the first one closes. *)
Lemma stale_close_example :
  let st :=
    NdjsonApp.run NdjsonSample.runtime
      [NdjsonApp.WsOpen 1 NdjsonApp.browser;
       NdjsonApp.WsOpen 2 NdjsonApp.browser] NdjsonApp.initial in
  (NdjsonApp.exited st = false
   /\ NdjsonApp.browserWs st = Some 2
   /\ NdjsonApp.readyState st 2 = 1%Z)
  /\ ((NdjsonApp.browserWs st = Some 2 ->
       let st' :=
         NdjsonApp.dispatch NdjsonSample.runtime
           (NdjsonApp.WsClose 1 NdjsonApp.browser) st in
       NdjsonApp.browserWs st' = None
       /\ (forall raw,
             NdjsonApp.sent
               (NdjsonApp.handleCliMessage NdjsonSample.runtime raw st')
             = NdjsonApp.sent st'))
      /\ (NdjsonApp.cliWs st = Some 2 ->
          let st' :=
            NdjsonApp.dispatch NdjsonSample.runtime
              (NdjsonApp.WsClose 1 NdjsonApp.cli) st in
          NdjsonApp.cliWs st' = None
          /\ (forall msg, NdjsonApp.sendToCli msg st' = st'))).
Proof.
  cbn zeta. split; [repeat split |].
  apply (stale_close_disconnects NdjsonSample.runtime 1 2). reflexivity.
Defined.

(** A text is submitted before the CLI has connected. *)
Lemma input_without_cli_example :
  let st := NdjsonApp.initial in
  let st1 :=
    NdjsonApp.dispatch NdjsonSample.runtime
      (NdjsonApp.EditorSubmit " hello ") st in
  (NdjsonApp.exited st = false
   /\ NdjsonApp.focus st = Some NdjsonApp.EditorC
   /\ NdjsonApp.isRunning st = false
   /\ truthy (NdjsonApp.trim NdjsonSample.runtime " hello ") = true
   /\ NdjsonApp.cliWs st = None)
  /\ NdjsonApp.sent st1 = NdjsonApp.sent st
  /\ NdjsonApp.isRunning st1 = true
  /\ NdjsonApp.disableSubmit st1 = true
  /\ NdjsonApp.texts st1 !! NdjsonApp.nextId st
     = Some ("You: " +:+ NdjsonApp.trim NdjsonSample.runtime " hello ")
  /\ (forall n,
        let st2 :=
          NdjsonApp.run NdjsonSample.runtime
            (repeat (NdjsonApp.Input Tui.CtrlC) n) st1 in
        NdjsonApp.exited st2 = false
        /\ NdjsonApp.isRunning st2 = true
        /\ NdjsonApp.sent st2 = NdjsonApp.sent st).
Proof.
  cbn zeta. split; [repeat split |].
  apply (input_without_cli_is_dropped NdjsonSample.runtime " hello "
           NdjsonApp.initial); reflexivity.
Defined.

(** * The body of [sdkLoop] *)

Section SdkLoop.

Import SdkBridge SdkLoop.

#[local] Open Scope list_scope.

Context {World : Type}.
Context (String_ : JsValue -> string).
Context (bus : EventBus World).

Lemma emit_returns (event : SDKMessage) (r : Run World) :
  snd (emit bus event r) = Normal tt.
Proof. unfold emit. now rewrite emit_loop. Qed.

Lemma for_of_emit_returns (events : list SDKMessage) (r : Run World) :
  snd (for_of events (emit bus) r) = Normal tt.
Proof.
  revert r. induction events as [| e events IH]; intros r; [reflexivity |].
  cbn [for_of]. unfold bind.
  pose proof (emit_returns e r) as He.
  destruct (emit bus e r) as [r1 c]. cbn [snd] in He. subst c. apply IH.
Qed.

(** The stream up to its first result. *)
Lemma receive_loop_result (before after : list SDKMessage)
    (res : SDKMessage) (stream_error : option JsValue) (r : Run World) :
  Forall (fun msg => String.eqb (type msg) "result" = false) before ->
  String.eqb (type res) "result" = true ->
  receive_loop bus (before ++ res :: after) stream_error r
  = for_of (before ++ [res]) (emit bus) r.
Proof.
  intros Hb Hres. revert r.
  induction Hb as [| msg before Hmsg _ IH]; intros r.
  - cbn [app receive_loop for_of]. unfold bind.
    pose proof (emit_returns res r) as He.
    destruct (emit bus res r) as [r1 c]. cbn [snd] in He. subst c.
    rewrite Hres. reflexivity.
  - cbn [app receive_loop for_of]. unfold bind.
    pose proof (emit_returns msg r) as He.
    destruct (emit bus msg r) as [r1 c]. cbn [snd] in He. subst c.
    rewrite Hmsg. apply IH.
Qed.

(** A stream without a result. *)
Lemma receive_loop_end (stream : list SDKMessage)
    (stream_error : option JsValue) (r : Run World) :
  Forall (fun msg => String.eqb (type msg) "result" = false) stream ->
  receive_loop bus stream stream_error r
  = (fst (for_of stream (emit bus) r),
     match stream_error with
     | Some err => Throw err
     | None => Normal tt
     end).
Proof.
  intros Hs. revert r. induction Hs as [| msg stream Hmsg _ IH]; intros r.
  - cbn. destruct stream_error; reflexivity.
  - cbn [receive_loop for_of]. unfold bind.
    pose proof (emit_returns msg r) as He.
    destruct (emit bus msg r) as [r1 c]. cbn [snd] in He. subst c.
    rewrite Hmsg. apply IH.
Qed.

Lemma first_result (stream : list SDKMessage) :
  Forall (fun msg => String.eqb (type msg) "result" = false) stream
  \/ exists before res after,
       stream = before ++ res :: after
       /\ Forall (fun msg => String.eqb (type msg) "result" = false) before
       /\ String.eqb (type res) "result" = true.
Proof.
  induction stream as [| msg stream IH]; [left; constructor |].
  destruct (String.eqb (type msg) "result") eqn:E.
  - right. exists [], msg, stream. repeat split; [constructor | exact E].
  - destruct IH as [IH | (before & res & after & -> & Hb & Hr)].
    + left. now constructor.
    + right. exists (msg :: before), res, after.
      repeat split; [now constructor | exact Hr].
Qed.

(** X17.  One turn of [sdkLoop].  The body of the loop never throws, so the
    loop goes on to the next user message whatever the SDK client does.
    When [client.send] throws, exactly one event is emitted, the error.
    Otherwise the messages of the stream are emitted in order up to the first
    result, which is emitted too; what the stream holds behind it is not
    emitted.  A stream without a result is emitted whole, followed by the
    error event if the stream throws in the end. *)
Theorem sdkLoop_turn (t : Turn) (r : Run World) :
  snd (sdkLoop_body String_ bus t r) = Normal tt
  /\ (forall err,
        send_error t = Some err ->
        sdkLoop_body String_ bus t r = emit bus (error_event String_ err) r)
  /\ (forall before res after,
        send_error t = None ->
        stream t = before ++ res :: after ->
        Forall (fun msg => String.eqb (type msg) "result" = false) before ->
        String.eqb (type res) "result" = true ->
        sdkLoop_body String_ bus t r = for_of (before ++ [res]) (emit bus) r)
  /\ (send_error t = None ->
      Forall (fun msg => String.eqb (type msg) "result" = false) (stream t) ->
      sdkLoop_body String_ bus t r
      = for_of
          (stream t
           ++ match stream_error t with
              | Some err => [error_event String_ err]
              | None => []
              end)
          (emit bus) r).
Proof.
  assert (Hsend : forall err,
            send_error t = Some err ->
            sdkLoop_body String_ bus t r
            = emit bus (error_event String_ err) r).
  { intros err H. unfold sdkLoop_body, try_catch, bind. rewrite H.
    reflexivity. }
  assert (Hres : forall before res after,
            send_error t = None ->
            stream t = before ++ res :: after ->
            Forall (fun msg => String.eqb (type msg) "result" = false)
              before ->
            String.eqb (type res) "result" = true ->
            sdkLoop_body String_ bus t r
            = for_of (before ++ [res]) (emit bus) r).
  { intros before res after H Hs Hb Hr.
    unfold sdkLoop_body, try_catch, bind. rewrite H, Hs. cbn [ret].
    rewrite (receive_loop_result before after res _ r Hb Hr).
    pose proof (for_of_emit_returns (before ++ [res]) r) as He.
    destruct (for_of (before ++ [res]) (emit bus) r) as [r1 c].
    cbn [snd] in He. subst c. reflexivity. }
  assert (Hend : send_error t = None ->
            Forall (fun msg => String.eqb (type msg) "result" = false)
              (stream t) ->
            sdkLoop_body String_ bus t r
            = for_of
                (stream t
                 ++ match stream_error t with
                    | Some err => [error_event String_ err]
                    | None => []
                    end)
                (emit bus) r).
  { intros H Hs.
    unfold sdkLoop_body, try_catch, bind. rewrite H. cbn [ret].
    rewrite (receive_loop_end (stream t) (stream_error t) r Hs).
    rewrite for_of_app. unfold bind.
    pose proof (for_of_emit_returns (stream t) r) as He.
    destruct (for_of (stream t) (emit bus) r) as [r1 c].
    cbn [fst snd] in *. subst c.
    destruct (stream_error t) as [err |].
    - cbn [for_of]. unfold bind.
      pose proof (emit_returns (error_event String_ err) r1) as He.
      destruct (emit bus (error_event String_ err) r1) as [r2 c].
      cbn [snd] in He. subst c. reflexivity.
    - reflexivity. }
  split; [| split; [exact Hsend | split; [exact Hres | exact Hend]]].
  destruct (send_error t) as [err |] eqn:Es.
  - rewrite (Hsend err eq_refl). apply emit_returns.
  - destruct (first_result (stream t))
      as [Hs | (before & res & after & E & Hb & Hr)].
    + rewrite (Hend eq_refl Hs). apply for_of_emit_returns.
    + rewrite (Hres before res after eq_refl E Hb Hr).
      apply for_of_emit_returns.
Qed.

End SdkLoop.

(** * Keys and commands of the terminal client *)

Section Keys.

#[local] Open Scope list_scope.

Context (rt : Runtime).


(** X19.  Text that is submitted while the socket is not open is not sent
    and not kept for later.  The client still shows it as sent and marks
    the turn as running: it disables the editor and shows the loader, and it
    ignores further text until a result or a change of status arrives. *)
Theorem text_without_socket_is_dropped (text : string) (st : State) :
  exited (vars st) = false ->
  focus (tui st) = Some EditorC ->
  isRunning (statusBar st) = false ->
  truthy (trim rt text) = true ->
  String.prefix "/" (trim rt text) = false ->
  match_mcp_action rt (trim rt text) = None ->
  ws (client st) <> Some OPEN ->
  let st' := dispatch rt (EditorSubmit text) st in
  sent (client st') = sent (client st)
  /\ isRunning (statusBar st') = true
  /\ disableSubmit (vars st') = true
  /\ texts (tui st') !! nextId (tui st) = Some ("You: " +:+ trim rt text)
  /\ loader (vars st') = Some (S (nextId (tui st)))
  /\ (forall text',
        String.prefix "/" (trim rt text') = false ->
        match_mcp_action rt (trim rt text') = None ->
        dispatch rt (EditorSubmit text') st' = st').
Proof.
  intros He Hf Hr Ht Hs Hm Hws. cbn zeta.
  assert (E : dispatch rt (EditorSubmit text) st
              = showLoader "Thinking..."
                  (set_disableSubmit true
                     (set_isRunning true
                        (insertMarkdown ("You: " +:+ trim rt text)
                           (sendUserMessage (trim rt text)
                              (set_locallyTriggered true st)))))).
  { unfold dispatch. rewrite He, Hf. unfold onSubmit, mcpAction.
    rewrite Ht, Hs, Hm, Hr. reflexivity. }
  rewrite E.
  assert (Hsend : sendUserMessage (trim rt text) (set_locallyTriggered true st)
                  = set_uuid (S (uuid (client st)))
                      (set_locallyTriggered true st)).
  { unfold sendUserMessage, randomUUID, send. cbn.
    destruct (ws (client st)) as [[] |]; try reflexivity. contradiction. }
  rewrite Hsend.
  set (st0 := set_uuid (S (uuid (client st))) (set_locallyTriggered true st)).
  assert (H0 : tui st0 = tui st /\ sent (client st0) = sent (client st))
    by (split; reflexivity).
  destruct H0 as [Ht0 Hs0].
  set (st1 := showLoader "Thinking..."
                (set_disableSubmit true
                   (set_isRunning true
                      (insertMarkdown ("You: " +:+ trim rt text) st0)))).
  assert (H1 : sent (client st1) = sent (client st)
               /\ isRunning (statusBar st1) = true
               /\ disableSubmit (vars st1) = true
               /\ texts (tui st1) !! nextId (tui st)
                  = Some ("You: " +:+ trim rt text)
               /\ loader (vars st1) = Some (S (nextId (tui st)))
               /\ exited (vars st1) = false).
  { subst st1. rewrite <- Hs0, <- Ht0.
    assert (Hex : exited (vars st0) = false) by exact He.
    revert Hex. generalize st0. clear. intros st Hex.
    unfold showLoader, insertMarkdown, new_Loader, new_Markdown, alloc,
      insertBeforeEditor, addChild, setText. cbn.
    destruct (indexOf (children (tui st)) EditorC); cbn;
      destruct (indexOf _ EditorC); cbn;
      (repeat split; try assumption;
       rewrite lookup_insert_ne by lia; apply lookup_insert_eq). }
  destruct H1 as (A1 & A2 & A3 & A4 & A5 & A6).
  repeat (split; [assumption |]).
  intros text' Hs' Hm'. unfold dispatch. rewrite A6.
  destruct (focus (tui st1)) as [[] |]; try reflexivity.
  now apply input_is_not_queued_while_running.
Qed.


End Keys.


(** A text is submitted before the socket is open. *)
Lemma text_without_socket_example :
  let st := start "tui-1" "0a1b2c3d" None in
  let st' := dispatch Sample.runtime (EditorSubmit "hello") st in
  (exited (vars st) = false
   /\ focus (tui st) = Some EditorC
   /\ isRunning (statusBar st) = false
   /\ truthy (trim Sample.runtime "hello") = true
   /\ String.prefix "/" (trim Sample.runtime "hello") = false
   /\ match_mcp_action Sample.runtime (trim Sample.runtime "hello") = None
   /\ ws (client st) <> Some OPEN)
  /\ sent (client st') = sent (client st)
  /\ isRunning (statusBar st') = true
  /\ disableSubmit (vars st') = true
  /\ texts (tui st') !! nextId (tui st)
     = Some ("You: " +:+ trim Sample.runtime "hello")
  /\ loader (vars st') = Some (S (nextId (tui st)))
  /\ (forall text',
        String.prefix "/" (trim Sample.runtime text') = false ->
        match_mcp_action Sample.runtime (trim Sample.runtime text') = None ->
        dispatch Sample.runtime (EditorSubmit text') st' = st').
Proof.
  cbn zeta.
  assert (H : ws (client (start "tui-1" "0a1b2c3d" None)) <> Some OPEN)
    by discriminate.
  split; [repeat split; exact H |].
  apply (text_without_socket_is_dropped Sample.runtime "hello"
           (start "tui-1" "0a1b2c3d" None)); try reflexivity.
  exact H.
Defined.


(** * The frames that the terminal client writes *)

Section Frames.

#[local] Open Scope list_scope.

Context (rt : Runtime).

Lemma quiet_refl (st : State) : quiet st st.
Proof. reflexivity. Qed.

Lemma quiet_trans (st1 st2 st3 : State) :
  quiet st1 st2 -> quiet st2 st3 -> quiet st1 st3.
Proof. unfold quiet. congruence. Qed.

Lemma quiet_of_client (st st' : State) : client st' = client st -> quiet st st'.
Proof. unfold quiet. now intros ->. Qed.

Lemma emits_of_quiet P (st st' : State) : quiet st st' -> emits P st st'.
Proof.
  intros H. exists []. rewrite app_nil_r. repeat split; [exact H | cbn; lia |].
  constructor.
Qed.

Lemma emits_quiet P (st1 st2 st3 : State) :
  emits P st1 st2 -> quiet st2 st3 -> emits P st1 st3.
Proof.
  intros (more & H & Hl & Hf) Hq. exists more. unfold quiet in Hq.
  rewrite Hq. auto.
Qed.

Lemma quiet_emits P (st1 st2 st3 : State) :
  quiet st1 st2 -> emits P st2 st3 -> emits P st1 st3.
Proof.
  intros Hq (more & H & Hl & Hf). exists more. unfold quiet in Hq.
  rewrite <- Hq. auto.
Qed.

Lemma send_emits (P : ClientMessage -> bool) msg st :
  P msg = true -> emits P st (send msg st).
Proof.
  intros H. unfold send. destruct (ws (client st)) as [[] |];
    try (apply emits_of_quiet, quiet_refl).
  exists [msg]. repeat split; [cbn; lia | now constructor].
Qed.

Lemma addChild_quiet c st : quiet st (addChild c st).
Proof. apply quiet_of_client, addChild_frame. Qed.
Lemma removeChild_quiet c st : quiet st (removeChild c st).
Proof. apply quiet_of_client, removeChild_frame. Qed.
Lemma insertBeforeEditor_quiet c st : quiet st (insertBeforeEditor c st).
Proof. apply quiet_of_client, insertBeforeEditor_frame. Qed.
Lemma setText_quiet id text st : quiet st (setText id text st).
Proof. apply quiet_of_client, setText_frame. Qed.
Lemma insertText_quiet text st : quiet st (insertText text st).
Proof. apply quiet_of_client, insertText_frame. Qed.
Lemma insertSpacer_quiet st : quiet st (insertSpacer st).
Proof. apply quiet_of_client, insertSpacer_frame. Qed.
Lemma insertMarkdown_quiet text st : quiet st (insertMarkdown text st).
Proof. apply quiet_of_client, insertMarkdown_frame. Qed.
Lemma showLoader_quiet message st : quiet st (showLoader message st).
Proof. apply quiet_of_client, showLoader_frame. Qed.
Lemma removeLoader_quiet st : quiet st (removeLoader st).
Proof. apply quiet_of_client, removeLoader_frame. Qed.
Lemma finalizeStream_quiet st : quiet st (finalizeStream st).
Proof. apply quiet_of_client, finalizeStream_frame. Qed.
Lemma handleMessage_quiet msg st : quiet st (handleMessage rt msg st).
Proof. apply quiet_of_client, handleMessage_client. Qed.

Create HintDb quiet.

#[local] Hint Resolve quiet_refl addChild_quiet removeChild_quiet insertBeforeEditor_quiet
  setText_quiet insertText_quiet insertSpacer_quiet insertMarkdown_quiet
  showLoader_quiet removeLoader_quiet finalizeStream_quiet handleMessage_quiet
  : quiet.

(** A change of a field other than the frames written. *)
Ltac quiet_setter :=
  match goal with
  | |- quiet ?x _ => generalize x; intro; reflexivity
  end.

(** A composition of quiet steps, from the outside in. *)
Ltac quiet :=
  cbv beta iota zeta;
  lazymatch goal with
  | |- quiet ?st ?st => apply quiet_refl
  | |- quiet _ (match ?x with _ => _ end) => destruct x eqn:?; quiet
  | |- quiet _ (?f ?x) =>
      apply (quiet_trans _ x);
      [ quiet | first [ solve [auto with quiet] | quiet_setter ] ]
  | |- quiet _ _ => assumption
  end.

Lemma dismissBanner_quiet st : quiet st (dismissBanner st).
Proof. unfold dismissBanner, setFocus. quiet. Qed.

Lemma cleanup_quiet st : quiet st (cleanup st).
Proof. unfold cleanup, dispose. quiet. Qed.

Lemma clearConversation_quiet st : quiet st (clearConversation st).
Proof.
  unfold clearConversation.
  set (toRemove := List.filter _ _). clearbody toRemove.
  eapply quiet_trans; [| apply insertSpacer_quiet].
  revert st. induction toRemove as [| c l IH]; intros st; [apply quiet_refl |].
  cbn [fold_left]. eapply quiet_trans; [apply removeChild_quiet | apply IH].
Qed.

Lemma showStatus_quiet st : quiet st (showStatus rt st).
Proof. unfold showStatus. quiet. Qed.

Lemma showHelp_quiet st : quiet st (showHelp st).
Proof. unfold showHelp. quiet. Qed.

#[local] Hint Resolve dismissBanner_quiet cleanup_quiet clearConversation_quiet
  showStatus_quiet showHelp_quiet : quiet.

Section Emits.

Context (P : ClientMessage -> bool).

(** The methods of the client that write a frame. *)
Ltac by_send'' :=
  intros; unfold sendUserMessage, interrupt, setModel, setPermissionMode,
    mcpGetStatus, mcpToggle, mcpReconnect, sendPermissionResponse, randomUUID;
  cbv beta iota zeta;
  lazymatch goal with
  | |- emits _ ?st (send ?msg ?st1) =>
      apply (quiet_emits _ st st1); [reflexivity | apply send_emits; auto]
  end.

Lemma sendUserMessage_emits content st :
  (forall id, P (c_user_message content id) = true) ->
  emits P st (sendUserMessage content st).
Proof. by_send''. Qed.

Lemma interrupt_emits st :
  (forall id, P (c_interrupt id) = true) -> emits P st (interrupt st).
Proof. by_send''. Qed.

Lemma setModel_emits model st :
  (forall id, P (c_set_model model id) = true) ->
  emits P st (setModel model st).
Proof. by_send''. Qed.

Lemma setPermissionMode_emits mode st :
  (forall id, P (c_set_permission_mode mode id) = true) ->
  emits P st (setPermissionMode mode st).
Proof. by_send''. Qed.

Lemma mcpGetStatus_emits st :
  (forall id, P (c_mcp_get_status id) = true) -> emits P st (mcpGetStatus st).
Proof. by_send''. Qed.

Lemma mcpToggle_emits name enabled st :
  (forall id, P (c_mcp_toggle name enabled id) = true) ->
  emits P st (mcpToggle name enabled st).
Proof. by_send''. Qed.

Lemma mcpReconnect_emits name st :
  (forall id, P (c_mcp_reconnect name id) = true) ->
  emits P st (mcpReconnect name st).
Proof. by_send''. Qed.

Lemma sendPermissionResponse_emits r behavior st :
  (forall id, P (c_permission_response r behavior id) = true) ->
  emits P st (sendPermissionResponse r behavior st).
Proof. by_send''. Qed.

End Emits.

(** One frame, written by the method at the head of [x]; the steps before
    and behind it are quiet. *)
Ltac emits :=
  cbv beta iota zeta;
  lazymatch goal with
  | |- emits _ ?st ?st => apply emits_of_quiet, quiet_refl
  | |- emits _ _ (match ?x with _ => _ end) => destruct x eqn:?; emits
  | |- emits _ _ (?f ?x) =>
      first
        [ apply (quiet_emits _ _ x);
          [ quiet
          | first [ apply sendUserMessage_emits | apply interrupt_emits
                  | apply setModel_emits | apply setPermissionMode_emits
                  | apply mcpGetStatus_emits | apply mcpToggle_emits
                  | apply mcpReconnect_emits
                  | apply sendPermissionResponse_emits ];
            reflexivity ]
        | apply (emits_quiet _ _ x);
          [ emits | first [ solve [auto with quiet] | quiet_setter ] ] ]
  | |- emits _ _ _ => assumption
  end.

Lemma onRespond_emits now data request behavior st :
  emits (may_send (Input data now)) st (onRespond request behavior st).
Proof. unfold onRespond, setFocus. emits. Qed.

Lemma handleInput_emits data now st :
  emits (may_send (Input data now)) st (handleInput data now st).
Proof.
  unfold handleInput, inputListener.
  repeat match goal with
  | |- context [if ?b then _ else _] => destruct b eqn:?
  end; cbv beta iota zeta;
  try (apply emits_of_quiet; solve [auto with quiet]);
  try solve [emits];
  try (destruct (focus (tui st)) as [[] |];
       try (apply emits_of_quiet, quiet_refl);
       unfold PermissionBanner_handleInput;
       repeat match goal with
       | |- context [if ?b then _ else _] => destruct b eqn:?
       end;
       first [apply onRespond_emits | apply emits_of_quiet, quiet_refl]).
Qed.

Lemma onSubmit_emits text st :
  emits (may_send (EditorSubmit text)) st (onSubmit rt text st).
Proof.
  unfold onSubmit.
  destruct (negb (truthy (trim rt text))); [apply emits_of_quiet, quiet_refl |].
  assert (Hs : forall cmd,
    emits (may_send (EditorSubmit text)) st
      (snd (handleSlashCommand rt cmd st))).
  { intros cmd. unfold handleSlashCommand.
    repeat match goal with
    | |- context [if String.eqb ?a ?b || ?c then _ else _] =>
        destruct (String.eqb a b || c)
    | |- context [if String.eqb ?a ?b then _ else _] =>
        destruct (String.eqb a b)
    end; cbn [snd];
    try (apply emits_of_quiet; solve [auto with quiet]).
    - unfold showMcp. emits.
    - unfold showModelPicker, new_SelectList, alloc, setFocus.
      destruct (if truthy _ then _ else _); emits.
    - unfold showModePicker, new_SelectList, alloc, setFocus.
      destruct (if truthy _ then _ else _); emits. }
  destruct (String.prefix "/" (trim rt text)).
  - specialize (Hs (trim rt text)).
    destruct (handleSlashCommand rt (trim rt text) st) as [[] st1] eqn:E;
      cbn [snd] in Hs; [exact Hs |].
    assert (st1 = st) as ->.
    { revert E. unfold handleSlashCommand.
      repeat match goal with
      | |- context [if ?b then _ else _] => destruct b
      end; congruence. }
    clear Hs E. 
    destruct (mcpAction rt (trim rt text) st) as [st2 |] eqn:Ea.
    + revert Ea. unfold mcpAction.
      repeat match goal with
      | |- context [match ?x with _ => _ end] => destruct x eqn:?
      end; try discriminate; intros [= <-]; emits.
    + destruct (isRunning (statusBar st)); emits.
  - destruct (mcpAction rt (trim rt text) st) as [st2 |] eqn:Ea.
    + revert Ea. unfold mcpAction.
      repeat match goal with
      | |- context [match ?x with _ => _ end] => destruct x eqn:?
      end; try discriminate; intros [= <-]; emits.
    + destruct (isRunning (statusBar st)); emits.
Qed.

Lemma dispatch_emits ev st : emits (may_send ev) st (dispatch rt ev st).
Proof.
  unfold dispatch. destruct (exited (vars st)); [apply emits_of_quiet, quiet_refl |].
  destruct ev.
  - destruct (ws (client st)) as [[] |]; try (apply emits_of_quiet, quiet_refl).
    unfold ws_on_open, onStatusChange.
    apply (quiet_emits _ _ (set_connectionStatus connected (set_ws (Some OPEN) st)));
      [reflexivity | apply send_emits; reflexivity].
  - destruct (ws (client st)) as [[] |]; try (apply emits_of_quiet, quiet_refl).
    apply emits_of_quiet. unfold ws_on_message.
    destruct (JSON_parse rt data); [| apply quiet_refl].
    eapply quiet_trans; [| apply handleMessage_quiet].
    destruct (seq_of s); reflexivity.
  - destruct (ws (client st)); apply emits_of_quiet; [| apply quiet_refl].
    unfold ws_on_close, scheduleReconnect, onStatusChange. cbn.
    destruct (disposed (client st)); reflexivity.
  - apply emits_of_quiet. destruct (reconnectTimer (client st)); [| apply quiet_refl].
    unfold connect, onStatusChange. cbn.
    destruct (disposed (client st)); reflexivity.
  - destruct (mcpTimers (vars st)); [apply emits_of_quiet, quiet_refl |]. emits.
  - apply handleInput_emits.
  - destruct (focus (tui st)) as [[] |]; try (apply emits_of_quiet, quiet_refl).
    apply onSubmit_emits.
  - destruct (focus (tui st)) as [[] |]; try (apply emits_of_quiet, quiet_refl).
    unfold onSelect, setFocus. emits.
  - destruct (focus (tui st)) as [[] |]; try (apply emits_of_quiet, quiet_refl).
    unfold onCancel, setFocus. apply emits_of_quiet. quiet.
Qed.

(** X21.  The frames written during a run follow its events: every frame is
    of a kind that the handler of one of the events writes, and there are at
    most as many frames as events.  A frame that arrives, the close of the
    socket, the reconnect timer and the cancelling of a picker write none. *)
Theorem frames_follow_events (evs : list Event) (st : State) :
  exists more,
    sent (client (run rt evs st)) = sent (client st) ++ more
    /\ length more <= length evs
    /\ Forall (fun m => existsb (fun ev => may_send ev m) evs = true) more.
Proof.
  revert st. induction evs as [| ev evs IH]; intros st.
  - exists []. cbn. rewrite app_nil_r. repeat split; [lia | constructor].
  - unfold run. cbn [fold_left]. fold (run rt evs (dispatch rt ev st)).
    destruct (IH (dispatch rt ev st)) as (more2 & H2 & Hl2 & Hf2).
    destruct (dispatch_emits ev st) as (more1 & H1 & Hl1 & Hf1).
    exists (more1 ++ more2). rewrite H2, H1, <- app_assoc.
    repeat split.
    + rewrite length_app. cbn [length]. lia.
    + apply Forall_app. split.
      * eapply Forall_impl; [exact Hf1 |]. cbn. intros m ->. reflexivity.
      * eapply Forall_impl; [exact Hf2 |]. cbn. intros m ->.
        apply orb_true_r.
Qed.

End Frames.

(** * The permission banner on the screen *)

Section Banner.

#[local] Open Scope list_scope.

Context (rt : Runtime) (chalk : Chalk).

Lemma push_all {A B} (f : A -> B) (l : list A) (lines : list B) :
  fold_left (fun lines x => lines ++ [f x]) l lines = lines ++ map f l.
Proof.
  revert lines. induction l as [| x l IH]; intros lines; cbn.
  - now rewrite app_nil_r.
  - rewrite IH, <- app_assoc. reflexivity.
Qed.

(** X22.  The banner of a permission request takes between 6 and 17 lines
    of the screen, whatever the input of the tool is: of the input at most
    ten lines are shown, in order, and a line that says so follows when
    there are more.  The last three lines are an empty line, the line that
    names the keys, and an empty line. *)
Theorem banner_fits (r : PermissionRequest) (width : nat) :
  let inputStr := formatToolInput rt (tool_name r) (input r) in
  let lines := PermissionBanner_render rt chalk r width in
  exists shown,
    lines =
      [ ""; bgYellow_black chalk " PERMISSION REQUEST ";
        yellow chalk ("Tool: " +:+ tool_name r) ]
      ++ shown ++ [""; keys_line chalk; ""]
    /\ length shown <= 11
    /\ 6 <= length lines <= 17
    /\ (inputStr = "" -> shown = [])
    /\ (inputStr <> "" ->
        exists rest,
          shown =
            map (fun line => dim chalk ("  " +:+ line))
                (take 10 (split_lines inputStr)) ++ rest
          /\ rest =
               if (10 <? length (split_lines inputStr))%nat
               then [dim chalk "  ... (truncated)"] else []).
Proof.
  intros inputStr lines. subst lines. unfold PermissionBanner_render.
  fold inputStr. rewrite push_all.
  set (body := map _ (take 10 (split_lines inputStr))).
  assert (Hb : length body <= 10).
  { subst body. rewrite length_map, length_take. lia. }
  assert (Ht : truthy inputStr = true <-> inputStr <> "").
  { unfold truthy. rewrite negb_true_iff. apply String.eqb_neq. }
  destruct (truthy inputStr) eqn:E.
  - assert (Hn : inputStr <> "") by now apply Ht.
    destruct (10 <? length (split_lines inputStr))%nat eqn:El.
    + exists (body ++ [dim chalk "  ... (truncated)"]).
      repeat split; rewrite ?length_app; cbn [length]; rewrite ?length_app;
        cbn [length]; try lia.
      * now rewrite <- !app_assoc.
      * intros ->. now contradiction Hn.
      * intros _. eexists. split; reflexivity.
    + exists body.
      repeat split; rewrite ?length_app; cbn [length]; rewrite ?length_app;
        cbn [length]; try lia.
      * now rewrite <- !app_assoc.
      * intros ->. now contradiction Hn.
      * intros _. exists []. now rewrite app_nil_r.
  - exists []. repeat split; cbn; try lia. intros Hn. apply Ht in Hn.
    discriminate.
Qed.

End Banner.
